(** * Happy Go Lucky: the persistence core and its state-machine value types

    A shallow embedding of
    - [Utils/UserStatus.ts] and [Utils/UserRole.ts] (the two value types with
      a static transition table),
    - [Models/User.ts] (the serializable user entity),
    - [Managers/TermManager.ts] and [Managers/CourseManager.ts] (deletion
      guards and the schedule of a course),
    - the relational schema of [databaseInitializer.ts].

    JavaScript objects live in a heap and are named by their location, so
    that "the same instance" and "a new instance" can be told apart.
    Exceptions are an error result. *)

From Stdlib Require Import ZArith String List Lia Bool.
From stdpp Require Import base option list strings.

Local Open Scope string_scope.
Local Open Scope Z_scope.

(** ** Exceptions and results *)

Inductive exn : Type :=
| Error (message : string)
| ReferenceError (message : string)
| TypeError (message : string)
| IllegalArgumentException (message : string)
| MethodFailedException (message : string)
| ConstraintViolation (message : string).

Inductive result (A : Type) : Type :=
| Ok (a : A)
| Throw (e : exn).
Arguments Ok {A} a.
Arguments Throw {A} e.

(** ** Plain JavaScript objects with string keys *)

Module Js.

(** The own string-keyed properties of an object literal, in declaration
    order. *)
Definition props (V : Type) := list (string * V).

Fixpoint own {V} (o : props V) (k : string) : option V :=
  match o with
  | [] => None
  | (k', v) :: o' => if String.eqb k k' then Some v else own o' k
  end.

(** The property names every plain object inherits from
    [Object.prototype]. *)
Definition Object_prototype : list string :=
  [ "constructor"; "__defineGetter__"; "__defineSetter__";
    "hasOwnProperty"; "__lookupGetter__"; "__lookupSetter__";
    "isPrototypeOf"; "propertyIsEnumerable"; "toString"; "valueOf";
    "__proto__"; "toLocaleString" ].

(** [Array.prototype.includes] on an array of strings. *)
Fixpoint includes (l : list string) (x : string) : bool :=
  match l with
  | [] => false
  | y :: l' => String.eqb y x || includes l' x
  end.

(** [k in o]: own properties first, then the prototype chain. *)
Definition has_property {V} (k : string) (o : props V) : bool :=
  match own o k with
  | Some _ => true
  | None => includes Object_prototype k
  end.

(** [o[k].includes(x)] for an object whose own properties are arrays: an
    inherited property is no array, and a missing one is [undefined]. *)
Definition includes_at (o : props (list string)) (k x : string) : result bool :=
  match own o k with
  | Some l => Ok (includes l x)
  | None =>
      if includes Object_prototype k
      then Throw (TypeError "allowedTransitions.includes is not a function")
      else Throw (TypeError "Cannot read properties of undefined (reading 'includes')")
  end.

(** Resolving an identifier in the bindings of a module; an identifier
    that is bound nowhere raises a [ReferenceError]. *)
Definition resolve {V} (scope : props V) (name : string) : result V :=
  match own scope name with
  | Some v => Ok v
  | None => Throw (ReferenceError (name ++ " is not defined"))
  end.

End Js.

(** ** Stateful computations that may throw

    A thrown exception does not undo what the computation did before: the
    state reached at the throw is kept next to the exception. *)

Definition St (S A : Type) : Type := S -> result A * S.

Definition ret {S A} (a : A) : St S A := fun s => (Ok a, s).
Definition throw {S A} (e : exn) : St S A := fun s => (Throw e, s).
Definition bind {S A B} (m : St S A) (k : A -> St S B) : St S B :=
  fun s => match m s with
           | (Ok a, s') => k a s'
           | (Throw e, s') => (Throw e, s')
           end.
Definition lift {S A} (r : result A) : St S A := fun s => (r, s).
Definition get {S} : St S S := fun s => (Ok s, s).

Notation "'let*' x ':=' m 'in' k" := (bind m (fun x => k))
  (at level 10, x name, m at level 100, k at level 200).

(** ** The heap of value objects *)

Definition loc := nat.

Inductive object : Type :=
| UserStatusObject (status : string)
| UserRoleObject (role : string).

Definition heap := list object.

Definition M := St heap.

(** [new C(...)] once the constructor body has run through: the object is
    placed at the next free location. *)
Definition alloc (o : object) : M loc :=
  fun h => (Ok (length h), (h ++ [o])%list).

Definition deref (l : loc) : M object :=
  fun h => match h !! l with
           | Some o => (Ok o, h)
           | None => (Throw (TypeError "Cannot read properties of undefined"), h)
           end.

(** ** Utils/UserStatus.ts *)

Module UserStatus.

Definition UserStatusEnum : Js.props string :=
  [ ("confirmed", "confirmed");
    ("unconfirmed", "unconfirmed");
    ("suspended", "suspended");
    ("removed", "removed") ].

Definition module_scope : Js.props (Js.props string) :=
  [ ("UserStatusEnum", UserStatusEnum) ].

Definition validTransitions : Js.props (list string) :=
  [ ("confirmed", ["suspended"]);
    ("unconfirmed", ["confirmed"; "suspended"; "removed"]);
    ("suspended", ["confirmed"; "removed"]);
    ("removed", []) ].

Definition this_status (this : loc) : M string :=
  let* o := deref this in
  match o with
  | UserStatusObject s => ret s
  | _ => throw (TypeError "not a UserStatus")
  end.

(** [constructor(initialStatus = UserStatusEnum.unconfirmed)]; the
    argument is [None] when the caller passes nothing. *)
Definition new (arg : option string) : M loc :=
  let initialStatus := default "unconfirmed" arg in
  let* enum := lift (Js.resolve module_scope "UserStatusEnum") in
  if negb (Js.has_property initialStatus enum)
  then throw (Error ("Invalid initial status: " ++ initialStatus))
  else alloc (UserStatusObject initialStatus).

Definition getStatusString (this : loc) : M string := this_status this.

Definition getStatusEnum (this : loc) : M string := this_status this.

Definition canTransitionTo (this : loc) (newStatus : string) : M bool :=
  let* status := this_status this in
  lift (Js.includes_at validTransitions status newStatus).

Definition transitionTo (this : loc) (newStatus : string) : M loc :=
  let* status := this_status this in
  if String.eqb status newStatus then ret this
  else
    let* can := canTransitionTo this newStatus in
    if can then new (Some newStatus)
    else throw (Error ("Invalid transition from " ++ status ++ " to " ++ newStatus)).

End UserStatus.

(** ** Utils/UserRole.ts *)

Module UserRole.

Definition UserRoleEnum : Js.props string :=
  [ ("USER", "USER"); ("ADMIN", "ADMIN") ].

(** The bindings the module declares: the enum (the class itself is not a
    plain object and is not looked up by the code below). *)
Definition module_scope : Js.props (Js.props string) :=
  [ ("UserRoleEnum", UserRoleEnum) ].

Definition validTransitions : Js.props (list string) :=
  [ ("USER", ["ADMIN"]);
    ("ADMIN", ["USER"]) ].

Definition this_role (this : loc) : M string :=
  let* o := deref this in
  match o with
  | UserRoleObject r => ret r
  | _ => throw (TypeError "not a UserRole")
  end.

(** [constructor(initialRole = UserRoleEnum.USER)]: the guard reads
    [if (initialRole in UserRoleEnaum)], with that spelling and without a
    negation. *)
Definition new (arg : option string) : M loc :=
  let initialRole := default "USER" arg in
  let* enum := lift (Js.resolve module_scope "UserRoleEnaum") in
  if Js.has_property initialRole enum
  then throw (Error ("Invalid initial role: " ++ initialRole))
  else alloc (UserRoleObject initialRole).

Definition getRoleObject (this : loc) : M loc := ret this.

Definition getRoleString (this : loc) : M string := this_role this.

Definition canTransitionTo (this : loc) (newRole : string) : M bool :=
  let* role := this_role this in
  lift (Js.includes_at validTransitions role newRole).

Definition transitionTo (this : loc) (newRole : string) : M loc :=
  let* role := this_role this in
  if String.eqb role newRole then ret this
  else
    let* can := canTransitionTo this newRole in
    if can then new (Some newRole)
    else throw (Error ("Invalid transition from " ++ role ++ " to " ++ newRole)).

End UserRole.

(** ** Serializer/Reader.ts and Serializer/Writer.ts

    Both are interfaces.  A reader answers a column name with the stored
    value, [None] for SQL [NULL]; the calls an entity makes on a writer are
    recorded in the order in which they are made. *)

Record Reader : Type := {
  readNumber : string -> option Z;
  readString : string -> option string
}.


(** ** ValueTypes/Email.ts

    The class is not among the sources; the user entity only calls its
    constructor, which may throw, and [toString]. *)

Class EmailClass : Type := {
  Email : Type;
  Email_new : string -> result Email;
  Email_toString : Email -> string
}.

(** ** Models/User.ts *)

Module User.
Section User.

Context {E : EmailClass}.

(** The fields of a user.  [status] is a reference to a [UserStatus]
    object.  [id] and [role] are declared non-null but are assigned from
    the reader through an [as] cast, which lets a [null] through. *)
Record User : Type := {
  id : option Z;
  name : option string;
  githubUsername : option string;
  email : option Email;
  status : loc;
  role : option string;
  password : option string;
  resetPasswordToken : option string;
  resetPasswordExpire : option Z;
  confirmEmailToken : option string;
  confirmEmailExpire : option Z
}.

(** [constructor(id: number)], after the field initialisers. *)
Definition new (id0 : Z) : M User :=
  let* st := UserStatus.new None in
  ret {| id := Some id0; name := None; githubUsername := None;
         email := None; status := st; role := Some "USER";
         password := None; resetPasswordToken := None;
         resetPasswordExpire := None; confirmEmailToken := None;
         confirmEmailExpire := None |}.

(** [this.status.transitionTo(v as UserStatusEnum)] for a value [v] that
    may be [null]: [null] is no status and is in no transition list. *)
Definition status_transitionTo (st : loc) (v : option string) : M loc :=
  match v with
  | Some newStatus => UserStatus.transitionTo st newStatus
  | None =>
      let* current := UserStatus.getStatusString st in
      throw (Error ("Invalid transition from " ++ current ++ " to null"))
  end.

(** A method that assigns to several fields of its receiver runs on the
    fields of the receiver and on the heap of value objects.  An assignment
    [this.f = v] changes the first at once: what has been assigned before a
    throw stays assigned. *)
Definition Method (A : Type) : Type := St (User * heap) A.

(** [this.f = v], for the field that [f] updates. *)
Definition assign (f : User -> User) : Method unit :=
  fun s => (Ok tt, (f (fst s), snd s)).

(** [this.f] *)
Definition this_field {A} (f : User -> A) : Method A :=
  fun s => (Ok (f (fst s)), s).

(** A call on a value object: it sees the heap and no field of the
    receiver. *)
Definition on_heap {A} (m : M A) : Method A :=
  fun s => match m (snd s) with
           | (r, h') => (r, (fst s, h'))
           end.

Definition set_id (v : option Z) (u : User) : User :=
  {| id := v; name := name u; githubUsername := githubUsername u;
     email := email u; status := status u; role := role u;
     password := password u; resetPasswordToken := resetPasswordToken u;
     resetPasswordExpire := resetPasswordExpire u;
     confirmEmailToken := confirmEmailToken u;
     confirmEmailExpire := confirmEmailExpire u |}.

Definition set_name (v : option string) (u : User) : User :=
  {| id := id u; name := v; githubUsername := githubUsername u;
     email := email u; status := status u; role := role u;
     password := password u; resetPasswordToken := resetPasswordToken u;
     resetPasswordExpire := resetPasswordExpire u;
     confirmEmailToken := confirmEmailToken u;
     confirmEmailExpire := confirmEmailExpire u |}.

Definition set_githubUsername (v : option string) (u : User) : User :=
  {| id := id u; name := name u; githubUsername := v;
     email := email u; status := status u; role := role u;
     password := password u; resetPasswordToken := resetPasswordToken u;
     resetPasswordExpire := resetPasswordExpire u;
     confirmEmailToken := confirmEmailToken u;
     confirmEmailExpire := confirmEmailExpire u |}.

Definition set_email (v : option Email) (u : User) : User :=
  {| id := id u; name := name u; githubUsername := githubUsername u;
     email := v; status := status u; role := role u;
     password := password u; resetPasswordToken := resetPasswordToken u;
     resetPasswordExpire := resetPasswordExpire u;
     confirmEmailToken := confirmEmailToken u;
     confirmEmailExpire := confirmEmailExpire u |}.

Definition set_status (v : loc) (u : User) : User :=
  {| id := id u; name := name u; githubUsername := githubUsername u;
     email := email u; status := v; role := role u;
     password := password u; resetPasswordToken := resetPasswordToken u;
     resetPasswordExpire := resetPasswordExpire u;
     confirmEmailToken := confirmEmailToken u;
     confirmEmailExpire := confirmEmailExpire u |}.

Definition set_role (v : option string) (u : User) : User :=
  {| id := id u; name := name u; githubUsername := githubUsername u;
     email := email u; status := status u; role := v;
     password := password u; resetPasswordToken := resetPasswordToken u;
     resetPasswordExpire := resetPasswordExpire u;
     confirmEmailToken := confirmEmailToken u;
     confirmEmailExpire := confirmEmailExpire u |}.

Definition set_password (v : option string) (u : User) : User :=
  {| id := id u; name := name u; githubUsername := githubUsername u;
     email := email u; status := status u; role := role u;
     password := v; resetPasswordToken := resetPasswordToken u;
     resetPasswordExpire := resetPasswordExpire u;
     confirmEmailToken := confirmEmailToken u;
     confirmEmailExpire := confirmEmailExpire u |}.

Definition set_resetPasswordToken (v : option string) (u : User) : User :=
  {| id := id u; name := name u; githubUsername := githubUsername u;
     email := email u; status := status u; role := role u;
     password := password u; resetPasswordToken := v;
     resetPasswordExpire := resetPasswordExpire u;
     confirmEmailToken := confirmEmailToken u;
     confirmEmailExpire := confirmEmailExpire u |}.

Definition set_resetPasswordExpire (v : option Z) (u : User) : User :=
  {| id := id u; name := name u; githubUsername := githubUsername u;
     email := email u; status := status u; role := role u;
     password := password u; resetPasswordToken := resetPasswordToken u;
     resetPasswordExpire := v;
     confirmEmailToken := confirmEmailToken u;
     confirmEmailExpire := confirmEmailExpire u |}.

Definition set_confirmEmailToken (v : option string) (u : User) : User :=
  {| id := id u; name := name u; githubUsername := githubUsername u;
     email := email u; status := status u; role := role u;
     password := password u; resetPasswordToken := resetPasswordToken u;
     resetPasswordExpire := resetPasswordExpire u;
     confirmEmailToken := v;
     confirmEmailExpire := confirmEmailExpire u |}.

Definition set_confirmEmailExpire (v : option Z) (u : User) : User :=
  {| id := id u; name := name u; githubUsername := githubUsername u;
     email := email u; status := status u; role := role u;
     password := password u; resetPasswordToken := resetPasswordToken u;
     resetPasswordExpire := resetPasswordExpire u;
     confirmEmailToken := confirmEmailToken u;
     confirmEmailExpire := v |}.

(** [readFrom(reader: Reader): void]: eleven assignments to [this], in the
    order of the source.  [new Email(emailString)] and
    [this.status.transitionTo(...)] may throw; the assignments made before
    stay. *)
Definition readFrom (reader : Reader) : Method unit :=
  let* _ := assign (set_id (readNumber reader "id")) in
  let* _ := assign (set_name (readString reader "name")) in
  let* _ := assign (set_githubUsername (readString reader "githubUsername")) in
  let emailString := readString reader "email" in
  let* _ :=
    match emailString with
    | Some s => let* e := lift (Email_new s) in assign (set_email (Some e))
    | None => assign (set_email None)
    end in
  let* st := this_field status in
  let* st' := on_heap (status_transitionTo st (readString reader "status")) in
  let* _ := assign (set_status st') in
  let* _ := assign (set_role (readString reader "userRole")) in
  let* _ := assign (set_password (readString reader "password")) in
  let* _ := assign (set_resetPasswordToken (readString reader "resetPasswordToken")) in
  let* _ := assign (set_resetPasswordExpire (readNumber reader "resetPasswordExpire")) in
  let* _ := assign (set_confirmEmailToken (readString reader "confirmEmailToken")) in
  assign (set_confirmEmailExpire (readNumber reader "confirmEmailExpire")).


Definition getStatus (this : User) : M string :=
  UserStatus.getStatusString (status this).

Definition getRole (this : User) : option string := role this.

(** [setStatus] and [setRole] make one assignment, the last thing they do:
    they are given by the fields of the receiver after the call. *)
Definition setStatus (this : User) (status0 : string) : M User :=
  let* st := UserStatus.transitionTo (status this) status0 in
  ret {| id := id this; name := name this;
         githubUsername := githubUsername this; email := email this;
         status := st; role := role this; password := password this;
         resetPasswordToken := resetPasswordToken this;
         resetPasswordExpire := resetPasswordExpire this;
         confirmEmailToken := confirmEmailToken this;
         confirmEmailExpire := confirmEmailExpire this |}.

Definition setRole (this : User) (role0 : string) : M User :=
  ret {| id := id this; name := name this;
         githubUsername := githubUsername this; email := email this;
         status := status this; role := Some role0;
         password := password this;
         resetPasswordToken := resetPasswordToken this;
         resetPasswordExpire := resetPasswordExpire this;
         confirmEmailToken := confirmEmailToken this;
         confirmEmailExpire := confirmEmailExpire this |}.

End User.
End User.


(** ** databaseInitializer.ts: the relational schema

    One record per table, one field per column; a column that may hold SQL
    [NULL] is an [option].  Dates are stored as integers. *)

Module users.
Record row : Type := {
  id : Z;
  name : option string;
  githubUsername : option string;
  email : option string;
  status : string;
  password : option string;
  resetPasswordToken : option string;
  resetPasswordExpire : option Z;
  confirmEmailToken : option string;
  confirmEmailExpire : option Z;
  userRole : string
}.
End users.

Module terms.
Record row : Type := {
  id : Z;
  termName : option string;
  displayName : option string
}.
End terms.

Module courses.
Record row : Type := {
  id : Z;
  courseName : option string;
  termId : Z
}.
End courses.

Module projects.
Record row : Type := {
  id : Z;
  projectName : option string;
  courseId : option Z
}.
End projects.

Module user_projects.
Record row : Type := {
  userId : option Z;
  projectId : option Z;
  role : option string;
  url : option string
}.
End user_projects.

Module happiness.
Record row : Type := {
  id : Z;
  projectId : option Z;
  userId : option Z;
  happiness : option Z;
  submissionDateId : option Z;
  timestamp : option string
}.
End happiness.

Module schedules.
Record row : Type := {
  id : Z;
  startDate : option Z;
  endDate : option Z
}.
End schedules.

Module submissions.
Record row : Type := {
  id : Z;
  scheduleId : option Z;
  submissionDate : option Z
}.
End submissions.

Record Database : Type := {
  users : list users.row;
  terms : list terms.row;
  courses : list courses.row;
  projects : list projects.row;
  user_projects : list user_projects.row;
  happiness : list happiness.row;
  schedules : list schedules.row;
  submissions : list submissions.row
}.

Definition DB := St Database.

Definition set_terms (t : list terms.row) (db : Database) : Database :=
  {| users := users db; terms := t; courses := courses db;
     projects := projects db; user_projects := user_projects db;
     happiness := happiness db; schedules := schedules db;
     submissions := submissions db |}.

Definition set_courses (c : list courses.row) (db : Database) : Database :=
  {| users := users db; terms := terms db; courses := c;
     projects := projects db; user_projects := user_projects db;
     happiness := happiness db; schedules := schedules db;
     submissions := submissions db |}.

Definition set_schedules (s : list schedules.row) (db : Database) : Database :=
  {| users := users db; terms := terms db; courses := courses db;
     projects := projects db; user_projects := user_projects db;
     happiness := happiness db; schedules := s;
     submissions := submissions db |}.

Definition set_submissions (s : list submissions.row) (db : Database) : Database :=
  {| users := users db; terms := terms db; courses := courses db;
     projects := projects db; user_projects := user_projects db;
     happiness := happiness db; schedules := schedules db;
     submissions := s |}.

Definition set_users (u : list users.row) (db : Database) : Database :=
  {| users := u; terms := terms db; courses := courses db;
     projects := projects db; user_projects := user_projects db;
     happiness := happiness db; schedules := schedules db;
     submissions := submissions db |}.

Definition set_projects (p : list projects.row) (db : Database) : Database :=
  {| users := users db; terms := terms db; courses := courses db;
     projects := p; user_projects := user_projects db;
     happiness := happiness db; schedules := schedules db;
     submissions := submissions db |}.

Definition set_user_projects (p : list user_projects.row) (db : Database) : Database :=
  {| users := users db; terms := terms db; courses := courses db;
     projects := projects db; user_projects := p;
     happiness := happiness db; schedules := schedules db;
     submissions := submissions db |}.

(** *** SQL values: comparison with [NULL] is unknown *)

Module Sql.

Definition eq (a : option Z) (b : Z) : bool :=
  match a with Some x => x =? b | None => false end.

Definition lt (a b : option Z) : option bool :=
  match a, b with Some x, Some y => Some (x <? y) | _, _ => None end.

Definition gt (a b : option Z) : option bool :=
  match a, b with Some x, Some y => Some (y <? x) | _, _ => None end.

Definition or (a b : option bool) : option bool :=
  match a, b with
  | Some true, _ | _, Some true => Some true
  | Some false, Some false => Some false
  | _, _ => None
  end.

(** A [WHERE] clause keeps a row only when its condition is true. *)
Definition holds (c : option bool) : bool :=
  match c with Some true => true | _ => false end.

(** The rowid given to a row inserted without one: one more than the
    largest in use, and 1 in an empty table. *)
Definition next_rowid (ids : list Z) : Z :=
  match ids with
  | [] => 1
  | i :: rest => 1 + fold_left Z.max rest i
  end.

End Sql.

(** *** The statements the managers send

    The connection is opened without [PRAGMA foreign_keys], so the
    [FOREIGN KEY] clauses of the schema are not enforced and a [DELETE]
    removes exactly the rows its [WHERE] clause selects. *)

Module Stmt.

(** [db.get("SELECT id FROM terms WHERE id = ?", [termId])] *)
Definition get_term_id (termId : Z) : DB (option Z) :=
  fun db => (Ok (head (map terms.id
              (List.filter (fun r => terms.id r =? termId) (terms db)))), db).

(** [db.all("SELECT id FROM courses WHERE termId = ?", [termId])] *)
Definition all_course_ids_of_term (termId : Z) : DB (list Z) :=
  fun db => (Ok (map courses.id
              (List.filter (fun r => courses.termId r =? termId) (courses db))), db).

(** [db.run("DELETE FROM terms WHERE id = ?", [termId])] *)
Definition delete_term (termId : Z) : DB unit :=
  fun db => (Ok tt,
             set_terms (List.filter (fun r => negb (terms.id r =? termId)) (terms db)) db).

(** [db.get("SELECT id FROM courses WHERE id = ?", [courseId])] *)
Definition get_course_id (courseId : Z) : DB (option Z) :=
  fun db => (Ok (head (map courses.id
              (List.filter (fun r => courses.id r =? courseId) (courses db)))), db).

(** [db.all("SELECT id FROM projects WHERE courseId = ?", [courseId])] *)
Definition all_project_ids_of_course (courseId : Z) : DB (list Z) :=
  fun db => (Ok (map projects.id
              (List.filter (fun r => Sql.eq (projects.courseId r) courseId)
                 (projects db))), db).

(** [db.run("DELETE FROM submissions WHERE scheduleId = ?", [courseId])] *)
Definition delete_submissions_of (scheduleId : Z) : DB unit :=
  fun db => (Ok tt,
             set_submissions
               (List.filter (fun r => negb (Sql.eq (submissions.scheduleId r) scheduleId))
                  (submissions db)) db).

(** [db.run("DELETE FROM schedules WHERE id = ?", [courseId])] *)
Definition delete_schedule (id : Z) : DB unit :=
  fun db => (Ok tt,
             set_schedules
               (List.filter (fun r => negb (schedules.id r =? id)) (schedules db)) db).

(** [db.run("DELETE FROM courses WHERE id = ?", [courseId])] *)
Definition delete_course (courseId : Z) : DB unit :=
  fun db => (Ok tt,
             set_courses
               (List.filter (fun r => negb (courses.id r =? courseId)) (courses db)) db).

(** [db.run("DELETE FROM projects WHERE id = ?", [projectId])] *)
Definition delete_project (projectId : Z) : DB unit :=
  fun db => (Ok tt,
             set_projects
               (List.filter (fun r => negb (projects.id r =? projectId)) (projects db)) db).

(** [db.run("DELETE FROM user_projects WHERE projectId = ?", [projectId])] *)
Definition delete_user_projects_of (projectId : Z) : DB unit :=
  fun db => (Ok tt,
             set_user_projects
               (List.filter (fun r => negb (Sql.eq (user_projects.projectId r) projectId))
                  (user_projects db)) db).

(** [db.all("SELECT * FROM courses")] *)
Definition all_courses : DB (list courses.row) :=
  fun db => (Ok (courses db), db).

(** [db.all("SELECT * FROM terms")] *)
Definition all_terms : DB (list terms.row) :=
  fun db => (Ok (terms db), db).

(** [db.get("SELECT * FROM courses WHERE courses.courseName = ?", [courseName])] *)
Definition get_course_by_name (courseName : string) : DB (option courses.row) :=
  fun db =>
    (Ok (head (List.filter
                 (fun r => match courses.courseName r with
                           | Some n => String.eqb n courseName
                           | None => false
                           end) (courses db))), db).

(** [db.run("INSERT INTO courses (courseName, termId) VALUES (?, ?)", ...)],
    answering [lastID].  [courseName] is [UNIQUE].  The id column is
    [AUTOINCREMENT]: the rowid is chosen by the engine from a counter that
    is kept outside the tables, so it is passed in as [rowid]. *)
Definition insert_course (rowid : Z) (courseName : string) (termId : Z) : DB Z :=
  fun db =>
    if existsb (fun r => match courses.courseName r with
                         | Some n => String.eqb n courseName
                         | None => false
                         end) (courses db)
    then (Throw (ConstraintViolation "UNIQUE constraint failed: courses.courseName"), db)
    else (Ok rowid,
          set_courses
            (courses db ++
               [ {| courses.id := rowid; courses.courseName := Some courseName;
                    courses.termId := termId |} ])%list db).

End Stmt.

(** ** Managers/TermManager.ts *)

Module TermManager.

Definition deleteTerm (termId : Z) : DB bool :=
  let* term := Stmt.get_term_id termId in
  match term with
  | None => ret false
  | Some _ =>
      let* courses := Stmt.all_course_ids_of_term termId in
      if (0 <? length courses)%nat
      then throw (IllegalArgumentException
             "Cannot delete term with existing courses. Please delete all courses first.")
      else
        let* _ := Stmt.delete_term termId in
        ret true
  end.

End TermManager.

(** ** Models/CourseProject.ts, Models/Course.ts, Models/CourseSchedule.ts *)

Module CourseProject.

(** Modelled from the spec: the class is not among the sources.  Section 3
    gives an entity an [id], scalar fields and references; the reference of
    a project to its course is kept as the identity of that course. *)
Record CourseProject : Type := {
  id : Z;
  name : option string;
  course : option Z
}.

Definition setCourse (this : CourseProject) (courseId : Z) : CourseProject :=
  {| id := id this; name := name this; course := Some courseId |}.

End CourseProject.

Module Course.

(** Modelled from the spec: the class is not among the sources.  A course
    has an [id], a name and the projects attached to it by [addProject]. *)
Record Course : Type := {
  id : Z;
  name : option string;
  projects : list CourseProject.CourseProject
}.

Definition addProject (this : Course) (p : CourseProject.CourseProject) : Course :=
  {| id := id this; name := name this; projects := (projects this ++ [p])%list |}.

End Course.

Module Term.

(** Modelled from the spec: the class is not among the sources.  A term has
    an [id], a name, a display name and the courses attached to it. *)
Record Term : Type := {
  id : Z;
  termName : option string;
  displayName : option string;
  courses : list Course.Course
}.

End Term.

Module SubmissionDate.

(** Modelled from the spec: the class is not among the sources.  A
    submission date has an [id] and one date, [null] until it is set. *)
Record SubmissionDate : Type := {
  id : Z;
  submissionDate : option Z
}.

Definition setSubmissionDate (this : SubmissionDate) (date : Z) : SubmissionDate :=
  {| id := id this; submissionDate := Some date |}.

End SubmissionDate.

Module CourseSchedule.

(** Modelled from the spec: the class is not among the sources.  A schedule
    has an [id], a start and an end date, [null] until they are set, and
    owns its submission dates. *)
Record CourseSchedule : Type := {
  id : Z;
  startDate : option Z;
  endDate : option Z;
  submissionDates : list SubmissionDate.SubmissionDate
}.

Definition setId (this : CourseSchedule) (id0 : Z) : CourseSchedule :=
  {| id := id0; startDate := startDate this; endDate := endDate this;
     submissionDates := submissionDates this |}.

Definition setStartDate (this : CourseSchedule) (date : Z) : CourseSchedule :=
  {| id := id this; startDate := Some date; endDate := endDate this;
     submissionDates := submissionDates this |}.

Definition setEndDate (this : CourseSchedule) (date : Z) : CourseSchedule :=
  {| id := id this; startDate := startDate this; endDate := Some date;
     submissionDates := submissionDates this |}.

Definition setSubmissionDates (this : CourseSchedule)
    (dates : list SubmissionDate.SubmissionDate) : CourseSchedule :=
  {| id := id this; startDate := startDate this; endDate := endDate this;
     submissionDates := dates |}.

End CourseSchedule.

(** ** ObjectHandler.ts *)

Module ObjectHandler.

(** Modelled from the spec: [ObjectHandler.getCourse] is not among the
    sources.  Section 4.6, [getById]: the entity rebuilt from the row with
    that id, or nothing when there is no such row; relations are not
    resolved (section 4.5). *)
Definition getCourse (id : Z) : DB (option Course.Course) :=
  fun db =>
    (Ok (option_map
           (fun r => {| Course.id := courses.id r;
                        Course.name := courses.courseName r;
                        Course.projects := [] |})
           (head (List.filter (fun r => courses.id r =? id) (courses db)))), db).

(** Modelled from the spec: [ObjectHandler.getCourseProject] is not among
    the sources.  Section 4.6, [getById], as for [getCourse]. *)
Definition getCourseProject (id : Z) : DB (option CourseProject.CourseProject) :=
  fun db =>
    (Ok (option_map
           (fun r => {| CourseProject.id := projects.id r;
                        CourseProject.name := projects.projectName r;
                        CourseProject.course := projects.courseId r |})
           (head (List.filter (fun r => projects.id r =? id) (projects db)))), db).

(** Modelled from the spec: [ObjectHandler.getCourseSchedule] is not among
    the sources.  Section 4.6, [getById]: the schedule rebuilt from the row
    of [schedules] with that id, with the rows of [submissions] that refer
    to it as its submission dates; nothing when there is no such row. *)
Definition getCourseSchedule (id : Z) : DB (option CourseSchedule.CourseSchedule) :=
  fun db =>
    (Ok (option_map
           (fun r =>
              {| CourseSchedule.id := schedules.id r;
                 CourseSchedule.startDate := schedules.startDate r;
                 CourseSchedule.endDate := schedules.endDate r;
                 CourseSchedule.submissionDates :=
                   map (fun c => {| SubmissionDate.id := submissions.id c;
                                    SubmissionDate.submissionDate :=
                                      submissions.submissionDate c |})
                     (List.filter
                        (fun c => Sql.eq (submissions.scheduleId c) (schedules.id r))
                        (submissions db)) |})
           (head (List.filter (fun r => schedules.id r =? id) (schedules db)))), db).

(** Modelled from the spec: [ObjectHandler.getTerm] is not among the
    sources.  Section 4.6, [getById], as for [getCourse]. *)
Definition getTerm (id : Z) : DB (option Term.Term) :=
  fun db =>
    (Ok (option_map
           (fun r => {| Term.id := terms.id r;
                        Term.termName := terms.termName r;
                        Term.displayName := terms.displayName r;
                        Term.courses := [] |})
           (head (List.filter (fun r => terms.id r =? id) (terms db)))), db).

End ObjectHandler.

(** ** Managers/TermManager.ts, continued *)

Module TermManager2.

(** The loop of [getAllTerms] over the rows. *)
Fixpoint load_terms (rows : list terms.row) : DB (list Term.Term) :=
  match rows with
  | [] => ret []
  | row :: rest =>
      let* term := ObjectHandler.getTerm (terms.id row) in
      let* allTerms := load_terms rest in
      match term with
      | Some t => ret (t :: allTerms)
      | None => ret allTerms
      end
  end.

Definition getAllTerms : DB (list Term.Term) :=
  let* termRows := Stmt.all_terms in
  load_terms termRows.

End TermManager2.

(** ** Serializer/DatabaseSerializableFactory.ts *)

Module DatabaseSerializableFactory.

(** Modelled from the spec: the factory is not among the sources.  Section
    4.3, [create]: an identity is reserved by inserting an empty row, which
    receives the next rowid of its table, and an empty instance with that
    identity is returned.  This is [create("CourseSchedule")]. *)
Definition create_CourseSchedule : DB (option CourseSchedule.CourseSchedule) :=
  fun db =>
    let id := Sql.next_rowid (map schedules.id (schedules db)) in
    (Ok (Some {| CourseSchedule.id := id;
                 CourseSchedule.startDate := None;
                 CourseSchedule.endDate := None;
                 CourseSchedule.submissionDates := [] |}),
     set_schedules
       (schedules db ++
          [ {| schedules.id := id; schedules.startDate := None;
               schedules.endDate := None |} ])%list db).

(** Modelled from the spec: section 4.3 as above; this is
    [create("SubmissionDate")]. *)
Definition create_SubmissionDate : DB (option SubmissionDate.SubmissionDate) :=
  fun db =>
    let id := Sql.next_rowid (map submissions.id (submissions db)) in
    (Ok (Some {| SubmissionDate.id := id;
                 SubmissionDate.submissionDate := None |}),
     set_submissions
       (submissions db ++
          [ {| submissions.id := id; submissions.scheduleId := None;
               submissions.submissionDate := None |} ])%list db).

End DatabaseSerializableFactory.

(** ** databaseInitializer.ts: the constraints on [schedules] and [submissions] *)

Module Constraints.

(** [(SELECT startDate FROM schedules WHERE id = NEW.scheduleId)] and the
    same for [endDate]: the column of the first such row, [NULL] when there
    is none. *)
Definition schedule_column (col : schedules.row -> option Z)
    (scheduleId : option Z) (db : Database) : option Z :=
  match scheduleId with
  | None => None
  | Some i =>
      match head (List.filter (fun r => schedules.id r =? i) (schedules db)) with
      | Some r => col r
      | None => None
      end
  end.

(** The [WHERE] clause shared by [submissions_insert_trigger] and
    [submissions_update_trigger]: when it holds for the new row, the
    statement is aborted. *)
Definition submissions_trigger (NEW : submissions.row) (db : Database) : bool :=
  Sql.holds
    (Sql.or
       (Sql.lt (submissions.submissionDate NEW)
          (schedule_column schedules.startDate (submissions.scheduleId NEW) db))
       (Sql.gt (submissions.submissionDate NEW)
          (schedule_column schedules.endDate (submissions.scheduleId NEW) db))).

(** [UNIQUE (scheduleId, submissionDate)]: another row holds the same pair;
    a [NULL] in the pair never conflicts. *)
Definition submissions_unique_conflict (NEW : submissions.row) (db : Database) : bool :=
  match submissions.scheduleId NEW, submissions.submissionDate NEW with
  | Some s, Some d =>
      existsb
        (fun r => negb (submissions.id r =? submissions.id NEW)
                  && Sql.eq (submissions.scheduleId r) s
                  && Sql.eq (submissions.submissionDate r) d)
        (submissions db)
  | _, _ => false
  end.

Definition trigger_message : string :=
  "submissionDate must be between startDate and endDate".

Definition unique_message : string :=
  "UNIQUE constraint failed: submissions.scheduleId, submissions.submissionDate".

(** [INSERT INTO submissions (id, scheduleId, submissionDate) VALUES (?, ?, ?)] *)
Definition insert_submission (NEW : submissions.row) : DB unit :=
  fun db =>
    if submissions_trigger NEW db
    then (Throw (ConstraintViolation trigger_message), db)
    else if existsb (fun r => submissions.id r =? submissions.id NEW) (submissions db)
    then (Throw (ConstraintViolation "UNIQUE constraint failed: submissions.id"), db)
    else if submissions_unique_conflict NEW db
    then (Throw (ConstraintViolation unique_message), db)
    else (Ok tt, set_submissions (submissions db ++ [NEW])%list db).

(** [UPDATE submissions SET scheduleId = ?, submissionDate = ? WHERE id = ?] *)
Definition update_submission (NEW : submissions.row) : DB unit :=
  fun db =>
    if negb (existsb (fun r => submissions.id r =? submissions.id NEW) (submissions db))
    then (Ok tt, db)
    else if submissions_trigger NEW db
    then (Throw (ConstraintViolation trigger_message), db)
    else if submissions_unique_conflict NEW db
    then (Throw (ConstraintViolation unique_message), db)
    else (Ok tt,
          set_submissions
            (map (fun r => if submissions.id r =? submissions.id NEW then NEW else r)
               (submissions db)) db).

(** [INSERT INTO schedules (id, startDate, endDate) VALUES (?, ?, ?)] *)
Definition insert_schedule (NEW : schedules.row) : DB unit :=
  fun db =>
    if existsb (fun r => schedules.id r =? schedules.id NEW) (schedules db)
    then (Throw (ConstraintViolation "UNIQUE constraint failed: schedules.id"), db)
    else (Ok tt, set_schedules (schedules db ++ [NEW])%list db).

(** [UPDATE schedules SET startDate = ?, endDate = ? WHERE id = ?] *)
Definition update_schedule (NEW : schedules.row) : DB unit :=
  fun db =>
    (Ok tt,
     set_schedules
       (map (fun r => if schedules.id r =? schedules.id NEW then NEW else r)
          (schedules db)) db).

End Constraints.

(** ** Serializer/DatabaseWriter.ts *)

Module DatabaseWriter.

(** Modelled from the spec: the writer is not among the sources.  Section
    4.4: whether an entity is inserted or updated is decided by whether a
    row with its id exists. *)
Definition write_schedule_row (root : CourseSchedule.CourseSchedule) : DB unit :=
  let NEW := {| schedules.id := CourseSchedule.id root;
                schedules.startDate := CourseSchedule.startDate root;
                schedules.endDate := CourseSchedule.endDate root |} in
  let* db := get in
  if existsb (fun r => schedules.id r =? CourseSchedule.id root) (schedules db)
  then Constraints.update_schedule NEW
  else Constraints.insert_schedule NEW.

(** Modelled from the spec: section 4.4 as above, for one owned submission
    date; its row carries the id of the owning schedule. *)
Definition write_submission_row (scheduleId : Z)
    (child : SubmissionDate.SubmissionDate) : DB unit :=
  let NEW := {| submissions.id := SubmissionDate.id child;
                submissions.scheduleId := Some scheduleId;
                submissions.submissionDate := SubmissionDate.submissionDate child |} in
  let* db := get in
  if existsb (fun r => submissions.id r =? SubmissionDate.id child) (submissions db)
  then Constraints.update_submission NEW
  else Constraints.insert_submission NEW.

(** Modelled from the spec: the children are written one after the other,
    in the order of the collection. *)
Fixpoint write_submission_rows (scheduleId : Z)
    (children : list SubmissionDate.SubmissionDate) : DB unit :=
  match children with
  | [] => ret tt
  | child :: rest =>
      let* _ := write_submission_row scheduleId child in
      write_submission_rows scheduleId rest
  end.

(** Modelled from the spec: section 4.4, the full replacement of an owned
    collection: the row of the schedule is written, the rows of its children
    are removed, then the children held in memory are written. *)
Definition write_graph (root : CourseSchedule.CourseSchedule) : DB unit :=
  let* _ := write_schedule_row root in
  let* _ := Stmt.delete_submissions_of (CourseSchedule.id root) in
  write_submission_rows (CourseSchedule.id root) (CourseSchedule.submissionDates root).

(** Modelled from the spec: [writeRoot] for a [CourseSchedule].  Section
    4.4: a violation raised by the storage propagates as a
    [ConstraintViolation], and the write is atomic: when it fails the
    database is as it was before the call. *)
Definition writeRoot (root : CourseSchedule.CourseSchedule) : DB unit :=
  fun db =>
    match write_graph root db with
    | (Ok tt, db') => (Ok tt, db')
    | (Throw e, _) => (Throw e, db)
    end.

End DatabaseWriter.

(** ** Managers/CourseManager.ts *)

Module CourseManager.

(** The loop of [getProjectsForCourse] over the selected rows. *)
Fixpoint load_projects (course : Course.Course) (ids : list Z)
    : DB (list CourseProject.CourseProject) :=
  match ids with
  | [] => ret []
  | i :: rest =>
      let* project := ObjectHandler.getCourseProject i in
      let* projects := load_projects course rest in
      match project with
      | Some p => ret (CourseProject.setCourse p (Course.id course) :: projects)
      | None => ret projects
      end
  end.

Definition getProjectsForCourse (course : Course.Course)
    : DB (list CourseProject.CourseProject) :=
  let* projectRows := Stmt.all_project_ids_of_course (Course.id course) in
  load_projects course projectRows.

Definition readCourse (id : Z) : DB Course.Course :=
  let* c := ObjectHandler.getCourse id in
  match c with
  | None => throw (IllegalArgumentException "CourseID not found.")
  | Some c =>
      let* projects := getProjectsForCourse c in
      ret (fold_left Course.addProject projects c)
  end.

Definition deleteCourse (courseId : Z) : DB bool :=
  let* course := Stmt.get_course_id courseId in
  match course with
  | None => ret false
  | Some _ =>
      let* projects := Stmt.all_project_ids_of_course courseId in
      if (0 <? length projects)%nat
      then throw (IllegalArgumentException
             "Cannot delete course with existing projects. Please delete all projects first.")
      else
        let* _ := Stmt.delete_submissions_of courseId in
        let* _ := Stmt.delete_schedule courseId in
        let* _ := Stmt.delete_course courseId in
        ret true
  end.

(** The loop of [saveSchedule] that creates one object per date. *)
Fixpoint create_submission_dates (submissionDates : list Z)
    : DB (list SubmissionDate.SubmissionDate) :=
  match submissionDates with
  | [] => ret []
  | date :: rest =>
      let* subDate := DatabaseSerializableFactory.create_SubmissionDate in
      let* objects := create_submission_dates rest in
      match subDate with
      | Some d => ret (SubmissionDate.setSubmissionDate d date :: objects)
      | None => ret objects
      end
  end.

(** [readCourse] either throws or returns a course, so the check
    [if (!course)] that follows it never fires; [catch (error) { throw error; }]
    passes every exception on. *)
Definition saveSchedule (courseId : Z) (startDate endDate : Z)
    (submissionDates : list Z) : DB CourseSchedule.CourseSchedule :=
  let* course := readCourse courseId in
  let* existing := ObjectHandler.getCourseSchedule courseId in
  let* schedule :=
    match existing with
    | Some s => ret s
    | None =>
        let* created := DatabaseSerializableFactory.create_CourseSchedule in
        match created with
        | None => throw (MethodFailedException "Schedule creation failed")
        | Some s => ret (CourseSchedule.setId s courseId)
        end
    end in
  let schedule := CourseSchedule.setStartDate schedule startDate in
  let schedule := CourseSchedule.setEndDate schedule endDate in
  let* _ := Stmt.delete_submissions_of courseId in
  let* submissionDateObjects := create_submission_dates submissionDates in
  let schedule := CourseSchedule.setSubmissionDates schedule submissionDateObjects in
  let* _ := DatabaseWriter.writeRoot schedule in
  ret schedule.

(** The loop of [getAllCourse] over the rows. *)
Fixpoint load_courses (rows : list courses.row) : DB (list Course.Course) :=
  match rows with
  | [] => ret []
  | row :: rest =>
      let* course := ObjectHandler.getCourse (courses.id row) in
      let* allCourse := load_courses rest in
      match course with
      | Some c => ret (c :: allCourse)
      | None => ret allCourse
      end
  end.

Definition getAllCourse : DB (list Course.Course) :=
  let* courseRows := Stmt.all_courses in
  load_courses courseRows.

Definition deleteProject (projectId : Z) : DB bool :=
  let* project := ObjectHandler.getCourseProject projectId in
  match project with
  | None => ret false
  | Some _ =>
      let* _ := Stmt.delete_project projectId in
      let* _ := Stmt.delete_user_projects_of projectId in
      ret true
  end.

(** [try { return await this.oh.getCourseSchedule(...) } catch { return null }] *)
Definition getSchedule (courseId : Z) : DB (option CourseSchedule.CourseSchedule) :=
  fun db =>
    match ObjectHandler.getCourseSchedule courseId db with
    | (Ok s, db') => (Ok s, db')
    | (Throw _, db') => (Ok None, db')
    end.

(** [createCourse]; [rowid] is the rowid the engine gives to the row if one
    is inserted (see [Stmt.insert_course]).  [!result.lastID] holds for the
    rowid 0. *)
Definition createCourse (rowid : Z) (courseName : string) (termId : Z)
    : DB Course.Course :=
  let* term := ObjectHandler.getTerm termId in
  match term with
  | None => throw (IllegalArgumentException "Term not found")
  | Some _ =>
      let* existingRow := Stmt.get_course_by_name courseName in
      match existingRow with
      | Some row =>
          let* course := ObjectHandler.getCourse (courses.id row) in
          match course with
          | None => throw (MethodFailedException "Existing course could not be loaded.")
          | Some c => ret c
          end
      | None =>
          let* lastID := Stmt.insert_course rowid courseName termId in
          if lastID =? 0
          then throw (MethodFailedException "Course creation failed.")
          else
            let* course := ObjectHandler.getCourse lastID in
            match course with
            | None => throw (MethodFailedException "Failed to load newly created course.")
            | Some c => ret c
            end
      end
  end.

End CourseManager.

(** ** Services/IEmailService.ts

    An interface.  Whether a mail can be handed over is up to the service:
    [deliver] may throw. *)

Record Mail : Type := {
  mail_to : string;
  mail_subject : string;
  mail_text : string
}.

Class EmailService : Type := {
  deliver : Mail -> result unit
}.

(** ** Controllers/UserController.ts

    A handler works on the database and on the mails handed to the service,
    and answers with a status code and a message.  The fields it reads from
    the body of the request are strings, or absent. *)

Record World : Type := {
  database : Database;
  outbox : list Mail
}.

Record Response : Type := {
  statusCode : Z;
  message : string
}.

Module UserController.
Section UserController.

Context {S : EmailService}.

Definition Handler := St World.

(** [await this.db.run(...)], [await this.db.all(...)] *)
Definition on_database {A} (m : DB A) : Handler A :=
  fun w =>
    match m (database w) with
    | (r, db') => (r, {| database := db'; outbox := outbox w |})
    end.

(** [await this.emailService.sendEmail(to, subject, text)] *)
Definition sendEmail (to subject text : string) : Handler unit :=
  fun w =>
    let m := {| mail_to := to; mail_subject := subject; mail_text := text |} in
    match deliver m with
    | Ok _ => (Ok tt, {| database := database w; outbox := (outbox w ++ [m])%list |})
    | Throw e => (Throw e, w)
    end.

(** [try { ... } catch (error) { ... }] *)
Definition try_catch {A} (body : Handler A) (handler : exn -> Handler A) : Handler A :=
  fun w =>
    match body w with
    | (Ok a, w') => (Ok a, w')
    | (Throw e, w') => handler e w'
    end.

(** [!v] for a field that is a string or absent. *)
Definition falsy (v : option string) : bool :=
  match v with
  | None => true
  | Some s => String.eqb s ""
  end.

Definition sendSuspendedEmail (email : string) : Handler unit :=
  sendEmail email "Account Suspended"
    "Your account has been suspended. Please contact the administrator for more information.".

Definition sendRemovedEmail (email : string) : Handler unit :=
  sendEmail email "Account Removed"
    "Your account has been removed. Please contact the administrator for more information.".

Definition with_status (status : string) (r : users.row) : users.row :=
  {| users.id := users.id r; users.name := users.name r;
     users.githubUsername := users.githubUsername r; users.email := users.email r;
     users.status := status; users.password := users.password r;
     users.resetPasswordToken := users.resetPasswordToken r;
     users.resetPasswordExpire := users.resetPasswordExpire r;
     users.confirmEmailToken := users.confirmEmailToken r;
     users.confirmEmailExpire := users.confirmEmailExpire r;
     users.userRole := users.userRole r |}.

Definition with_userRole (role : string) (r : users.row) : users.row :=
  {| users.id := users.id r; users.name := users.name r;
     users.githubUsername := users.githubUsername r; users.email := users.email r;
     users.status := users.status r; users.password := users.password r;
     users.resetPasswordToken := users.resetPasswordToken r;
     users.resetPasswordExpire := users.resetPasswordExpire r;
     users.confirmEmailToken := users.confirmEmailToken r;
     users.confirmEmailExpire := users.confirmEmailExpire r;
     users.userRole := role |}.

Definition has_email (email : string) (r : users.row) : bool :=
  match users.email r with
  | Some e => String.eqb e email
  | None => false
  end.

(** [db.run("UPDATE users SET status = ? WHERE email = ?", [status, userEmail])] *)
Definition update_status_by_email (status userEmail : string) : DB unit :=
  fun db =>
    (Ok tt,
     set_users
       (map (fun r => if has_email userEmail r then with_status status r else r)
          (users db)) db).

(** [db.run("UPDATE users SET userRole = ? WHERE email = ?", [role, email])] *)
Definition update_role_by_email (role email : string) : DB unit :=
  fun db =>
    (Ok tt,
     set_users
       (map (fun r => if has_email email r then with_userRole role r else r)
          (users db)) db).

(** [db.run('UPDATE users SET status = ? WHERE status = "confirmed"', [status])],
    answering [changes], the number of rows the statement has updated. *)
Definition update_status_of_confirmed (status : string) : DB nat :=
  fun db =>
    (Ok (length (List.filter (fun r => String.eqb (users.status r) "confirmed") (users db))),
     set_users
       (map (fun r => if String.eqb (users.status r) "confirmed"
                      then with_status status r else r)
          (users db)) db).

Definition respond (code : Z) (msg : string) : Handler Response :=
  ret {| statusCode := code; message := msg |}.

Definition updateUserStatus (userEmail status : option string) : Handler Response :=
  if falsy userEmail || falsy status
  then respond 400 "Please provide email and status"
  else
    let userEmail := default "" userEmail in
    let status := default "" status in
    let* _ :=
      if String.eqb status "suspended" then sendSuspendedEmail userEmail
      else if String.eqb status "removed" then sendRemovedEmail userEmail
      else ret tt in
    try_catch
      (let* _ := on_database (update_status_by_email status userEmail) in
       respond 200 "User status updated successfully")
      (fun _ => respond 500 "Failed to update user status").

Definition updateAllConfirmedUsers (status : option string) : Handler Response :=
  if falsy status
  then respond 400 "Status is required"
  else
    let status := default "" status in
    try_catch
      (let* changes := on_database (update_status_of_confirmed status) in
       if Nat.eqb changes 0
       then respond 404 "No confirmed users found to update"
       else respond 200 ("All confirmed users have been updated to " ++ status))
      (fun _ => respond 500 "Failed to update confirmed users").

Definition updateUserRole (email role : option string) : Handler Response :=
  if falsy email || falsy role
  then respond 400 "Please provide email and role"
  else
    let email := default "" email in
    let role := default "" role in
    try_catch
      (let* _ := on_database (update_role_by_email role email) in
       respond 200 "User role updated successfully")
      (fun _ => respond 500 "Failed to update user role").

End UserController.
End UserController.

(** ** Serializer/DatabaseResultSetReader.ts *)

(** Modelled from the spec: the reader over a result row is not among the
    sources.  Section 4.2: a typed accessor by field name; here over a row
    of [users], [NULL] as [null]. *)
Definition reader_of_user_row (r : users.row) : Reader :=
  {| readNumber := fun c =>
       if String.eqb c "id" then Some (users.id r)
       else if String.eqb c "resetPasswordExpire" then users.resetPasswordExpire r
       else if String.eqb c "confirmEmailExpire" then users.confirmEmailExpire r
       else None;
     readString := fun c =>
       if String.eqb c "name" then users.name r
       else if String.eqb c "githubUsername" then users.githubUsername r
       else if String.eqb c "email" then users.email r
       else if String.eqb c "status" then Some (users.status r)
       else if String.eqb c "password" then users.password r
       else if String.eqb c "resetPasswordToken" then users.resetPasswordToken r
       else if String.eqb c "confirmEmailToken" then users.confirmEmailToken r
       else if String.eqb c "userRole" then Some (users.userRole r)
       else None |}.

(** ** The transition tables as the specification words them *)

Module Spec.

Inductive Status : Type := unconfirmed | confirmed | suspended | removed.

Definition Status_tag (s : Status) : string :=
  match s with
  | unconfirmed => "unconfirmed"
  | confirmed => "confirmed"
  | suspended => "suspended"
  | removed => "removed"
  end.

(** [unconfirmed -> {confirmed, suspended, removed}],
    [confirmed -> {suspended}], [suspended -> {confirmed, removed}],
    [removed -> {}]. *)
Definition status_allows (s t : Status) : bool :=
  match s, t with
  | unconfirmed, (confirmed | suspended | removed) => true
  | confirmed, suspended => true
  | suspended, (confirmed | removed) => true
  | _, _ => false
  end.

Inductive Role : Type := USER | ADMIN.

Definition Role_tag (r : Role) : string :=
  match r with
  | USER => "USER"
  | ADMIN => "ADMIN"
  end.

(** [USER <-> ADMIN]. *)
Definition role_allows (r t : Role) : bool :=
  match r, t with
  | USER, ADMIN => true
  | ADMIN, USER => true
  | _, _ => false
  end.


End Spec.

(** ** Sample data *)

Module Sample.

(** An [Email] class that wraps the string it is given. *)
Definition plain_email : EmailClass :=
  {| Email := string; Email_new := fun s => Ok s; Email_toString := fun e => e |}.



(** A row of [users] in which several columns are [NULL]. *)
Definition admin_row : Reader :=
  {| readNumber := fun c => if String.eqb c "id" then Some 1 else None;
     readString := fun c =>
       if String.eqb c "name" then Some "admin"
       else if String.eqb c "email" then Some "sys@admin.org"
       else if String.eqb c "status" then Some "confirmed"
       else if String.eqb c "userRole" then Some "ADMIN"
       else None |}.


Definition empty_db : Database :=
  {| users := []; terms := []; courses := []; projects := [];
     user_projects := []; happiness := []; schedules := [];
     submissions := [] |}.

(** Term 1 with course 1 (which has project 1), course 2 (no project, with
    a schedule and two submission dates) and term 2 without courses. *)
Definition db1 : Database :=
  {| users := [];
     terms := [ {| terms.id := 1; terms.termName := Some "WS2425";
                   terms.displayName := Some "Winter 2024/25" |};
                {| terms.id := 2; terms.termName := Some "SS25";
                   terms.displayName := None |} ];
     courses := [ {| courses.id := 1; courses.courseName := Some "ADAP";
                     courses.termId := 1 |};
                  {| courses.id := 2; courses.courseName := Some "AMOS";
                     courses.termId := 1 |} ];
     projects := [ {| projects.id := 1; projects.projectName := Some "proj";
                      projects.courseId := Some 1 |} ];
     user_projects := [];
     happiness := [];
     schedules := [ {| schedules.id := 2; schedules.startDate := Some 100;
                       schedules.endDate := Some 200 |} ];
     submissions := [ {| submissions.id := 1; submissions.scheduleId := Some 2;
                         submissions.submissionDate := Some 100 |};
                      {| submissions.id := 2; submissions.scheduleId := Some 2;
                         submissions.submissionDate := Some 150 |} ] |}.

(** A schedule as the tests build it: dates set on the schedule and on each
    submission date, then the collection attached. *)
Definition schedule (id startDate endDate : Z) (children : list (Z * Z))
    : CourseSchedule.CourseSchedule :=
  {| CourseSchedule.id := id;
     CourseSchedule.startDate := Some startDate;
     CourseSchedule.endDate := Some endDate;
     CourseSchedule.submissionDates :=
       map (fun c => {| SubmissionDate.id := fst c;
                        SubmissionDate.submissionDate := Some (snd c) |}) children |}.

(** The scenarios of the schedule tests: a schedule and its submission
    dates are created by the factory in an empty database, the dates are
    set, the schedule is written and read back. *)
Definition the {A} (o : option A) : DB A :=
  match o with
  | Some a => ret a
  | None => throw (TypeError "null")
  end.

Definition written_and_read_back (startDate endDate : Z) (dates : list Z)
    : DB (option CourseSchedule.CourseSchedule * CourseSchedule.CourseSchedule) :=
  let* created := DatabaseSerializableFactory.create_CourseSchedule in
  let* expected := the created in
  let* submissions := CourseManager.create_submission_dates dates in
  let expected := CourseSchedule.setStartDate expected startDate in
  let expected := CourseSchedule.setEndDate expected endDate in
  let expected := CourseSchedule.setSubmissionDates expected submissions in
  let* _ := DatabaseWriter.writeRoot expected in
  let* actual := ObjectHandler.getCourseSchedule 1 in
  ret (actual, expected).

End Sample.

(** ** The vocabulary of the statements *)

Definition term_exists (db : Database) (id : Z) : Prop :=
  exists r, In r (terms db) /\ terms.id r = id.

Definition term_has_course (db : Database) (id : Z) : Prop :=
  exists c, In c (courses db) /\ courses.termId c = id.

Definition course_exists (db : Database) (id : Z) : Prop :=
  exists r, In r (courses db) /\ courses.id r = id.

Definition course_has_project (db : Database) (id : Z) : Prop :=
  exists p, In p (projects db) /\ projects.courseId p = Some id.

(** What [deleteCourse] leaves of a database: the three [DELETE]s. *)
Definition without_course (courseId : Z) (db : Database) : Database :=
  {| users := users db;
     terms := terms db;
     courses := List.filter (fun r => negb (courses.id r =? courseId)) (courses db);
     projects := projects db;
     user_projects := user_projects db;
     happiness := happiness db;
     schedules := List.filter (fun r => negb (schedules.id r =? courseId)) (schedules db);
     submissions :=
       List.filter (fun r => negb (Sql.eq (submissions.scheduleId r) courseId))
         (submissions db) |}.

Definition row_of_schedule (root : CourseSchedule.CourseSchedule) : schedules.row :=
  {| schedules.id := CourseSchedule.id root;
     schedules.startDate := CourseSchedule.startDate root;
     schedules.endDate := CourseSchedule.endDate root |}.

Definition row_of_child (scheduleId : Z) (child : SubmissionDate.SubmissionDate)
    : submissions.row :=
  {| submissions.id := SubmissionDate.id child;
     submissions.scheduleId := Some scheduleId;
     submissions.submissionDate := SubmissionDate.submissionDate child |}.

(** The table after a row has been updated or, when no row has its id,
    inserted. *)
Definition upsert (NEW : submissions.row) (rows : list submissions.row)
    : list submissions.row :=
  if existsb (fun r => submissions.id r =? submissions.id NEW) rows
  then map (fun r => if submissions.id r =? submissions.id NEW then NEW else r) rows
  else (rows ++ [NEW])%list.

(** The window of a schedule as the triggers see it. *)
Definition window (db : Database) (scheduleId a b : Z) : Prop :=
  Constraints.schedule_column schedules.startDate (Some scheduleId) db = Some a
  /\ Constraints.schedule_column schedules.endDate (Some scheduleId) db = Some b.

Definition out_of_window (a b : Z) (c : SubmissionDate.SubmissionDate) : Prop :=
  exists d, SubmissionDate.submissionDate c = Some d /\ (d < a \/ b < d).

Definition in_window (a b : Z) (c : SubmissionDate.SubmissionDate) : Prop :=
  exists d, SubmissionDate.submissionDate c = Some d /\ a <= d <= b.

(** Two submission dates, told apart by their identity, on the same day. *)
Definition twins (children : list SubmissionDate.SubmissionDate) : Prop :=
  exists c1 c2 d,
    In c1 children /\ In c2 children
    /\ SubmissionDate.id c1 <> SubmissionDate.id c2
    /\ SubmissionDate.submissionDate c1 = Some d
    /\ SubmissionDate.submissionDate c2 = Some d.

(** A row of the schedule, written by none of the children, on the day of
    one of them. *)
Definition clash (scheduleId : Z) (rows : list submissions.row)
    (children : list SubmissionDate.SubmissionDate) : Prop :=
  exists r c d,
    In r rows /\ In c children
    /\ submissions.scheduleId r = Some scheduleId
    /\ submissions.submissionDate r = Some d
    /\ SubmissionDate.submissionDate c = Some d
    /\ ~ In (submissions.id r) (map SubmissionDate.id children).

(** A chain of calls [s.transitionTo(t1).transitionTo(t2)...], each on the
    value the one before returned. *)
Fixpoint transitions (l : loc) (targets : list string) : M loc :=
  match targets with
  | [] => ret l
  | t :: rest =>
      let* l' := UserStatus.transitionTo l t in
      transitions l' rest
  end.

(** Every object of the first heap is in the second, at its location. *)
Definition preserved (h h' : heap) : Prop :=
  forall l o, h !! l = Some o -> h' !! l = Some o.

(** The stored address is [NULL] or one the [Email] class accepts. *)
Definition email_readable {E : EmailClass} (reader : Reader) : Prop :=
  readString reader "email" = None
  \/ exists a e, readString reader "email" = Some a /\ Email_new a = Ok e.


(** A user that [readFrom] has left at the status: the id, the name, the
    github name and the address are those of the row, the status and every
    field after it are as they were. *)
Definition read_up_to_status {E : EmailClass} (reader : Reader)
    (u u' : User.User) : Prop :=
  User.id u' = readNumber reader "id"
  /\ User.name u' = readString reader "name"
  /\ User.githubUsername u' = readString reader "githubUsername"
  /\ match readString reader "email" with
     | Some a => exists e, Email_new a = Ok e /\ User.email u' = Some e
     | None => User.email u' = None
     end
  /\ User.status u' = User.status u
  /\ User.role u' = User.role u
  /\ User.password u' = User.password u
  /\ User.resetPasswordToken u' = User.resetPasswordToken u
  /\ User.resetPasswordExpire u' = User.resetPasswordExpire u
  /\ User.confirmEmailToken u' = User.confirmEmailToken u
  /\ User.confirmEmailExpire u' = User.confirmEmailExpire u.

(** A user, every field of which is set, whose status is the object at
    location 0. *)
Definition stale_user : @User.User Sample.plain_email :=
  {| User.id := Some 9; User.name := Some "old"; User.githubUsername := Some "old";
     User.email := Some ("old@example.org" : @Email Sample.plain_email);
     User.status := 0%nat;
     User.role := Some "USER"; User.password := Some "old";
     User.resetPasswordToken := Some "old"; User.resetPasswordExpire := Some 5;
     User.confirmEmailToken := Some "old"; User.confirmEmailExpire := Some 5 |}.


Definition project_exists (db : Database) (id : Z) : Prop :=
  exists r, In r (projects db) /\ projects.id r = id.

(** [for (const id of ids) await cm.deleteProject(id)] *)
Fixpoint deleteProjects (ids : list Z) : DB unit :=
  match ids with
  | [] => ret tt
  | id :: rest =>
      let* _ := CourseManager.deleteProject id in
      deleteProjects rest
  end.

(** [for (const id of ids) await cm.deleteCourse(id)] *)
Fixpoint deleteCourses (ids : list Z) : DB unit :=
  match ids with
  | [] => ret tt
  | id :: rest =>
      let* _ := CourseManager.deleteCourse id in
      deleteCourses rest
  end.

(** The ids [deleteCourse] and [deleteTerm] select when they look for
    children. *)
Definition project_ids_of_course (db : Database) (courseId : Z) : list Z :=
  map projects.id
    (List.filter (fun r => Sql.eq (projects.courseId r) courseId) (projects db)).

Definition course_ids_of_term (db : Database) (termId : Z) : list Z :=
  map courses.id (List.filter (fun r => courses.termId r =? termId) (courses db)).

Definition course_named (db : Database) (courseName : string) : Prop :=
  exists r, In r (courses db) /\ courses.courseName r = Some courseName.

(** The condition [courses.courseName = ?] of a [WHERE] clause. *)
Definition named (courseName : string) (r : courses.row) : bool :=
  match courses.courseName r with
  | Some n => String.eqb n courseName
  | None => false
  end.

(** The empty row the factory inserts for a submission date. *)
Definition reserved_row (o : SubmissionDate.SubmissionDate) : submissions.row :=
  {| submissions.id := SubmissionDate.id o;
     submissions.scheduleId := None;
     submissions.submissionDate := None |}.

(** The rows of [submissions] that do not refer to a schedule. *)
Definition rows_of_others (scheduleId : Z) (rows : list submissions.row)
    : list submissions.row :=
  List.filter (fun r => negb (Sql.eq (submissions.scheduleId r) scheduleId)) rows.

Definition suspended_mail (email : string) : Mail :=
  {| mail_to := email; mail_subject := "Account Suspended";
     mail_text := "Your account has been suspended. Please contact the administrator for more information." |}.

Definition removed_mail (email : string) : Mail :=
  {| mail_to := email; mail_subject := "Account Removed";
     mail_text := "Your account has been removed. Please contact the administrator for more information." |}.

(** The mail a change to the given status sends first, if any. *)
Definition mail_for (status email : string) : option Mail :=
  if String.eqb status "suspended" then Some (suspended_mail email)
  else if String.eqb status "removed" then Some (removed_mail email)
  else None.

(** A service that takes every mail, and one that takes none. *)
Definition willing_service : EmailService := {| deliver := fun _ => Ok tt |}.
Definition failing_service : EmailService :=
  {| deliver := fun _ => Throw (Error "SMTP connection refused") |}.

Definition removed_user_row : users.row :=
  {| users.id := 4; users.name := Some "eve"; users.githubUsername := None;
     users.email := Some "eve@example.org"; users.status := "removed";
     users.password := None; users.resetPasswordToken := None;
     users.resetPasswordExpire := None; users.confirmEmailToken := None;
     users.confirmEmailExpire := None; users.userRole := "USER" |}.

Definition confirmed_user_row : users.row :=
  {| users.id := 5; users.name := Some "bob"; users.githubUsername := None;
     users.email := Some "bob@example.org"; users.status := "confirmed";
     users.password := None; users.resetPasswordToken := None;
     users.resetPasswordExpire := None; users.confirmEmailToken := None;
     users.confirmEmailExpire := None; users.userRole := "USER" |}.

Definition world1 : World :=
  {| database := set_users [removed_user_row; confirmed_user_row] Sample.db1;
     outbox := [] |}.

(** * Properties *)

(** ** The value types *)

Lemma this_status_lookup (h : heap) (l : loc) (s : string) :
  h !! l = Some (UserStatusObject s) ->
  UserStatus.this_status l h = (Ok s, h).
Proof.
  intros H. unfold UserStatus.this_status, bind, deref. now rewrite H.
Qed.

Lemma this_role_lookup (h : heap) (l : loc) (r : string) :
  h !! l = Some (UserRoleObject r) ->
  UserRole.this_role l h = (Ok r, h).
Proof.
  intros H. unfold UserRole.this_role, bind, deref. now rewrite H.
Qed.

Lemma lookup_alloc (h : heap) (o : object) :
  ((h ++ [o])%list : list object) !! length h = Some o.
Proof. now apply list_lookup_middle. Qed.

Lemma lookup_alloc_old (h : heap) (o o' : object) (l : loc) :
  h !! l = Some o -> ((h ++ [o'])%list : list object) !! l = Some o.
Proof.
  intros H. rewrite lookup_app_l; [assumption|].
  now apply lookup_lt_Some in H.
Qed.

Lemma lookup_not_fresh (h : heap) (o : object) (l : loc) :
  h !! l = Some o -> l <> length h.
Proof. intros H%lookup_lt_Some. lia. Qed.

(** Every member of the status enumeration can be constructed, and the
    object holds the member. *)
Lemma UserStatus_new_member (h : heap) (m : Spec.Status) :
  UserStatus.new (Some (Spec.Status_tag m)) h
  = (Ok (length h), (h ++ [UserStatusObject (Spec.Status_tag m)])%list).
Proof. destruct m; reflexivity. Qed.


(** The value of the test suite is rejected. *)
Example UserStatus_new_invalid :
  UserStatus.new (Some "invalid") []
  = (Throw (Error "Invalid initial status: invalid"), []).
Proof. reflexivity. Qed.

(** [in] also answers for inherited property names, which are no members of
    the enumeration. *)
Example UserStatus_new_inherited_name :
  UserStatus.new (Some "toString") [] = (Ok 0%nat, [UserStatusObject "toString"]).
Proof. reflexivity. Qed.

(** C2: [canTransitionTo] answers as the declared tables say, for every
    state and every target of the enumeration, and leaves the heap as it
    is: unconfirmed allows confirmed, suspended and removed; confirmed
    allows suspended; suspended allows confirmed and removed; removed
    allows nothing; USER allows ADMIN and ADMIN allows USER. *)
Theorem canTransitionTo_tables (h : heap) (l : loc) :
  (forall s t : Spec.Status,
      h !! l = Some (UserStatusObject (Spec.Status_tag s)) ->
      UserStatus.canTransitionTo l (Spec.Status_tag t) h
      = (Ok (Spec.status_allows s t), h))
  /\
  (forall r t : Spec.Role,
      h !! l = Some (UserRoleObject (Spec.Role_tag r)) ->
      UserRole.canTransitionTo l (Spec.Role_tag t) h
      = (Ok (Spec.role_allows r t), h)).
Proof.
  split.
  - intros s t H. unfold UserStatus.canTransitionTo, bind.
    rewrite (this_status_lookup _ _ _ H). destruct s, t; reflexivity.
  - intros r t H. unfold UserRole.canTransitionTo, bind.
    rewrite (this_role_lookup _ _ _ H). destruct r, t; reflexivity.
Qed.

Lemma canTransitionTo_tables_witness :
  UserStatus.canTransitionTo 0%nat "suspended"
    [UserStatusObject "confirmed"; UserRoleObject "USER"]
  = (Ok true, [UserStatusObject "confirmed"; UserRoleObject "USER"])
  /\
  UserRole.canTransitionTo 1%nat "ADMIN"
    [UserStatusObject "confirmed"; UserRoleObject "USER"]
  = (Ok true, [UserStatusObject "confirmed"; UserRoleObject "USER"]).
Proof.
  split.
  - apply (proj1 (canTransitionTo_tables _ 0%nat) Spec.confirmed Spec.suspended).
    reflexivity.
  - apply (proj2 (canTransitionTo_tables _ 1%nat) Spec.USER Spec.ADMIN).
    reflexivity.
Defined.

Lemma includes_stranger (l : list string) (t : string) :
  Forall (fun x => x <> t) l -> Js.includes l t = false.
Proof.
  induction 1 as [|x l Hx _ IH]; [reflexivity|].
  cbn. rewrite IH, orb_false_r. now apply String.eqb_neq.
Qed.

(** A target outside the enumeration is never allowed. *)
Lemma UserStatus_canTransitionTo_stranger (h : heap) (l : loc)
    (s : Spec.Status) (t : string) :
  h !! l = Some (UserStatusObject (Spec.Status_tag s)) ->
  (forall m, t <> Spec.Status_tag m) ->
  UserStatus.canTransitionTo l t h = (Ok false, h).
Proof.
  intros H Ht. unfold UserStatus.canTransitionTo, bind.
  rewrite (this_status_lookup _ _ _ H).
  destruct s;
    (unfold Js.includes_at, lift;
     set (o := Js.own _ _); vm_compute in o; subst o; cbv beta iota;
     do 2 f_equal; apply includes_stranger;
     repeat constructor; intros <-;
     first [ now apply (Ht Spec.confirmed)
           | now apply (Ht Spec.suspended)
           | now apply (Ht Spec.removed) ]).
Qed.

(** C3, on [UserRole]: the constructor throws whatever it is given, also
    for the two members of the enumeration and for the default; the guard
    names [UserRoleEnaum], which the module does not bind. *)
Theorem UserRole_new_always_throws (arg : option string) (h : heap) :
  UserRole.new arg h = (Throw (ReferenceError "UserRoleEnaum is not defined"), h).
Proof. reflexivity. Qed.

(** C4 as stated fails at the target [removed] itself: the call returns the
    receiver. *)
Lemma removed_to_removed_succeeds :
  UserStatus.transitionTo 0%nat "removed" [UserStatusObject "removed"]
  = (Ok 0%nat, [UserStatusObject "removed"]).
Proof. reflexivity. Qed.

(** C4, amended: on a status in state removed, [transitionTo] throws for
    every target other than removed, member of the enumeration or not, and
    allocates nothing. *)
Theorem removed_is_terminal (h : heap) (l : loc) (t : string) :
  h !! l = Some (UserStatusObject "removed") ->
  t <> "removed" ->
  UserStatus.transitionTo l t h
  = (Throw (Error ("Invalid transition from removed to " ++ t)), h).
Proof.
  intros H Ht. unfold UserStatus.transitionTo, UserStatus.canTransitionTo, bind.
  rewrite (this_status_lookup _ _ _ H).
  assert (Hr : String.eqb "removed" t = false)
    by (apply String.eqb_neq; congruence).
  rewrite Hr, (this_status_lookup _ _ _ H). reflexivity.
Qed.

Lemma removed_is_terminal_witness :
  UserStatus.transitionTo 0%nat "confirmed" [UserStatusObject "removed"]
  = (Throw (Error "Invalid transition from removed to confirmed"),
     [UserStatusObject "removed"]).
Proof.
  apply (removed_is_terminal [UserStatusObject "removed"] 0%nat "confirmed").
  - reflexivity.
  - discriminate.
Defined.

Lemma UserStatus_transitionTo_same (h : heap) (l : loc) (s : string) :
  h !! l = Some (UserStatusObject s) ->
  UserStatus.transitionTo l s h = (Ok l, h).
Proof.
  intros H. unfold UserStatus.transitionTo, bind.
  rewrite (this_status_lookup _ _ _ H), String.eqb_refl. reflexivity.
Qed.

Lemma UserRole_transitionTo_same (h : heap) (l : loc) (r : string) :
  h !! l = Some (UserRoleObject r) ->
  UserRole.transitionTo l r h = (Ok l, h).
Proof.
  intros H. unfold UserRole.transitionTo, bind.
  rewrite (this_role_lookup _ _ _ H), String.eqb_refl. reflexivity.
Qed.

(** C5: [transitionTo] with the state the receiver is in returns the
    receiver itself, the same location and not a copy, and allocates
    nothing; for [UserStatus] and for [UserRole]. *)
Theorem transitionTo_same_state_returns_this (h : heap) (l : loc) (s : string) :
  (h !! l = Some (UserStatusObject s) ->
   UserStatus.transitionTo l s h = (Ok l, h))
  /\
  (h !! l = Some (UserRoleObject s) ->
   UserRole.transitionTo l s h = (Ok l, h)).
Proof.
  split.
  - apply UserStatus_transitionTo_same.
  - apply UserRole_transitionTo_same.
Qed.

Lemma transitionTo_same_state_returns_this_witness :
  UserStatus.transitionTo 0%nat "suspended"
    [UserStatusObject "suspended"; UserRoleObject "ADMIN"]
  = (Ok 0%nat, [UserStatusObject "suspended"; UserRoleObject "ADMIN"])
  /\
  UserRole.transitionTo 1%nat "ADMIN"
    [UserStatusObject "suspended"; UserRoleObject "ADMIN"]
  = (Ok 1%nat, [UserStatusObject "suspended"; UserRoleObject "ADMIN"]).
Proof.
  split.
  - apply (proj1 (transitionTo_same_state_returns_this _ 0%nat "suspended")).
    reflexivity.
  - apply (proj2 (transitionTo_same_state_returns_this _ 1%nat "ADMIN")).
    reflexivity.
Defined.

(** An allowed transition of a [UserStatus] to another state returns a
    location that was not in use, holding the target, and the receiver
    still holds its state. *)
Lemma UserStatus_transitionTo_allowed (h : heap) (l : loc) (s t : Spec.Status) :
  h !! l = Some (UserStatusObject (Spec.Status_tag s)) ->
  s <> t ->
  Spec.status_allows s t = true ->
  exists l' h',
    UserStatus.transitionTo l (Spec.Status_tag t) h = (Ok l', h')
    /\ l' <> l
    /\ h !! l' = None
    /\ h' !! l' = Some (UserStatusObject (Spec.Status_tag t))
    /\ h' !! l = Some (UserStatusObject (Spec.Status_tag s)).
Proof.
  intros H Hne Hallow.
  exists (length h), (h ++ [UserStatusObject (Spec.Status_tag t)])%list.
  split; [|split; [|split; [|split]]].
  - unfold UserStatus.transitionTo, UserStatus.canTransitionTo, bind.
    rewrite (this_status_lookup _ _ _ H).
    destruct s, t; try congruence; try discriminate Hallow;
      cbn; rewrite (this_status_lookup _ _ _ H); reflexivity.
  - apply not_eq_sym. now apply lookup_not_fresh in H.
  - now apply lookup_ge_None.
  - apply lookup_alloc.
  - now apply lookup_alloc_old.
Qed.

(** C6, on [UserRole]: the allowed transition from USER to ADMIN yields no
    new value.  Run as the test suite does, from [new UserRole(USER)], it
    throws; and on a role object that holds USER the method itself throws,
    because it constructs the new value with the constructor of C3. *)
Theorem UserRole_transitionTo_allowed_throws :
  (let* r := UserRole.new (Some "USER") in UserRole.transitionTo r "ADMIN") []
  = (Throw (ReferenceError "UserRoleEnaum is not defined"), [])
  /\
  UserRole.transitionTo 0%nat "ADMIN" [UserRoleObject "USER"]
  = (Throw (ReferenceError "UserRoleEnaum is not defined"), [UserRoleObject "USER"]).
Proof. split; reflexivity. Qed.

(** The same for every role and every other target of the enumeration. *)
Lemma UserRole_transitionTo_other_throws (h : heap) (l : loc) (r t : Spec.Role) :
  h !! l = Some (UserRoleObject (Spec.Role_tag r)) ->
  r <> t ->
  UserRole.transitionTo l (Spec.Role_tag t) h
  = (Throw (ReferenceError "UserRoleEnaum is not defined"), h).
Proof.
  intros H Hne. unfold UserRole.transitionTo, UserRole.canTransitionTo, bind.
  rewrite (this_role_lookup _ _ _ H).
  destruct r, t; try congruence; cbn; rewrite (this_role_lookup _ _ _ H);
    reflexivity.
Qed.

(** ** The user entity *)

Lemma includes_In (l : list string) (t : string) :
  Js.includes l t = true -> In t l.
Proof.
  induction l as [|x l IH]; cbn; [discriminate|].
  intros [H%String.eqb_eq | H]%orb_true_iff; [now left | right; auto].
Qed.

(** [setStatus] goes through [transitionTo]: on a user whose status is a
    member of the enumeration it succeeds only for that same member or for
    one the table allows, and the user then holds it. *)
Lemma setStatus_through_table {E : EmailClass} (u u' : User.User)
    (s : Spec.Status) (t : string) (h h' : heap) :
  h !! User.status u = Some (UserStatusObject (Spec.Status_tag s)) ->
  User.setStatus u t h = (Ok u', h') ->
  exists m, t = Spec.Status_tag m
            /\ (m = s \/ Spec.status_allows s m = true)
            /\ h' !! User.status u' = Some (UserStatusObject t).
Proof.
  intros H. unfold User.setStatus, UserStatus.transitionTo,
    UserStatus.canTransitionTo, bind.
  rewrite (this_status_lookup _ _ _ H).
  destruct (String.eqb (Spec.Status_tag s) t) eqn:Heq.
  - apply String.eqb_eq in Heq. subst t. cbn. intros [= <- <-].
    exists s. cbn. auto.
  - rewrite (this_status_lookup _ _ _ H). unfold lift, Js.includes_at.
    destruct (Js.own UserStatus.validTransitions (Spec.Status_tag s))
      as [allowed|] eqn:Hown; [|destruct s; discriminate Hown].
    destruct (Js.includes allowed t) eqn:Hinc; [|discriminate].
    apply includes_In in Hinc.
    assert (Hm : exists m, t = Spec.Status_tag m /\ Spec.status_allows s m = true).
    { destruct s; vm_compute in Hown; injection Hown as <-; cbn in Hinc;
        repeat (destruct Hinc as [<- | Hinc];
                [ first [ now exists Spec.confirmed
                        | now exists Spec.suspended
                        | now exists Spec.removed ] | ]);
        contradiction. }
    destruct Hm as (m & -> & Hallow).
    rewrite UserStatus_new_member. unfold ret. intros [= <- <-].
    exists m. cbn. split; [reflexivity|]. split; [now right|].
    apply lookup_alloc.
Qed.

(** C7, on the role: [setRole] assigns the string it is given, whatever it
    is; no [UserRole] and no transition table is consulted, nothing is
    thrown and the heap is not touched. *)
Theorem setRole_stores_any_string {E : EmailClass} (u : User.User)
    (r : string) (h : heap) :
  exists u',
    User.setRole u r h = (Ok u', h)
    /\ User.getRole u' = Some r
    /\ User.status u' = User.status u.
Proof. eexists. repeat split. Qed.

(** A fresh user takes a role that the enumeration does not have. *)
Example setRole_on_fresh_user :
  (let* u := @User.new Sample.plain_email 7 in
   let* u' := User.setRole u "root" in
   ret (User.getRole u')) []
  = (Ok (Some "root"), [UserStatusObject "unconfirmed"])
  /\ Js.has_property "root" UserRole.UserRoleEnum = false.
Proof. split; reflexivity. Qed.

Lemma bind_ok {S A B} (m : St S A) (k : A -> St S B) (s s' : S) (a : A) :
  m s = (Ok a, s') -> bind m k s = k a s'.
Proof. intros H. unfold bind. now rewrite H. Qed.

Lemma bind_throw {S A B} (m : St S A) (k : A -> St S B) (s s' : S) (e : exn) :
  m s = (Throw e, s') -> bind m k s = (Throw e, s').
Proof. intros H. unfold bind. now rewrite H. Qed.



(** Running [readFrom] past the address, up to the status. *)
Lemma readFrom_to_status {E : EmailClass} (reader : Reader) (u : User.User)
    (h : heap) (email' : option Email) :
  match readString reader "email" with
  | Some a => exists e, Email_new a = Ok e /\ email' = Some e
  | None => email' = None
  end ->
  User.readFrom reader (u, h)
  = let u4 := User.set_email email'
                (User.set_githubUsername (readString reader "githubUsername")
                   (User.set_name (readString reader "name")
                      (User.set_id (readNumber reader "id") u))) in
    match User.status_transitionTo (User.status u) (readString reader "status") h with
    | (Ok st, h') =>
        (Ok tt,
         (User.set_confirmEmailExpire (readNumber reader "confirmEmailExpire")
            (User.set_confirmEmailToken (readString reader "confirmEmailToken")
               (User.set_resetPasswordExpire (readNumber reader "resetPasswordExpire")
                  (User.set_resetPasswordToken (readString reader "resetPasswordToken")
                     (User.set_password (readString reader "password")
                        (User.set_role (readString reader "userRole")
                           (User.set_status st u4)))))), h'))
    | (Throw x, h') => (Throw x, (u4, h'))
    end.
Proof.
  intros Hmail. unfold User.readFrom. cbv zeta.
  destruct (readString reader "email") as [a|].
  - destruct Hmail as (e & He & ->).
    unfold bind, User.assign, User.this_field, User.on_heap, lift.
    cbn [fst snd]. rewrite He. cbn [fst snd User.status User.set_email].
    change (User.status (User.set_githubUsername _ (User.set_name _ (User.set_id _ u))))
      with (User.status u).
    destruct (User.status_transitionTo (User.status u) (readString reader "status") h)
      as [[st|x] h']; reflexivity.
  - subst email'.
    unfold bind, User.assign, User.this_field, User.on_heap, lift.
    cbn [fst snd User.status User.set_email].
    change (User.status (User.set_githubUsername _ (User.set_name _ (User.set_id _ u))))
      with (User.status u).
    destruct (User.status_transitionTo (User.status u) (readString reader "status") h)
      as [[st|x] h']; reflexivity.
Qed.




(** ** Selections *)

Section Selections.

Context {A B : Type} (f : A -> B) (p : A -> bool).

Lemma filter_none (l : list A) :
  (forall x, In x l -> p x = false) -> List.filter p l = [].
Proof.
  induction l as [|x l IH]; intros H; [reflexivity|].
  cbn. rewrite (H x (or_introl eq_refl)). apply IH.
  intros y Hy. apply H. now right.
Qed.

Lemma filter_some (l : list A) :
  (exists x, In x l /\ p x = true) ->
  exists y rest, List.filter p l = y :: rest /\ In y l /\ p y = true.
Proof.
  intros (x & Hin & Hp).
  assert (Hx : In x (List.filter p l)) by (apply filter_In; auto).
  destruct (List.filter p l) as [|y rest] eqn:Hf; [contradiction|].
  exists y, rest. split; [reflexivity|].
  apply (filter_In p y l). rewrite Hf. now left.
Qed.

Lemma select_first_some (l : list A) :
  (exists x, In x l /\ p x = true) ->
  exists y, head (map f (List.filter p l)) = Some y.
Proof.
  intros H. destruct (filter_some l H) as (y & rest & -> & _).
  now exists (f y).
Qed.

Lemma select_first_none (l : list A) :
  (forall x, In x l -> p x = false) ->
  head (map f (List.filter p l)) = None.
Proof. intros H. now rewrite filter_none. Qed.

Lemma select_all_some (l : list A) :
  (exists x, In x l /\ p x = true) ->
  (0 <? length (map f (List.filter p l)))%nat = true.
Proof.
  intros H. destruct (filter_some l H) as (y & rest & -> & _). reflexivity.
Qed.

Lemma select_all_none (l : list A) :
  (forall x, In x l -> p x = false) ->
  (0 <? length (map f (List.filter p l)))%nat = false.
Proof. intros H. now rewrite filter_none. Qed.

End Selections.

(** ** The deletion guards *)

Lemma Sql_eq_true (a : option Z) (b : Z) : Sql.eq a b = true <-> a = Some b.
Proof.
  destruct a as [x|]; cbn; [|split; discriminate].
  rewrite Z.eqb_eq. split; congruence.
Qed.

Lemma deleteTerm_missing (db : Database) (id : Z) :
  ~ term_exists db id -> TermManager.deleteTerm id db = (Ok false, db).
Proof.
  intros H. unfold TermManager.deleteTerm, bind, Stmt.get_term_id.
  rewrite select_first_none; [reflexivity|].
  intros r Hr. apply Z.eqb_neq. intros Heq. apply H. now exists r.
Qed.

Lemma deleteTerm_guarded (db : Database) (id : Z) :
  term_exists db id -> term_has_course db id ->
  TermManager.deleteTerm id db
  = (Throw (IllegalArgumentException
       "Cannot delete term with existing courses. Please delete all courses first."),
     db).
Proof.
  intros (r & Hr & Hid) (c & Hc & Hterm).
  unfold TermManager.deleteTerm, bind, Stmt.get_term_id,
    Stmt.all_course_ids_of_term.
  destruct (select_first_some terms.id (fun r => terms.id r =? id) (terms db))
    as [y ->]; [exists r; split; [assumption | now apply Z.eqb_eq]|].
  rewrite select_all_some; [reflexivity|].
  exists c. split; [assumption | now apply Z.eqb_eq].
Qed.

Lemma deleteTerm_free (db : Database) (id : Z) :
  term_exists db id -> ~ term_has_course db id ->
  TermManager.deleteTerm id db
  = (Ok true,
     set_terms (List.filter (fun r => negb (terms.id r =? id)) (terms db)) db).
Proof.
  intros (r & Hr & Hid) Hfree.
  unfold TermManager.deleteTerm, bind, Stmt.get_term_id,
    Stmt.all_course_ids_of_term.
  destruct (select_first_some terms.id (fun r => terms.id r =? id) (terms db))
    as [y ->]; [exists r; split; [assumption | now apply Z.eqb_eq]|].
  rewrite select_all_none; [reflexivity|].
  intros c Hc. apply Z.eqb_neq. intros Heq. apply Hfree. now exists c.
Qed.

Lemma deleteCourse_missing (db : Database) (id : Z) :
  ~ course_exists db id -> CourseManager.deleteCourse id db = (Ok false, db).
Proof.
  intros H. unfold CourseManager.deleteCourse, bind, Stmt.get_course_id.
  rewrite select_first_none; [reflexivity|].
  intros r Hr. apply Z.eqb_neq. intros Heq. apply H. now exists r.
Qed.

Lemma deleteCourse_guarded (db : Database) (id : Z) :
  course_exists db id -> course_has_project db id ->
  CourseManager.deleteCourse id db
  = (Throw (IllegalArgumentException
       "Cannot delete course with existing projects. Please delete all projects first."),
     db).
Proof.
  intros (r & Hr & Hid) (c & Hc & Hcourse).
  unfold CourseManager.deleteCourse, bind, Stmt.get_course_id,
    Stmt.all_project_ids_of_course.
  destruct (select_first_some courses.id (fun r => courses.id r =? id) (courses db))
    as [y ->]; [exists r; split; [assumption | now apply Z.eqb_eq]|].
  rewrite select_all_some; [reflexivity|].
  exists c. split; [assumption | now apply Sql_eq_true].
Qed.

Lemma deleteCourse_free (db : Database) (id : Z) :
  course_exists db id -> ~ course_has_project db id ->
  CourseManager.deleteCourse id db = (Ok true, without_course id db).
Proof.
  intros (r & Hr & Hid) Hfree.
  unfold CourseManager.deleteCourse, bind, Stmt.get_course_id,
    Stmt.all_project_ids_of_course.
  destruct (select_first_some courses.id (fun r => courses.id r =? id) (courses db))
    as [y ->]; [exists r; split; [assumption | now apply Z.eqb_eq]|].
  rewrite select_all_none; [reflexivity|].
  intros c Hc. destruct (Sql.eq (projects.courseId c) id) eqn:Heq; [|reflexivity].
  exfalso. apply Hfree. exists c. split; [assumption | now apply Sql_eq_true].
Qed.

Lemma term_gone (db : Database) (id : Z) :
  ~ term_exists
      (set_terms (List.filter (fun r => negb (terms.id r =? id)) (terms db)) db) id.
Proof.
  intros (r & Hr & Hid). cbn in Hr. apply filter_In in Hr as [_ Hr].
  apply negb_true_iff, Z.eqb_neq in Hr. contradiction.
Qed.

Lemma course_gone (db : Database) (id : Z) :
  ~ course_exists (without_course id db) id.
Proof.
  intros (r & Hr & Hid). cbn in Hr. apply filter_In in Hr as [_ Hr].
  apply negb_true_iff, Z.eqb_neq in Hr. contradiction.
Qed.

(** C9: [deleteTerm] on a term with a course and [deleteCourse] on a course
    with a project throw and leave the database, and so the term or the
    course, as it was; on a term without courses and on a course without
    projects they return [true] and the row is gone; on an id that names no
    term or no course they return [false], throw nothing and change
    nothing. *)
Theorem deletion_guards (db : Database) (id : Z) :
  (term_exists db id -> term_has_course db id ->
   exists msg,
     TermManager.deleteTerm id db = (Throw (IllegalArgumentException msg), db)
     /\ term_exists db id)
  /\
  (course_exists db id -> course_has_project db id ->
   exists msg,
     CourseManager.deleteCourse id db = (Throw (IllegalArgumentException msg), db)
     /\ course_exists db id)
  /\
  (term_exists db id -> ~ term_has_course db id ->
   exists db',
     TermManager.deleteTerm id db = (Ok true, db') /\ ~ term_exists db' id)
  /\
  (course_exists db id -> ~ course_has_project db id ->
   exists db',
     CourseManager.deleteCourse id db = (Ok true, db') /\ ~ course_exists db' id)
  /\
  (~ term_exists db id -> TermManager.deleteTerm id db = (Ok false, db))
  /\
  (~ course_exists db id -> CourseManager.deleteCourse id db = (Ok false, db)).
Proof.
  repeat split.
  - eexists. split; [now apply deleteTerm_guarded | assumption].
  - eexists. split; [now apply deleteCourse_guarded | assumption].
  - intros. eexists. split; [now apply deleteTerm_free | apply term_gone].
  - intros. eexists. split; [now apply deleteCourse_free | apply course_gone].
  - apply deleteTerm_missing.
  - apply deleteCourse_missing.
Qed.

Lemma deletion_guards_witness :
  (exists msg,
     TermManager.deleteTerm 1 Sample.db1
     = (Throw (IllegalArgumentException msg), Sample.db1)
     /\ term_exists Sample.db1 1)
  /\
  (exists msg,
     CourseManager.deleteCourse 1 Sample.db1
     = (Throw (IllegalArgumentException msg), Sample.db1)
     /\ course_exists Sample.db1 1)
  /\
  (exists db',
     TermManager.deleteTerm 2 Sample.db1 = (Ok true, db') /\ ~ term_exists db' 2)
  /\
  (exists db',
     CourseManager.deleteCourse 2 Sample.db1 = (Ok true, db')
     /\ ~ course_exists db' 2)
  /\
  TermManager.deleteTerm 3 Sample.db1 = (Ok false, Sample.db1)
  /\
  CourseManager.deleteCourse 3 Sample.db1 = (Ok false, Sample.db1).
Proof.
  split; [|split; [|split; [|split; [|split]]]].
  - apply (proj1 (deletion_guards Sample.db1 1)).
    + eexists. split; [left; reflexivity | reflexivity].
    + eexists. split; [left; reflexivity | reflexivity].
  - apply (proj1 (proj2 (deletion_guards Sample.db1 1))).
    + eexists. split; [left; reflexivity | reflexivity].
    + eexists. split; [left; reflexivity | reflexivity].
  - apply (proj1 (proj2 (proj2 (deletion_guards Sample.db1 2)))).
    + eexists. split; [right; left; reflexivity | reflexivity].
    + intros (c & Hc & Ht). cbn in Hc.
      destruct Hc as [<- | [<- | []]]; discriminate Ht.
  - apply (proj1 (proj2 (proj2 (proj2 (deletion_guards Sample.db1 2))))).
    + eexists. split; [right; left; reflexivity | reflexivity].
    + intros (p & Hp & Hc). cbn in Hp.
      destruct Hp as [<- | []]; discriminate Hc.
  - apply (proj1 (proj2 (proj2 (proj2 (proj2 (deletion_guards Sample.db1 3)))))).
    intros (r & Hr & Hid). cbn in Hr.
    destruct Hr as [<- | [<- | []]]; discriminate Hid.
  - apply (proj2 (proj2 (proj2 (proj2 (proj2 (deletion_guards Sample.db1 3)))))).
    intros (r & Hr & Hid). cbn in Hr.
    destruct Hr as [<- | [<- | []]]; discriminate Hid.
Defined.

(** ** Writing a schedule *)

Lemma upsert_new (NEW : submissions.row) (rows : list submissions.row) :
  In NEW (upsert NEW rows).
Proof.
  unfold upsert.
  destruct (existsb _ rows) eqn:He.
  - apply existsb_exists in He as (r & Hr & Hid).
    apply in_map_iff. exists r. now rewrite Hid.
  - apply in_or_app. right. now left.
Qed.

Lemma upsert_inv (NEW r : submissions.row) (rows : list submissions.row) :
  In r (upsert NEW rows) -> r = NEW \/ In r rows.
Proof.
  unfold upsert. destruct (existsb _ rows).
  - intros (x & Hx & Hin)%in_map_iff.
    destruct (submissions.id x =? submissions.id NEW); subst; auto.
  - intros [H | [H | []]]%in_app_or; auto.
Qed.

Lemma upsert_keeps (NEW r : submissions.row) (rows : list submissions.row) :
  In r rows -> submissions.id r <> submissions.id NEW -> In r (upsert NEW rows).
Proof.
  intros Hr Hid. unfold upsert. destruct (existsb _ rows).
  - apply in_map_iff. exists r.
    apply Z.eqb_neq in Hid. now rewrite Hid.
  - apply in_or_app. now left.
Qed.

(** One child is written unless a trigger or the uniqueness of
    [(scheduleId, submissionDate)] stops it. *)
Lemma write_submission_row_spec (sid : Z) (c : SubmissionDate.SubmissionDate)
    (db : Database) :
  DatabaseWriter.write_submission_row sid c db
  = if Constraints.submissions_trigger (row_of_child sid c) db
    then (Throw (ConstraintViolation Constraints.trigger_message), db)
    else if Constraints.submissions_unique_conflict (row_of_child sid c) db
    then (Throw (ConstraintViolation Constraints.unique_message), db)
    else (Ok tt, set_submissions (upsert (row_of_child sid c) (submissions db)) db).
Proof.
  unfold DatabaseWriter.write_submission_row, bind, get, upsert.
  cbv zeta. fold (row_of_child sid c).
  change (SubmissionDate.id c) with (submissions.id (row_of_child sid c)).
  generalize (row_of_child sid c). intros NEW.
  unfold Constraints.update_submission, Constraints.insert_submission.
  destruct (existsb _ (submissions db)) eqn:He; rewrite ?He; cbn [negb];
    destruct (Constraints.submissions_trigger NEW db);
    destruct (Constraints.submissions_unique_conflict NEW db); reflexivity.
Qed.

Lemma window_set_submissions (db : Database) (rows : list submissions.row)
    (sid a b : Z) :
  window db sid a b -> window (set_submissions rows db) sid a b.
Proof. intros H. exact H. Qed.

Lemma trigger_in_window (db : Database) (sid a b : Z)
    (c : SubmissionDate.SubmissionDate) :
  window db sid a b ->
  Constraints.submissions_trigger (row_of_child sid c) db
  = match SubmissionDate.submissionDate c with
    | Some d => (d <? a) || (b <? d)
    | None => false
    end.
Proof.
  intros [Ha Hb]. unfold Constraints.submissions_trigger.
  cbn [row_of_child submissions.scheduleId submissions.submissionDate].
  rewrite Ha, Hb.
  destruct (SubmissionDate.submissionDate c) as [d|]; [|reflexivity].
  cbn. destruct (d <? a), (b <? d); reflexivity.
Qed.

Lemma rows_step (sid : Z) (c : SubmissionDate.SubmissionDate)
    (rest : list SubmissionDate.SubmissionDate) (db : Database) :
  DatabaseWriter.write_submission_rows sid (c :: rest) db
  = match DatabaseWriter.write_submission_row sid c db with
    | (Ok _, db') => DatabaseWriter.write_submission_rows sid rest db'
    | (Throw e, db') => (Throw e, db')
    end.
Proof. reflexivity. Qed.

(** A child outside the window stops the loop. *)
Lemma rows_out_of_window (sid a b : Z)
    (children : list SubmissionDate.SubmissionDate) :
  forall db,
    window db sid a b ->
    Exists (out_of_window a b) children ->
    exists msg db',
      DatabaseWriter.write_submission_rows sid children db
      = (Throw (ConstraintViolation msg), db').
Proof.
  induction children as [|c rest IH]; intros db Hw Hex.
  - inversion Hex.
  - rewrite rows_step, write_submission_row_spec.
    destruct (Constraints.submissions_trigger _ db) eqn:Htr; [eauto|].
    destruct (Constraints.submissions_unique_conflict _ db); [eauto|].
    apply IH; [now apply window_set_submissions|].
    inversion Hex as [? ? (d & Hd & Hout) | ? ? Hrest]; subst; [|assumption].
    rewrite (trigger_in_window db sid a b c Hw), Hd in Htr.
    apply orb_false_iff in Htr as [H1%Z.ltb_ge H2%Z.ltb_ge]. lia.
Qed.

Lemma unique_conflict_found (sid d : Z) (c : SubmissionDate.SubmissionDate)
    (r : submissions.row) (db : Database) :
  In r (submissions db) ->
  submissions.id r <> SubmissionDate.id c ->
  submissions.scheduleId r = Some sid ->
  submissions.submissionDate r = Some d ->
  SubmissionDate.submissionDate c = Some d ->
  Constraints.submissions_unique_conflict (row_of_child sid c) db = true.
Proof.
  intros Hr Hid Hs Hd Hc. unfold Constraints.submissions_unique_conflict.
  cbn [row_of_child submissions.scheduleId submissions.submissionDate submissions.id].
  rewrite Hc. apply existsb_exists. exists r. split; [assumption|].
  apply Z.eqb_neq in Hid. rewrite Hid, Hs, Hd. cbn. now rewrite !Z.eqb_refl.
Qed.

Lemma unique_conflict_inv (sid : Z) (c : SubmissionDate.SubmissionDate)
    (db : Database) :
  Constraints.submissions_unique_conflict (row_of_child sid c) db = true ->
  exists r, In r (submissions db)
            /\ submissions.scheduleId r = Some sid
            /\ submissions.submissionDate r = SubmissionDate.submissionDate c.
Proof.
  unfold Constraints.submissions_unique_conflict.
  cbn [row_of_child submissions.scheduleId submissions.submissionDate submissions.id].
  destruct (SubmissionDate.submissionDate c) as [d|]; [|discriminate].
  intros (r & Hr & H)%existsb_exists.
  apply andb_true_iff in H as [H Hd]. apply andb_true_iff in H as [_ Hs].
  apply Sql_eq_true in Hd, Hs. eauto.
Qed.

(** Two children on the same day stop the loop, and so does a child on the
    day of a row that is already there for the schedule. *)
Lemma rows_duplicate (sid : Z) (children : list SubmissionDate.SubmissionDate) :
  forall db,
    List.NoDup (map SubmissionDate.id children) ->
    twins children \/ clash sid (submissions db) children ->
    exists msg db',
      DatabaseWriter.write_submission_rows sid children db
      = (Throw (ConstraintViolation msg), db').
Proof.
  induction children as [|c rest IH]; intros db Hnd Hdup.
  - destruct Hdup as [(c1 & _ & _ & [] & _) | (_ & c1 & _ & _ & [] & _)].
  - rewrite rows_step, write_submission_row_spec.
    destruct (Constraints.submissions_trigger _ db); [eauto|].
    destruct (Constraints.submissions_unique_conflict _ db) eqn:Hu; [eauto|].
    cbn [map] in Hnd. apply NoDup_cons_iff in Hnd as [Hfresh Hnd].
    apply IH; [assumption|]. cbn [submissions set_submissions].
    assert (Hnew : forall c' d,
               In c' rest ->
               SubmissionDate.submissionDate c = Some d ->
               SubmissionDate.submissionDate c' = Some d ->
               clash sid (upsert (row_of_child sid c) (submissions db)) rest).
    { intros c' d Hc' Hd Hd'. exists (row_of_child sid c), c', d.
      repeat split; try assumption. apply upsert_new. }
    destruct Hdup as [(c1 & c2 & d & H1 & H2 & Hid & Hd1 & Hd2)
                     | (r & c' & d & Hr & Hc' & Hs & Hd & Hd' & Hid)].
    + destruct H1 as [<- | H1], H2 as [<- | H2].
      * congruence.
      * right. eauto.
      * right. eauto.
      * left. exists c1, c2, d. auto.
    + assert (Hrc : submissions.id r <> SubmissionDate.id c)
        by (intros Heq; apply Hid; now left).
      destruct Hc' as [<- | Hc'].
      * rewrite (unique_conflict_found sid d c r db) in Hu by assumption.
        discriminate.
      * right. exists r, c', d. repeat split; try assumption.
        -- now apply upsert_keeps.
        -- intros Hin. apply Hid. now right.
Qed.

(** Children inside the window, on days of their own and of no row of the
    schedule, are all written. *)
Lemma rows_succeed (sid a b : Z) (children : list SubmissionDate.SubmissionDate) :
  forall db,
    window db sid a b ->
    Forall (in_window a b) children ->
    List.NoDup (map SubmissionDate.submissionDate children) ->
    (forall r, In r (submissions db) ->
               submissions.scheduleId r = Some sid ->
               ~ In (submissions.submissionDate r)
                    (map SubmissionDate.submissionDate children)) ->
    exists db',
      DatabaseWriter.write_submission_rows sid children db = (Ok tt, db')
      /\ schedules db' = schedules db.
Proof.
  induction children as [|c rest IH]; intros db Hw Hin Hnd Hrows.
  - now exists db.
  - rewrite rows_step, write_submission_row_spec.
    apply Forall_cons_iff in Hin as [(d & Hd & Hrange) Hin].
    cbn [map] in Hnd. apply NoDup_cons_iff in Hnd as [Hfresh Hnd].
    rewrite (trigger_in_window db sid a b c Hw), Hd.
    replace ((d <? a) || (b <? d)) with false
      by (symmetry; apply orb_false_iff; split; apply Z.ltb_ge; lia).
    destruct (Constraints.submissions_unique_conflict _ db) eqn:Hu.
    { apply unique_conflict_inv in Hu as (r & Hr & Hs & Hdate).
      exfalso. apply (Hrows r Hr Hs). left. now symmetry. }
    destruct (IH (set_submissions (upsert (row_of_child sid c) (submissions db)) db))
      as (db' & Hrun & Hsch); try assumption.
    + intros r Hr Hs Hdate. cbn [submissions set_submissions] in Hr.
      apply upsert_inv in Hr as [-> | Hr].
      * now apply Hfresh.
      * apply (Hrows r Hr Hs). now right.
    + exists db'. split; assumption.
Qed.

Lemma first_after_update (NEW : schedules.row) (rows : list schedules.row) :
  existsb (fun r => schedules.id r =? schedules.id NEW) rows = true ->
  head (List.filter (fun r => schedules.id r =? schedules.id NEW)
          (map (fun r => if schedules.id r =? schedules.id NEW then NEW else r) rows))
  = Some NEW.
Proof.
  induction rows as [|x rows IH]; cbn; [discriminate|].
  destruct (schedules.id x =? schedules.id NEW) eqn:Hx; cbn.
  - now rewrite Z.eqb_refl.
  - rewrite Hx. exact IH.
Qed.

Lemma first_after_insert (NEW : schedules.row) (rows : list schedules.row) :
  existsb (fun r => schedules.id r =? schedules.id NEW) rows = false ->
  head (List.filter (fun r => schedules.id r =? schedules.id NEW) (rows ++ [NEW]))
  = Some NEW.
Proof.
  intros H. rewrite List.filter_app, filter_none.
  - cbn. now rewrite Z.eqb_refl.
  - intros x Hx. destruct (schedules.id x =? schedules.id NEW) eqn:Hid; [|reflexivity].
    assert (Ht : existsb (fun r => schedules.id r =? schedules.id NEW) rows = true)
      by (apply existsb_exists; eauto).
    congruence.
Qed.

(** The row of the schedule is always written, and is then the one the
    triggers read; no other table is touched. *)
Lemma write_schedule_row_ok (root : CourseSchedule.CourseSchedule) (db : Database) :
  exists rows,
    DatabaseWriter.write_schedule_row root db = (Ok tt, set_schedules rows db)
    /\ head (List.filter (fun r => schedules.id r =? CourseSchedule.id root) rows)
       = Some (row_of_schedule root).
Proof.
  unfold DatabaseWriter.write_schedule_row, bind, get. cbv zeta.
  fold (row_of_schedule root).
  unfold Constraints.update_schedule, Constraints.insert_schedule.
  change (CourseSchedule.id root) with (schedules.id (row_of_schedule root)).
  destruct (existsb _ (schedules db)) eqn:He; rewrite ?He.
  - eexists. split; [reflexivity|]. now apply first_after_update.
  - eexists. split; [reflexivity|]. now apply first_after_insert.
Qed.

(** What [write_graph] does up to the loop over the children: the row of
    the schedule is in place, the rows of its former children are gone. *)
Lemma write_graph_unfold (root : CourseSchedule.CourseSchedule) (db : Database) :
  exists rows,
    head (List.filter (fun r => schedules.id r =? CourseSchedule.id root) rows)
    = Some (row_of_schedule root)
    /\ DatabaseWriter.write_graph root db
       = DatabaseWriter.write_submission_rows (CourseSchedule.id root)
           (CourseSchedule.submissionDates root)
           (set_submissions
              (List.filter
                 (fun r => negb (Sql.eq (submissions.scheduleId r) (CourseSchedule.id root)))
                 (submissions db))
              (set_schedules rows db)).
Proof.
  destruct (write_schedule_row_ok root db) as (rows & Hrun & Hhead).
  exists rows. split; [assumption|].
  unfold DatabaseWriter.write_graph.
  rewrite (bind_ok _ _ _ _ _ Hrun). reflexivity.
Qed.

Lemma window_after_schedule_row (root : CourseSchedule.CourseSchedule)
    (db : Database) (rows : list schedules.row) (subs : list submissions.row)
    (a b : Z) :
  CourseSchedule.startDate root = Some a ->
  CourseSchedule.endDate root = Some b ->
  head (List.filter (fun r => schedules.id r =? CourseSchedule.id root) rows)
  = Some (row_of_schedule root) ->
  window (set_submissions subs (set_schedules rows db)) (CourseSchedule.id root) a b.
Proof.
  intros Ha Hb Hhead. unfold window, Constraints.schedule_column.
  cbn [schedules set_submissions set_schedules]. rewrite Hhead. now split.
Qed.

Lemma writeRoot_throw (root : CourseSchedule.CourseSchedule) (db db' : Database)
    (e : exn) :
  DatabaseWriter.write_graph root db = (Throw e, db') ->
  DatabaseWriter.writeRoot root db = (Throw e, db).
Proof. intros H. unfold DatabaseWriter.writeRoot. now rewrite H. Qed.

Lemma writeRoot_ok (root : CourseSchedule.CourseSchedule) (db db' : Database) :
  DatabaseWriter.write_graph root db = (Ok tt, db') ->
  DatabaseWriter.writeRoot root db = (Ok tt, db').
Proof. intros H. unfold DatabaseWriter.writeRoot. now rewrite H. Qed.

Lemma former_children_gone (sid : Z) (rows : list submissions.row)
    (r : submissions.row) :
  In r (List.filter (fun r => negb (Sql.eq (submissions.scheduleId r) sid)) rows) ->
  submissions.scheduleId r <> Some sid.
Proof.
  intros [_ H]%filter_In Hs. rewrite Hs in H. cbn in H.
  now rewrite Z.eqb_refl in H.
Qed.

(** A schedule inside its own window, with no two children on the same
    day, is written. *)
Lemma writeRoot_succeeds (db : Database) (root : CourseSchedule.CourseSchedule)
    (a b : Z) :
  CourseSchedule.startDate root = Some a ->
  CourseSchedule.endDate root = Some b ->
  Forall (in_window a b) (CourseSchedule.submissionDates root) ->
  List.NoDup (map SubmissionDate.submissionDate (CourseSchedule.submissionDates root)) ->
  exists db', DatabaseWriter.writeRoot root db = (Ok tt, db').
Proof.
  intros Ha Hb Hin Hnd.
  destruct (write_graph_unfold root db) as (rows & Hhead & Hgraph).
  pose proof (window_after_schedule_row root db rows
    (List.filter
       (fun r => negb (Sql.eq (submissions.scheduleId r) (CourseSchedule.id root)))
       (submissions db)) a b Ha Hb Hhead) as Hw.
  destruct (rows_succeed _ a b _ _ Hw Hin Hnd) as (db' & Hrun & _).
  - intros r Hr Hs _. cbn [submissions set_submissions] in Hr.
    now apply former_children_gone in Hr.
  - exists db'. apply writeRoot_ok. now rewrite Hgraph.
Qed.

(** C1: writing a schedule whose start and end dates are set.  When one of
    its submission dates lies before the start or after the end, the write
    fails with a constraint violation; when all of them lie within the
    window and no two are on the same day, the write succeeds; when two of
    them, distinct entities, are on the same day, the write fails with a
    constraint violation.  A failed write leaves the database as it was. *)
Theorem writeRoot_schedule_invariant (db : Database)
    (root : CourseSchedule.CourseSchedule) (a b : Z) :
  CourseSchedule.startDate root = Some a ->
  CourseSchedule.endDate root = Some b ->
  (Exists (out_of_window a b) (CourseSchedule.submissionDates root) ->
   exists msg,
     DatabaseWriter.writeRoot root db = (Throw (ConstraintViolation msg), db))
  /\
  (Forall (in_window a b) (CourseSchedule.submissionDates root) ->
   List.NoDup (map SubmissionDate.submissionDate (CourseSchedule.submissionDates root)) ->
   exists db', DatabaseWriter.writeRoot root db = (Ok tt, db'))
  /\
  (List.NoDup (map SubmissionDate.id (CourseSchedule.submissionDates root)) ->
   twins (CourseSchedule.submissionDates root) ->
   exists msg,
     DatabaseWriter.writeRoot root db = (Throw (ConstraintViolation msg), db)).
Proof.
  intros Ha Hb.
  destruct (write_graph_unfold root db) as (rows & Hhead & Hgraph).
  pose proof (window_after_schedule_row root db rows
    (List.filter
       (fun r => negb (Sql.eq (submissions.scheduleId r) (CourseSchedule.id root)))
       (submissions db)) a b Ha Hb Hhead) as Hw.
  split; [|split].
  - intros Hout.
    destruct (rows_out_of_window _ a b _ _ Hw Hout) as (msg & db' & Hrun).
    exists msg. apply writeRoot_throw with db'. now rewrite Hgraph.
  - intros Hin Hnd. now apply writeRoot_succeeds with a b.
  - intros Hnd Htwins.
    destruct (rows_duplicate (CourseSchedule.id root) _
                (set_submissions
                   (List.filter
                      (fun r => negb (Sql.eq (submissions.scheduleId r)
                                        (CourseSchedule.id root)))
                      (submissions db))
                   (set_schedules rows db)) Hnd (or_introl Htwins))
      as (msg & db' & Hrun).
    exists msg. apply writeRoot_throw with db'. now rewrite Hgraph.
Qed.

Lemma writeRoot_schedule_invariant_witness :
  (exists msg,
     DatabaseWriter.writeRoot (Sample.schedule 2 100 200 [(10, 50)]) Sample.db1
     = (Throw (ConstraintViolation msg), Sample.db1))
  /\
  (exists db',
     DatabaseWriter.writeRoot (Sample.schedule 2 100 200 [(10, 100); (11, 150)])
       Sample.db1
     = (Ok tt, db'))
  /\
  (exists msg,
     DatabaseWriter.writeRoot (Sample.schedule 2 100 200 [(10, 100); (11, 100)])
       Sample.db1
     = (Throw (ConstraintViolation msg), Sample.db1)).
Proof.
  split; [|split].
  - apply (proj1 (writeRoot_schedule_invariant Sample.db1
                    (Sample.schedule 2 100 200 [(10, 50)]) 100 200
                    eq_refl eq_refl)).
    left. exists 50. split; [reflexivity | lia].
  - apply (proj1 (proj2 (writeRoot_schedule_invariant Sample.db1
                    (Sample.schedule 2 100 200 [(10, 100); (11, 150)]) 100 200
                    eq_refl eq_refl))).
    + repeat constructor.
      * exists 100. split; [reflexivity | lia].
      * exists 150. split; [reflexivity | lia].
    + cbn. constructor; [intros [H | []]; discriminate H|].
      constructor; [intros []|]. constructor.
  - apply (proj2 (proj2 (writeRoot_schedule_invariant Sample.db1
                    (Sample.schedule 2 100 200 [(10, 100); (11, 100)]) 100 200
                    eq_refl eq_refl))).
    + cbn. constructor; [intros [H | []]; discriminate H|].
      constructor; [intros []|]. constructor.
    + exists {| SubmissionDate.id := 10; SubmissionDate.submissionDate := Some 100 |},
             {| SubmissionDate.id := 11; SubmissionDate.submissionDate := Some 100 |},
             100.
      cbn. repeat split; auto; discriminate.
Defined.

(** ** The schedule of a course *)

Lemma bind_inv {S A B} (m : St S A) (k : A -> St S B) (s s2 : S) (b : B) :
  bind m k s = (Ok b, s2) ->
  exists a s1, m s = (Ok a, s1) /\ k a s1 = (Ok b, s2).
Proof.
  unfold bind. destruct (m s) as [[a|e] s1]; [eauto | discriminate].
Qed.

Lemma rows_keep_schedules (sid : Z) (children : list SubmissionDate.SubmissionDate) :
  forall db r db',
    DatabaseWriter.write_submission_rows sid children db = (r, db') ->
    schedules db' = schedules db.
Proof.
  induction children as [|c rest IH]; intros db r db'.
  - now intros [= _ <-].
  - rewrite rows_step, write_submission_row_spec.
    destruct (Constraints.submissions_trigger _ db); [now intros [= _ <-]|].
    destruct (Constraints.submissions_unique_conflict _ db); [now intros [= _ <-]|].
    intros H. now apply IH in H.
Qed.

(** After a successful write the row of the schedule is in [schedules]. *)
Lemma writeRoot_row (root : CourseSchedule.CourseSchedule) (db db' : Database) :
  DatabaseWriter.writeRoot root db = (Ok tt, db') ->
  In (row_of_schedule root) (schedules db').
Proof.
  unfold DatabaseWriter.writeRoot.
  destruct (write_graph_unfold root db) as (rows & Hhead & ->).
  destruct (DatabaseWriter.write_submission_rows _ _ _) as [[[]|e] db2] eqn:Hrun;
    [|discriminate].
  intros [= <-]. apply rows_keep_schedules in Hrun. rewrite Hrun.
  cbn [schedules set_submissions set_schedules].
  destruct (List.filter _ rows) as [|x l] eqn:Hf; [discriminate|].
  injection Hhead as ->.
  apply (filter_In (fun r => schedules.id r =? CourseSchedule.id root)).
  rewrite Hf. now left.
Qed.

Lemma getCourseSchedule_id (id : Z) (db db' : Database)
    (s : CourseSchedule.CourseSchedule) :
  ObjectHandler.getCourseSchedule id db = (Ok (Some s), db') ->
  CourseSchedule.id s = id.
Proof.
  unfold ObjectHandler.getCourseSchedule.
  destruct (List.filter _ (schedules db)) as [|r l] eqn:Hf; [discriminate|].
  cbn. intros [= <- _]. cbn.
  assert (Hr : In r (List.filter (fun r => schedules.id r =? id) (schedules db)))
    by (rewrite Hf; now left).
  apply filter_In in Hr as [_ Hr]. now apply Z.eqb_eq.
Qed.

(** The schedule [saveSchedule] returns carries the id of the course, the
    dates it was given, and its row is in [schedules]. *)
Lemma saveSchedule_id (db db' : Database) (courseId startDate endDate : Z)
    (submissionDates : list Z) (s : CourseSchedule.CourseSchedule) :
  CourseManager.saveSchedule courseId startDate endDate submissionDates db
  = (Ok s, db') ->
  CourseSchedule.id s = courseId
  /\ CourseSchedule.startDate s = Some startDate
  /\ CourseSchedule.endDate s = Some endDate
  /\ In {| schedules.id := courseId;
           schedules.startDate := Some startDate;
           schedules.endDate := Some endDate |} (schedules db').
Proof.
  unfold CourseManager.saveSchedule.
  intros (course & d1 & _ & H)%bind_inv.
  apply bind_inv in H as (existing & d2 & Hget & H).
  apply bind_inv in H as (schedule & d3 & Hsched & H).
  cbv zeta in H.
  apply bind_inv in H as (u1 & d4 & _ & H).
  apply bind_inv in H as (objects & d5 & _ & H).
  apply bind_inv in H as ([] & d6 & Hwrite & H).
  injection H as <- <-.
  assert (Hid : CourseSchedule.id schedule = courseId).
  { destruct existing as [s0|].
    - injection Hsched as <- <-. now apply getCourseSchedule_id in Hget.
    - apply bind_inv in Hsched as ([created|] & d2' & _ & Hc); [|discriminate].
      now injection Hc as <- _. }
  apply writeRoot_row in Hwrite. unfold row_of_schedule in Hwrite.
  cbn in Hwrite |- *. rewrite Hid in Hwrite. auto.
Qed.

Lemma without_course_rows (db : Database) (courseId : Z) :
  (forall r, In r (courses (without_course courseId db))
             <-> In r (courses db) /\ courses.id r <> courseId)
  /\ (forall r, In r (schedules (without_course courseId db))
                <-> In r (schedules db) /\ schedules.id r <> courseId)
  /\ (forall r, In r (submissions (without_course courseId db))
                <-> In r (submissions db)
                    /\ submissions.scheduleId r <> Some courseId).
Proof.
  cbn [courses schedules submissions without_course].
  split; [|split]; intros r;
    (split;
     [ intros [Hr Hp]%filter_In; split; [assumption|]
     | intros [Hr Hid]; apply filter_In; split; [assumption|] ]).
  - now apply negb_true_iff, Z.eqb_neq in Hp.
  - now apply negb_true_iff, Z.eqb_neq.
  - now apply negb_true_iff, Z.eqb_neq in Hp.
  - now apply negb_true_iff, Z.eqb_neq.
  - intros Hs. apply negb_true_iff in Hp. apply Sql_eq_true in Hs. congruence.
  - apply negb_true_iff. destruct (Sql.eq _ courseId) eqn:He; [|reflexivity].
    now apply Sql_eq_true in He.
Qed.

Lemma load_projects_ok (course : Course.Course) (ids : list Z) (db : Database) :
  exists projects, CourseManager.load_projects course ids db = (Ok projects, db).
Proof.
  induction ids as [|i rest [ps IH]]; [now exists []|].
  cbn [CourseManager.load_projects].
  unfold bind at 1. unfold ObjectHandler.getCourseProject at 1.
  rewrite (bind_ok _ _ _ _ _ IH).
  destruct (option_map _ _); eexists; reflexivity.
Qed.

Lemma readCourse_ok (db : Database) (id : Z) :
  course_exists db id ->
  exists c, CourseManager.readCourse id db = (Ok c, db).
Proof.
  intros (r & Hr & Hid).
  unfold CourseManager.readCourse, bind at 1, ObjectHandler.getCourse.
  destruct (filter_some (fun r => courses.id r =? id) (courses db))
    as (y & rest & -> & _); [exists r; split; [assumption | now apply Z.eqb_eq]|].
  cbn [head hd_error option_map].
  unfold CourseManager.getProjectsForCourse, bind at 1, bind at 1,
    Stmt.all_project_ids_of_course.
  destruct (load_projects_ok
              {| Course.id := courses.id y; Course.name := courses.courseName y;
                 Course.projects := [] |}
              (map projects.id
                 (List.filter
                    (fun r => Sql.eq (projects.courseId r) (courses.id y))
                    (projects db))) db) as [ps Hps].
  cbn [Course.id]. rewrite Hps. eexists. reflexivity.
Qed.

Lemma create_submission_dates_ok (dates : list Z) :
  forall db,
    exists objects db',
      CourseManager.create_submission_dates dates db = (Ok objects, db')
      /\ map SubmissionDate.submissionDate objects = map Some dates.
Proof.
  induction dates as [|d rest IH]; intros db.
  - exists [], db. now split.
  - cbn [CourseManager.create_submission_dates].
    unfold bind at 1, DatabaseSerializableFactory.create_SubmissionDate at 1.
    destruct (IH (set_submissions
                    (submissions db ++
                       [ {| submissions.id :=
                              Sql.next_rowid (map submissions.id (submissions db));
                            submissions.scheduleId := None;
                            submissions.submissionDate := None |} ])%list db))
      as (objects & db' & Hrun & Hdates).
    rewrite (bind_ok _ _ _ _ _ Hrun).
    eexists. exists db'. split; [reflexivity|]. cbn. now rewrite Hdates.
Qed.

(** [saveSchedule] returns: for a course that exists, dates within the
    window and no two of them equal, a schedule is stored and handed back. *)
Lemma saveSchedule_succeeds (db : Database) (courseId startDate endDate : Z)
    (submissionDates : list Z) :
  course_exists db courseId ->
  Forall (fun d => startDate <= d <= endDate) submissionDates ->
  List.NoDup submissionDates ->
  exists s db',
    CourseManager.saveSchedule courseId startDate endDate submissionDates db
    = (Ok s, db').
Proof.
  intros Hex Hin Hnd. unfold CourseManager.saveSchedule.
  destruct (readCourse_ok db courseId Hex) as [c Hc].
  rewrite (bind_ok _ _ _ _ _ Hc).
  unfold bind at 1. unfold ObjectHandler.getCourseSchedule at 1.
  set (existing := option_map _ _).
  assert (Hsched : exists schedule db1,
             (match existing with
              | Some s => ret s
              | None =>
                  let* created := DatabaseSerializableFactory.create_CourseSchedule in
                  match created with
                  | Some s => ret (CourseSchedule.setId s courseId)
                  | None => throw (MethodFailedException "Schedule creation failed")
                  end
              end) db = (Ok schedule, db1)).
  { destruct existing; eexists; eexists; reflexivity. }
  destruct Hsched as (schedule & db1 & Hsched).
  rewrite (bind_ok _ _ _ _ _ Hsched). cbv zeta.
  unfold bind at 1, Stmt.delete_submissions_of at 1.
  destruct (create_submission_dates_ok submissionDates
              (set_submissions
                 (List.filter
                    (fun r => negb (Sql.eq (submissions.scheduleId r) courseId))
                    (submissions db1)) db1))
    as (objects & db2 & Hobj & Hdates).
  rewrite (bind_ok _ _ _ _ _ Hobj).
  destruct (writeRoot_succeeds db2
              (CourseSchedule.setSubmissionDates
                 (CourseSchedule.setEndDate
                    (CourseSchedule.setStartDate schedule startDate) endDate)
                 objects) startDate endDate eq_refl eq_refl) as [db3 Hwrite].
  - cbn [CourseSchedule.submissionDates CourseSchedule.setSubmissionDates].
    apply List.Forall_forall. intros o Ho.
    assert (Hd : In (SubmissionDate.submissionDate o) (map Some submissionDates))
      by (rewrite <- Hdates; now apply in_map).
    apply in_map_iff in Hd as (d & Hd & Hdin).
    exists d. split; [now symmetry|].
    now apply (proj1 (List.Forall_forall _ _) Hin).
  - cbn [CourseSchedule.submissionDates CourseSchedule.setSubmissionDates].
    rewrite Hdates. apply Finite.Injective_map_NoDup; [|assumption].
    now intros x y [= ->].
  - rewrite (bind_ok _ _ _ _ _ Hwrite). eexists. eexists. reflexivity.
Qed.

(** C10: the schedule [saveSchedule] stores for a course has the id of the
    course; [deleteCourse] on a course without projects returns [true] and
    removes the row of the course, the row of [schedules] with the id of the
    course and the rows of [submissions] that refer to that schedule; every
    other row of these three tables stays, and the other tables are as they
    were. *)
Theorem schedule_shares_course_id (db : Database) (courseId : Z) :
  (forall startDate endDate submissionDates s db',
      CourseManager.saveSchedule courseId startDate endDate submissionDates db
      = (Ok s, db') ->
      CourseSchedule.id s = courseId
      /\ exists r, In r (schedules db') /\ schedules.id r = courseId
                   /\ schedules.startDate r = Some startDate
                   /\ schedules.endDate r = Some endDate)
  /\
  (course_exists db courseId -> ~ course_has_project db courseId ->
   exists db',
     CourseManager.deleteCourse courseId db = (Ok true, db')
     /\ (forall r, In r (courses db')
                   <-> In r (courses db) /\ courses.id r <> courseId)
     /\ (forall r, In r (schedules db')
                   <-> In r (schedules db) /\ schedules.id r <> courseId)
     /\ (forall r, In r (submissions db')
                   <-> In r (submissions db)
                       /\ submissions.scheduleId r <> Some courseId)
     /\ users db' = users db
     /\ terms db' = terms db
     /\ projects db' = projects db
     /\ user_projects db' = user_projects db
     /\ happiness db' = happiness db).
Proof.
  split.
  - intros a b dates s db' H.
    apply saveSchedule_id in H as (Hid & _ & _ & Hrow).
    split; [assumption|]. eexists. split; [exact Hrow|]. now cbn.
  - intros Hex Hfree. exists (without_course courseId db).
    split; [now apply deleteCourse_free|].
    destruct (without_course_rows db courseId) as (Hc & Hs & Hsub).
    repeat split; try reflexivity; first [apply Hc | apply Hs | apply Hsub];
      assumption.
Qed.

Lemma schedule_shares_course_id_witness :
  (exists s db',
     CourseManager.saveSchedule 1 10 20 [10; 15] Sample.db1 = (Ok s, db')
     /\ CourseSchedule.id s = 1
     /\ exists r, In r (schedules db') /\ schedules.id r = 1
                  /\ schedules.startDate r = Some 10
                  /\ schedules.endDate r = Some 20)
  /\
  (exists db',
     CourseManager.deleteCourse 2 Sample.db1 = (Ok true, db')
     /\ (forall r, In r (courses db')
                   <-> In r (courses Sample.db1) /\ courses.id r <> 2)
     /\ (forall r, In r (schedules db')
                   <-> In r (schedules Sample.db1) /\ schedules.id r <> 2)
     /\ (forall r, In r (submissions db')
                   <-> In r (submissions Sample.db1)
                       /\ submissions.scheduleId r <> Some 2)
     /\ users db' = users Sample.db1
     /\ terms db' = terms Sample.db1
     /\ projects db' = projects Sample.db1
     /\ user_projects db' = user_projects Sample.db1
     /\ happiness db' = happiness Sample.db1).
Proof.
  split.
  - eexists. eexists.
    assert (Hrun : forall r,
               r = CourseManager.saveSchedule 1 10 20 [10; 15] Sample.db1 ->
               CourseManager.saveSchedule 1 10 20 [10; 15] Sample.db1 = r)
      by (intros r ->; reflexivity).
    split; [apply Hrun; vm_compute; reflexivity|].
    eapply (proj1 (schedule_shares_course_id Sample.db1 1) 10 20 [10; 15]).
    vm_compute. reflexivity.
  - apply (proj2 (schedule_shares_course_id Sample.db1 2)).
    + eexists. split; [right; left; reflexivity | reflexivity].
    + intros (p & Hp & Hc). cbn in Hp.
      destruct Hp as [<- | []]; discriminate Hc.
Defined.

(** ** The scenarios of the schedule tests *)

(** "should automatically create id on insertion" *)
Example test_create_id_on_insertion :
  match fst (Sample.written_and_read_back 1 32 [1] Sample.empty_db) with
  | Ok (Some actual, expected) => actual = expected /\ CourseSchedule.id actual = 1
  | _ => False
  end.
Proof. vm_compute. split; reflexivity. Qed.

(** "should not allow duplicate submission dates" *)
Example test_duplicate_submission_dates :
  fst (Sample.written_and_read_back 1 32 [1; 1] Sample.empty_db)
  = Throw (ConstraintViolation Constraints.unique_message).
Proof. reflexivity. Qed.

(** "should not allow submissions before schedule" *)
Example test_submission_before_schedule :
  fst (Sample.written_and_read_back 2 3 [1] Sample.empty_db)
  = Throw (ConstraintViolation Constraints.trigger_message).
Proof. reflexivity. Qed.

(** "should not allow submissions after schedule" *)
Example test_submission_after_schedule :
  fst (Sample.written_and_read_back 1 2 [3] Sample.empty_db)
  = Throw (ConstraintViolation Constraints.trigger_message).
Proof. reflexivity. Qed.

(** * Further properties *)

(** ** The value types *)

Lemma preserved_refl (h : heap) : preserved h h.
Proof. intros l o H. exact H. Qed.

Lemma preserved_alloc (h : heap) (o : object) : preserved h (h ++ [o])%list.
Proof. intros l o' H. now apply lookup_alloc_old. Qed.

Lemma UserStatus_new_heap (arg : option string) (h h' : heap) (r : result loc) :
  UserStatus.new arg h = (r, h') ->
  (exists e, r = Throw e /\ h' = h)
  \/ (r = Ok (length h) /\ h' = (h ++ [UserStatusObject (default "unconfirmed" arg)])%list).
Proof.
  unfold UserStatus.new, bind, lift. cbn [Js.resolve Js.own UserStatus.module_scope].
  change (Js.resolve UserStatus.module_scope "UserStatusEnum")
    with (Ok UserStatus.UserStatusEnum).
  cbv beta iota.
  destruct (negb (Js.has_property (default "unconfirmed" arg) UserStatus.UserStatusEnum)).
  - intros [= <- <-]. left. eauto.
  - intros [= <- <-]. now right.
Qed.

Lemma UserStatus_canTransitionTo_heap (l : loc) (t : string) (h h' : heap)
    (r : result bool) :
  UserStatus.canTransitionTo l t h = (r, h') -> h' = h.
Proof.
  unfold UserStatus.canTransitionTo, UserStatus.this_status, bind, deref, lift.
  destruct (h !! l) as [[s|s]|]; cbn; now intros [= _ <-].
Qed.

Lemma UserStatus_transitionTo_heap (l : loc) (t : string) (h h' : heap)
    (r : result loc) :
  UserStatus.transitionTo l t h = (r, h') ->
  (h' = h /\ (forall l', r = Ok l' -> l' = l))
  \/ (r = Ok (length h) /\ h' = (h ++ [UserStatusObject t])%list).
Proof.
  unfold UserStatus.transitionTo, bind at 1, UserStatus.this_status, bind at 1, deref.
  destruct (h !! l) as [[s|s]|] eqn:Hl; cbn [ret throw].
  - destruct (String.eqb s t).
    + intros [= <- <-]. left. split; [reflexivity | now intros l' [= <-]].
    + unfold bind.
      destruct (UserStatus.canTransitionTo l t h) as [[[|]|e] h1] eqn:Hcan;
        apply UserStatus_canTransitionTo_heap in Hcan as ->.
      * intros H. apply UserStatus_new_heap in H as [(e & -> & ->) | [-> ->]].
        -- left. split; [reflexivity | discriminate].
        -- now right.
      * intros [= <- <-]. left. split; [reflexivity | discriminate].
      * intros [= <- <-]. left. split; [reflexivity | discriminate].
  - intros [= <- <-]. left. split; [reflexivity | discriminate].
  - intros [= <- <-]. left. split; [reflexivity | discriminate].
Qed.

(** X1: the status values are never modified.  Whatever the receiver, the
    argument and the heap, [new], [canTransitionTo] and [transitionTo] leave
    every object that exists where and as it is; [canTransitionTo] allocates
    nothing, and a call that throws allocates nothing. *)
Theorem UserStatus_objects_immutable (h : heap) :
  (forall arg r h', UserStatus.new arg h = (r, h') ->
     preserved h h' /\ (forall e, r = Throw e -> h' = h))
  /\
  (forall l t r h', UserStatus.canTransitionTo l t h = (r, h') -> h' = h)
  /\
  (forall l t r h', UserStatus.transitionTo l t h = (r, h') ->
     preserved h h' /\ (forall e, r = Throw e -> h' = h)).
Proof.
  split; [|split].
  - intros arg r h' H.
    apply UserStatus_new_heap in H as [(e & -> & ->) | [-> ->]].
    + split; [apply preserved_refl | reflexivity].
    + split; [apply preserved_alloc | discriminate].
  - intros l t r h'. apply UserStatus_canTransitionTo_heap.
  - intros l t r h' H.
    apply UserStatus_transitionTo_heap in H as [[-> _] | [-> ->]].
    + split; [apply preserved_refl | reflexivity].
    + split; [apply preserved_alloc | discriminate].
Qed.

Lemma UserStatus_objects_immutable_witness :
  preserved [UserStatusObject "unconfirmed"]
    (snd (UserStatus.transitionTo 0%nat "confirmed" [UserStatusObject "unconfirmed"]))
  /\
  snd (UserStatus.transitionTo 0%nat "unconfirmed" [UserStatusObject "removed"])
  = [UserStatusObject "removed"].
Proof.
  split.
  - eapply (proj2 (proj2 (UserStatus_objects_immutable _)) 0%nat "confirmed").
    reflexivity.
  - eapply (proj2 (proj2 (UserStatus_objects_immutable _)) 0%nat "unconfirmed").
    + reflexivity.
    + reflexivity.
Defined.

Lemma includes_iff (l : list string) (t : string) :
  Js.includes l t = true <-> In t l.
Proof.
  split; [apply includes_In|].
  induction l as [|x l IH]; cbn; [contradiction|].
  intros [-> | H]; [now rewrite String.eqb_refl | rewrite IH by assumption].
  apply orb_true_r.
Qed.

(** The table read at a member of the enumeration, against the wording of
    the specification, for targets that are arbitrary strings. *)
Lemma status_table_at (s : Spec.Status) (t : string) :
  exists allowed,
    Js.own UserStatus.validTransitions (Spec.Status_tag s) = Some allowed
    /\ (In t allowed <-> exists m, t = Spec.Status_tag m /\ Spec.status_allows s m = true).
Proof.
  destruct s; eexists; (split; [reflexivity|]); cbn; split.
  all: try (intros H;
            repeat (destruct H as [<- | H];
                    [ first [ now exists Spec.confirmed
                            | now exists Spec.suspended
                            | now exists Spec.removed ] | ]);
            contradiction).
  all: intros ([] & -> & Hallow); cbn in *; try discriminate; auto.
Qed.

Lemma UserStatus_transitionTo_invalid (h : heap) (l : loc) (s : Spec.Status)
    (t : string) :
  h !! l = Some (UserStatusObject (Spec.Status_tag s)) ->
  t <> Spec.Status_tag s ->
  (forall m, t = Spec.Status_tag m -> Spec.status_allows s m = false) ->
  UserStatus.transitionTo l t h
  = (Throw (Error ("Invalid transition from " ++ Spec.Status_tag s ++ " to " ++ t)), h).
Proof.
  intros H Hne Hno.
  unfold UserStatus.transitionTo, UserStatus.canTransitionTo, bind.
  rewrite (this_status_lookup _ _ _ H).
  assert (He : String.eqb (Spec.Status_tag s) t = false)
    by (apply String.eqb_neq; congruence).
  rewrite He, (this_status_lookup _ _ _ H). unfold lift, Js.includes_at.
  destruct (status_table_at s t) as (allowed & -> & Hin).
  destruct (Js.includes allowed t) eqn:Hinc; [|reflexivity].
  apply includes_iff, Hin in Hinc as (m & Hm & Hallow).
  rewrite (Hno m Hm) in Hallow. discriminate.
Qed.

(** X2: for a status in any state of the enumeration and any target string,
    [transitionTo] succeeds exactly when the target is the state itself or
    a successor the table allows; in every other case, a target outside the
    enumeration included, it throws the invalid-transition error that names
    both, and the heap is as before. *)
Theorem UserStatus_transitionTo_decides (h : heap) (l : loc) (s : Spec.Status)
    (t : string) :
  h !! l = Some (UserStatusObject (Spec.Status_tag s)) ->
  ((t = Spec.Status_tag s
    \/ exists m, t = Spec.Status_tag m /\ Spec.status_allows s m = true) ->
   exists l' h',
     UserStatus.transitionTo l t h = (Ok l', h')
     /\ h' !! l' = Some (UserStatusObject t))
  /\
  (t <> Spec.Status_tag s ->
   (forall m, t = Spec.Status_tag m -> Spec.status_allows s m = false) ->
   UserStatus.transitionTo l t h
   = (Throw (Error ("Invalid transition from " ++ Spec.Status_tag s ++ " to " ++ t)), h)).
Proof.
  intros H. split.
  - intros [-> | (m & -> & Hallow)].
    + exists l, h. split; [now apply UserStatus_transitionTo_same | assumption].
    + destruct (UserStatus_transitionTo_allowed h l s m H) as (l' & h' & Hrun & _ & _ & Hl' & _);
        [intros ->; destruct m; discriminate | assumption | eauto].
  - now apply UserStatus_transitionTo_invalid.
Qed.

Lemma UserStatus_transitionTo_decides_witness :
  (exists l' h',
     UserStatus.transitionTo 0%nat "removed" [UserStatusObject "suspended"] = (Ok l', h')
     /\ h' !! l' = Some (UserStatusObject "removed"))
  /\
  UserStatus.transitionTo 0%nat "removed" [UserStatusObject "confirmed"]
  = (Throw (Error "Invalid transition from confirmed to removed"),
     [UserStatusObject "confirmed"])
  /\
  UserStatus.transitionTo 0%nat "banned" [UserStatusObject "confirmed"]
  = (Throw (Error "Invalid transition from confirmed to banned"),
     [UserStatusObject "confirmed"]).
Proof.
  split; [|split].
  - apply (proj1 (UserStatus_transitionTo_decides
                    [UserStatusObject "suspended"] 0%nat Spec.suspended "removed" eq_refl)).
    right. now exists Spec.removed.
  - apply (proj2 (UserStatus_transitionTo_decides
                    [UserStatusObject "confirmed"] 0%nat Spec.confirmed "removed" eq_refl)).
    + discriminate.
    + intros [] Hm; try discriminate Hm; reflexivity.
  - apply (proj2 (UserStatus_transitionTo_decides
                    [UserStatusObject "confirmed"] 0%nat Spec.confirmed "banned" eq_refl)).
    + discriminate.
    + intros [] Hm; discriminate Hm.
Defined.

(** One successful step from a member leads to a member: the same one or a
    successor of the table. *)
Lemma UserStatus_step (h h' : heap) (l l' : loc) (s : Spec.Status) (t : string) :
  h !! l = Some (UserStatusObject (Spec.Status_tag s)) ->
  UserStatus.transitionTo l t h = (Ok l', h') ->
  exists m, h' !! l' = Some (UserStatusObject (Spec.Status_tag m))
            /\ (m = s \/ Spec.status_allows s m = true).
Proof.
  intros H Hrun.
  destruct (String.eqb (Spec.Status_tag s) t) eqn:He.
  - apply String.eqb_eq in He as <-.
    rewrite (UserStatus_transitionTo_same _ _ _ H) in Hrun.
    injection Hrun as <- <-. exists s. auto.
  - apply String.eqb_neq in He.
    destruct (status_table_at s t) as (allowed & Hown & Hin).
    destruct (Js.includes allowed t) eqn:Hinc.
    + apply includes_iff, Hin in Hinc as (m & -> & Hallow).
      destruct (UserStatus_transitionTo_allowed h l s m H)
        as (l2 & h2 & Hrun2 & _ & _ & Hl2 & _);
        [intros ->; destruct m; discriminate | assumption |].
      rewrite Hrun2 in Hrun. injection Hrun as <- <-. exists m. auto.
    + rewrite (UserStatus_transitionTo_invalid h l s t H) in Hrun;
        [discriminate | congruence |].
      intros m -> . destruct (Spec.status_allows s m) eqn:Ha; [|reflexivity].
      assert (Hc : In (Spec.Status_tag m) allowed) by (apply Hin; eauto).
      apply includes_iff in Hc. congruence.
Qed.

(** X3: along any chain of successful transitions that starts at a member
    of the enumeration the value stays a member; a chain that starts at
    removed ends at removed, and a chain that starts anywhere but at
    unconfirmed never comes to unconfirmed. *)
Theorem UserStatus_chains (targets : list string) :
  forall (h h' : heap) (l l' : loc) (s : Spec.Status),
    h !! l = Some (UserStatusObject (Spec.Status_tag s)) ->
    transitions l targets h = (Ok l', h') ->
    exists m,
      h' !! l' = Some (UserStatusObject (Spec.Status_tag m))
      /\ (s = Spec.removed -> m = Spec.removed)
      /\ (s <> Spec.unconfirmed -> m <> Spec.unconfirmed).
Proof.
  induction targets as [|t rest IH]; intros h h' l l' s H Hrun.
  - injection Hrun as <- <-. exists s. auto.
  - cbn [transitions] in Hrun.
    apply bind_inv in Hrun as (l1 & h1 & Hstep & Hrest).
    destruct (UserStatus_step h h1 l l1 s t H Hstep) as (m1 & Hl1 & Hm1).
    destruct (IH h1 h' l1 l' m1 Hl1 Hrest) as (m & Hl' & Hrem & Hunc).
    exists m. split; [assumption|]. split.
    + intros ->. apply Hrem. destruct Hm1 as [-> | Ha]; [reflexivity|].
      destruct m1; discriminate Ha.
    + intros Hs. apply Hunc. destruct Hm1 as [-> | Ha]; [assumption|].
      destruct s, m1; try discriminate Ha; try discriminate; congruence.
Qed.

Lemma UserStatus_chains_witness :
  exists m,
    [ UserStatusObject "confirmed"; UserStatusObject "suspended";
      UserStatusObject "confirmed"; UserStatusObject "suspended";
      UserStatusObject "removed" ] !! 4%nat
    = Some (UserStatusObject (Spec.Status_tag m))
    /\ (Spec.confirmed = Spec.removed -> m = Spec.removed)
    /\ (Spec.confirmed <> Spec.unconfirmed -> m <> Spec.unconfirmed).
Proof.
  apply (UserStatus_chains
           ["suspended"; "confirmed"; "suspended"; "removed"; "removed"]
           [UserStatusObject "confirmed"] _ 0%nat 4%nat Spec.confirmed).
  - reflexivity.
  - reflexivity.
Defined.

Lemma UserRole_new_always_throws_shared (arg : option string) (h : heap) :
  UserRole.new arg h = (Throw (ReferenceError "UserRoleEnaum is not defined"), h).
Proof. reflexivity. Qed.

Lemma UserRole_canTransitionTo_heap (l : loc) (t : string) (h h' : heap)
    (r : result bool) :
  UserRole.canTransitionTo l t h = (r, h') -> h' = h.
Proof.
  unfold UserRole.canTransitionTo, UserRole.this_role, bind, deref, lift.
  destruct (h !! l) as [[s|s]|]; cbn; now intros [= _ <-].
Qed.

(** X4: a role never turns into another.  Whatever the receiver, the target
    and the heap, [UserRole.transitionTo] hands back the receiver, and only
    when the target is the role it already holds, or it throws; it never
    returns another location and never changes the heap. *)
Theorem UserRole_transitionTo_never_changes (l : loc) (t : string) (h h' : heap)
    (r : result loc) :
  UserRole.transitionTo l t h = (r, h') ->
  h' = h
  /\ (forall l', r = Ok l' -> l' = l /\ h !! l = Some (UserRoleObject t)).
Proof.
  unfold UserRole.transitionTo, bind at 1, UserRole.this_role, bind at 1, deref.
  destruct (h !! l) as [[s|s]|] eqn:Hl; cbn [ret throw].
  - intros [= <- <-]. split; [reflexivity | discriminate].
  - destruct (String.eqb s t) eqn:He.
    + apply String.eqb_eq in He as ->. intros [= <- <-].
      split; [reflexivity|]. now intros l' [= <-].
    + unfold bind.
      destruct (UserRole.canTransitionTo l t h) as [[[|]|e] h1] eqn:Hcan;
        apply UserRole_canTransitionTo_heap in Hcan as ->.
      * rewrite UserRole_new_always_throws_shared. intros [= <- <-].
        split; [reflexivity | discriminate].
      * intros [= <- <-]. split; [reflexivity | discriminate].
      * intros [= <- <-]. split; [reflexivity | discriminate].
  - intros [= <- <-]. split; [reflexivity | discriminate].
Qed.

Lemma UserRole_transitionTo_never_changes_witness :
  snd (UserRole.transitionTo 0%nat "USER" [UserRoleObject "ADMIN"])
  = [UserRoleObject "ADMIN"]
  /\ (forall l', fst (UserRole.transitionTo 0%nat "USER" [UserRoleObject "ADMIN"]) = Ok l' ->
                 l' = 0%nat /\ [UserRoleObject "ADMIN"] !! 0%nat = Some (UserRoleObject "USER")).
Proof.
  apply (UserRole_transitionTo_never_changes 0%nat "USER" [UserRoleObject "ADMIN"]).
  reflexivity.
Defined.

Lemma own_none_iff {V} (o : Js.props V) (k : string) :
  Js.own o k = None <-> ~ In k (map fst o).
Proof.
  induction o as [|[k' v] o IH]; cbn; [tauto|].
  destruct (String.eqb k k') eqn:He.
  - apply String.eqb_eq in He as ->. split; [discriminate | tauto].
  - apply String.eqb_neq in He. rewrite IH. split; [|tauto].
    intros H [Hk | Hin]; [congruence | tauto].
Qed.

Lemma has_property_iff {V} (k : string) (o : Js.props V) :
  Js.has_property k o = true <-> In k (map fst o) \/ In k Js.Object_prototype.
Proof.
  unfold Js.has_property. destruct (Js.own o k) eqn:Hown.
  - split; [|reflexivity]. intros _. left.
    destruct (in_dec string_dec k (map fst o)) as [Hin | Hout]; [assumption|].
    apply own_none_iff in Hout. congruence.
  - rewrite includes_iff. apply own_none_iff in Hown. tauto.
Qed.

(** X5: which values the constructor of a status takes.  It builds an
    object for the four members of the enumeration and also for every
    property name a plain object inherits, such as [toString]; for every
    other string it throws the invalid-initial-status error and allocates
    nothing. *)
Theorem UserStatus_new_accepts (x : string) (h : heap) :
  (In x ["confirmed"; "unconfirmed"; "suspended"; "removed"]
   \/ In x Js.Object_prototype ->
   UserStatus.new (Some x) h = (Ok (length h), (h ++ [UserStatusObject x])%list))
  /\
  (~ In x ["confirmed"; "unconfirmed"; "suspended"; "removed"] ->
   ~ In x Js.Object_prototype ->
   UserStatus.new (Some x) h = (Throw (Error ("Invalid initial status: " ++ x)), h)).
Proof.
  unfold UserStatus.new, bind, lift.
  change (Js.resolve UserStatus.module_scope "UserStatusEnum")
    with (Ok UserStatus.UserStatusEnum).
  cbv beta iota zeta. change (default "unconfirmed" (Some x)) with x.
  pose proof (has_property_iff x UserStatus.UserStatusEnum) as Hp.
  change (map fst UserStatus.UserStatusEnum)
    with ["confirmed"; "unconfirmed"; "suspended"; "removed"] in Hp.
  split.
  - intros H. apply Hp in H. now rewrite H.
  - intros H1 H2.
    destruct (Js.has_property x UserStatus.UserStatusEnum); [|reflexivity].
    destruct (proj1 Hp eq_refl); tauto.
Qed.

Lemma UserStatus_new_accepts_witness :
  UserStatus.new (Some "valueOf") [UserStatusObject "removed"]
  = (Ok 1%nat, [UserStatusObject "removed"; UserStatusObject "valueOf"])
  /\
  UserStatus.new (Some "Confirmed") [UserStatusObject "removed"]
  = (Throw (Error "Invalid initial status: Confirmed"), [UserStatusObject "removed"]).
Proof.
  split.
  - apply (proj1 (UserStatus_new_accepts "valueOf" [UserStatusObject "removed"])).
    right. cbn. tauto.
  - apply (proj2 (UserStatus_new_accepts "Confirmed" [UserStatusObject "removed"])).
    + cbn. intros [H | [H | [H | [H | []]]]]; discriminate H.
    + cbn. intuition discriminate.
Defined.

(** ** The user entity *)

Lemma UserStatus_transitionTo_result (l l' : loc) (t : string) (h h' : heap) :
  UserStatus.transitionTo l t h = (Ok l', h') ->
  h' !! l' = Some (UserStatusObject t) /\ preserved h h'.
Proof.
  intros Hrun. pose proof Hrun as Hheap.
  apply UserStatus_transitionTo_heap in Hheap as [[-> Hl] | [[= ->] ->]].
  - specialize (Hl l' eq_refl) as ->. split; [|apply preserved_refl].
    revert Hrun.
    unfold UserStatus.transitionTo, bind at 1, UserStatus.this_status, bind at 1, deref.
    destruct (h !! l) as [[s|s]|] eqn:Hl; cbn [ret throw]; try discriminate.
    destruct (String.eqb s t) eqn:He.
    + apply String.eqb_eq in He as ->. reflexivity.
    + unfold bind.
      destruct (UserStatus.canTransitionTo l t h) as [[[|]|e] h1] eqn:Hcan;
        try discriminate.
      apply UserStatus_canTransitionTo_heap in Hcan as ->.
      intros H. apply UserStatus_new_heap in H as [(e & [=] & _) | [[= Hlen] Happ]].
      apply lookup_lt_Some in Hl. lia.
  - split; [apply lookup_alloc | apply preserved_alloc].
Qed.

(** X6: what a successful [setStatus] leaves behind.  For any user, target
    and heap: when [setStatus] returns, [getStatus] on the result answers
    the target, every other field of the user is as it was, and no object
    of the heap has been altered. *)
Theorem User_setStatus_getStatus {E : EmailClass} (u u' : User.User) (t : string)
    (h h' : heap) :
  User.setStatus u t h = (Ok u', h') ->
  User.getStatus u' h' = (Ok t, h')
  /\ preserved h h'
  /\ User.id u' = User.id u
  /\ User.name u' = User.name u
  /\ User.githubUsername u' = User.githubUsername u
  /\ User.email u' = User.email u
  /\ User.role u' = User.role u
  /\ User.password u' = User.password u
  /\ User.resetPasswordToken u' = User.resetPasswordToken u
  /\ User.resetPasswordExpire u' = User.resetPasswordExpire u
  /\ User.confirmEmailToken u' = User.confirmEmailToken u
  /\ User.confirmEmailExpire u' = User.confirmEmailExpire u.
Proof.
  unfold User.setStatus. intros (l' & h1 & Hrun & Hret)%bind_inv.
  injection Hret as <- <-.
  apply UserStatus_transitionTo_result in Hrun as [Hl' Hpres].
  split; [|split; [assumption | repeat split]].
  unfold User.getStatus, UserStatus.getStatusString. cbn [User.status].
  now apply this_status_lookup.
Qed.

Lemma User_setStatus_getStatus_witness :
  exists u' h',
    (let* u := @User.new Sample.plain_email 7 in User.setStatus u "suspended") []
    = (Ok u', h')
    /\ User.getStatus u' h' = (Ok "suspended", h')
    /\ User.role u' = Some "USER".
Proof.
  eexists. eexists.
  assert (Hrun : forall r,
             r = (let* u := @User.new Sample.plain_email 7 in
                  User.setStatus u "suspended") [] ->
             (let* u := @User.new Sample.plain_email 7 in
              User.setStatus u "suspended") [] = r)
    by (intros r ->; reflexivity).
  split; [apply Hrun; vm_compute; reflexivity|].
  split.
  - eapply (@User_setStatus_getStatus Sample.plain_email
              {| User.id := Some 7; User.name := None; User.githubUsername := None;
                 User.email := None; User.status := 0%nat; User.role := Some "USER";
                 User.password := None; User.resetPasswordToken := None;
                 User.resetPasswordExpire := None; User.confirmEmailToken := None;
                 User.confirmEmailExpire := None |}
              _ "suspended" [UserStatusObject "unconfirmed"]).
    reflexivity.
  - reflexivity.
Defined.

Lemma email_readable_value {E : EmailClass} (reader : Reader) :
  email_readable reader ->
  exists email',
    match readString reader "email" with
    | Some a => exists e, Email_new a = Ok e /\ email' = Some e
    | None => email' = None
    end
    /\ (email' = None <-> readString reader "email" = None).
Proof.
  intros [Hnull | (a & e & Ha & He)].
  - rewrite Hnull. exists None. now split.
  - rewrite Ha. exists (Some e). split; [now exists e | split; discriminate].
Qed.

(** When the status is refused, [readFrom] stops with the four fields
    before it assigned. *)
Lemma readFrom_refused {E : EmailClass} (reader : Reader) (u : User.User)
    (h : heap) (x : exn) :
  email_readable reader ->
  User.status_transitionTo (User.status u) (readString reader "status") h
  = (Throw x, h) ->
  exists u',
    User.readFrom reader (u, h) = (Throw x, (u', h))
    /\ read_up_to_status reader u u'.
Proof.
  intros Hmail Hthrow.
  destruct (email_readable_value reader Hmail) as (email' & Hstep & _).
  rewrite (readFrom_to_status reader u h email' Hstep). cbv zeta.
  rewrite Hthrow. eexists. split; [reflexivity|].
  unfold read_up_to_status.
  cbn [User.status User.id User.name User.githubUsername User.email User.role
       User.password User.resetPasswordToken User.resetPasswordExpire
       User.confirmEmailToken User.confirmEmailExpire
       User.set_id User.set_name User.set_githubUsername User.set_email].
  split; [reflexivity|]. split; [reflexivity|]. split; [reflexivity|].
  split; [|repeat split].
  destruct (readString reader "email") as [a|]; [|exact Hstep].
  destruct Hstep as (e & He & ->). now exists e.
Qed.

(** X7: [readFrom] moves the status of the user through [transitionTo], so
    it depends on the status the object holds, and it is not undone when
    the status is refused.  For a user in any state of the enumeration and
    a row whose address is readable: a row whose status is neither that
    state nor a successor the table allows, a string outside the
    enumeration included, makes [readFrom] throw the invalid-transition
    error, and so does a row whose status is [NULL].  The user is then half
    read: its id, name, github name and address are those of the row, its
    status and the fields after it are as before.  No status object has
    been made. *)
Theorem User_readFrom_status_gate {E : EmailClass} (u : User.User)
    (reader : Reader) (h : heap) (s : Spec.Status) :
  h !! User.status u = Some (UserStatusObject (Spec.Status_tag s)) ->
  email_readable reader ->
  (forall t,
      readString reader "status" = Some t ->
      t <> Spec.Status_tag s ->
      (forall m, t = Spec.Status_tag m -> Spec.status_allows s m = false) ->
      exists u',
        User.readFrom reader (u, h)
        = (Throw (Error ("Invalid transition from " ++ Spec.Status_tag s ++ " to " ++ t)),
           (u', h))
        /\ read_up_to_status reader u u')
  /\
  (readString reader "status" = None ->
   exists u',
     User.readFrom reader (u, h)
     = (Throw (Error ("Invalid transition from " ++ Spec.Status_tag s ++ " to null")),
        (u', h))
     /\ read_up_to_status reader u u').
Proof.
  intros H Hmail. split.
  - intros t Ht Hne Hno. apply (readFrom_refused reader u h _ Hmail).
    rewrite Ht. cbn [User.status_transitionTo].
    now apply UserStatus_transitionTo_invalid.
  - intros Ht. apply (readFrom_refused reader u h _ Hmail).
    rewrite Ht. cbn [User.status_transitionTo].
    unfold UserStatus.getStatusString.
    now rewrite (bind_ok _ _ _ _ _ (this_status_lookup _ _ _ H)).
Qed.

Lemma User_readFrom_status_gate_witness :
  exists u',
    User.readFrom Sample.admin_row (stale_user, [UserStatusObject "removed"])
    = (Throw (Error "Invalid transition from removed to confirmed"),
       (u', [UserStatusObject "removed"]))
    /\ User.name u' = Some "admin"
    /\ User.role u' = Some "USER"
    /\ User.password u' = Some "old".
Proof.
  destruct (proj1 (@User_readFrom_status_gate Sample.plain_email stale_user
                     Sample.admin_row [UserStatusObject "removed"] Spec.removed eq_refl
                     (or_intror (ex_intro _ "sys@admin.org"
                                   (ex_intro _ "sys@admin.org" (conj eq_refl eq_refl)))))
              "confirmed")
    as (u' & Hrun & _ & Hname & _ & _ & _ & Hrole & Hpw & _).
  - reflexivity.
  - discriminate.
  - intros [] Hm; try discriminate Hm; reflexivity.
  - exists u'. repeat split; assumption.
Defined.



(** ** Deleting projects, courses and terms *)

Lemma filter_negb_In {A} (p : A -> bool) (l : list A) (x : A) :
  In x (List.filter (fun r => negb (p r)) l) <-> In x l /\ p x = false.
Proof. rewrite filter_In, negb_true_iff. reflexivity. Qed.

Lemma getCourseProject_found (db : Database) (id : Z) :
  project_exists db id ->
  exists p, ObjectHandler.getCourseProject id db = (Ok (Some p), db)
            /\ CourseProject.id p = id.
Proof.
  intros (r & Hr & Hid). unfold ObjectHandler.getCourseProject.
  destruct (filter_some (fun r => projects.id r =? id) (projects db))
    as (y & rest & -> & _ & Hy); [exists r; split; [assumption | now apply Z.eqb_eq]|].
  eexists. split; [reflexivity|]. cbn. now apply Z.eqb_eq.
Qed.

Lemma getCourseProject_missing (db : Database) (id : Z) :
  ~ project_exists db id ->
  ObjectHandler.getCourseProject id db = (Ok None, db).
Proof.
  intros H. unfold ObjectHandler.getCourseProject. rewrite filter_none; [reflexivity|].
  intros r Hr. apply Z.eqb_neq. intros Hid. apply H. now exists r.
Qed.

Lemma deleteProject_run (db : Database) (id : Z) :
  exists b : bool,
    CourseManager.deleteProject id db
    = (Ok b,
       if b
       then set_user_projects
              (List.filter (fun r => negb (Sql.eq (user_projects.projectId r) id))
                 (user_projects db))
              (set_projects
                 (List.filter (fun r => negb (projects.id r =? id)) (projects db)) db)
       else db)
    /\ (b = true <-> project_exists db id).
Proof.
  unfold CourseManager.deleteProject, bind at 1, ObjectHandler.getCourseProject.
  destruct (List.filter _ (projects db)) as [|y rest] eqn:Hf.
  - exists false. split; [reflexivity|]. split; [discriminate|].
    intros (r & Hr & Hid).
    assert (Hin : In r (List.filter (fun r => projects.id r =? id) (projects db)))
      by (apply filter_In; split; [assumption | now apply Z.eqb_eq]).
    rewrite Hf in Hin. contradiction.
  - exists true. split; [reflexivity|]. split; [|reflexivity]. intros _.
    assert (Hin : In y (List.filter (fun r => projects.id r =? id) (projects db)))
      by (rewrite Hf; now left).
    apply filter_In in Hin as [Hy Hid]. exists y. split; [assumption | now apply Z.eqb_eq].
Qed.

(** X9: [deleteProject] never throws.  For an id that names no project it
    returns [false] and changes nothing; otherwise it returns [true], the
    rows of [projects] with that id and the rows of [user_projects] that
    refer to it are gone, every other row of the two tables stays, and the
    other tables, [happiness] included, are as they were. *)
Theorem deleteProject_effect (db : Database) (id : Z) :
  (~ project_exists db id -> CourseManager.deleteProject id db = (Ok false, db))
  /\
  (project_exists db id ->
   exists db',
     CourseManager.deleteProject id db = (Ok true, db')
     /\ (forall r, In r (projects db') <-> In r (projects db) /\ projects.id r <> id)
     /\ (forall r, In r (user_projects db')
                   <-> In r (user_projects db) /\ user_projects.projectId r <> Some id)
     /\ users db' = users db
     /\ terms db' = terms db
     /\ courses db' = courses db
     /\ happiness db' = happiness db
     /\ schedules db' = schedules db
     /\ submissions db' = submissions db).
Proof.
  destruct (deleteProject_run db id) as ([|] & Hrun & Hb); split.
  - intros H. exfalso. apply H, Hb. reflexivity.
  - intros _. eexists. split; [exact Hrun|].
    cbn [projects user_projects set_user_projects set_projects].
    split; [|split; [|repeat split]].
    + intros r. rewrite filter_negb_In, Z.eqb_neq. reflexivity.
    + intros r. rewrite filter_negb_In. split; intros [Hr Hp]; split; try assumption.
      * intros Hs. apply Sql_eq_true in Hs. congruence.
      * destruct (Sql.eq _ id) eqn:He; [|reflexivity]. now apply Sql_eq_true in He.
  - intros _. exact Hrun.
  - intros H. apply Hb in H. discriminate.
Qed.

Lemma deleteProject_effect_witness :
  CourseManager.deleteProject 5 Sample.db1 = (Ok false, Sample.db1)
  /\
  (exists db',
     CourseManager.deleteProject 1 Sample.db1 = (Ok true, db')
     /\ (forall r, In r (projects db') <-> In r (projects Sample.db1) /\ projects.id r <> 1)
     /\ (forall r, In r (user_projects db')
                   <-> In r (user_projects Sample.db1)
                       /\ user_projects.projectId r <> Some 1)
     /\ users db' = users Sample.db1
     /\ terms db' = terms Sample.db1
     /\ courses db' = courses Sample.db1
     /\ happiness db' = happiness Sample.db1
     /\ schedules db' = schedules Sample.db1
     /\ submissions db' = submissions Sample.db1).
Proof.
  split.
  - apply (proj1 (deleteProject_effect Sample.db1 5)).
    intros (r & Hr & Hid). cbn in Hr. destruct Hr as [<- | []]. discriminate Hid.
  - apply (proj2 (deleteProject_effect Sample.db1 1)).
    eexists. split; [left; reflexivity | reflexivity].
Defined.

Lemma deleteProject_step (db : Database) (i : Z) :
  exists b db1,
    CourseManager.deleteProject i db = (Ok b, db1)
    /\ courses db1 = courses db
    /\ (forall r, In r (projects db1) -> In r (projects db) /\ projects.id r <> i).
Proof.
  destruct (deleteProject_run db i) as ([|] & Hrun & Hb);
    eexists; eexists; (split; [exact Hrun|]); (split; [reflexivity|]); intros r Hr.
  - cbn [projects set_user_projects set_projects] in Hr.
    apply filter_negb_In in Hr as [Hr Hid]. now apply Z.eqb_neq in Hid.
  - split; [assumption|]. intros Hid.
    assert (Hex : project_exists db i) by (now exists r).
    apply Hb in Hex. discriminate.
Qed.

Lemma deleteProjects_run (ids : list Z) :
  forall db,
    exists db',
      deleteProjects ids db = (Ok tt, db')
      /\ courses db' = courses db
      /\ (forall r, In r (projects db') -> In r (projects db) /\ ~ In (projects.id r) ids).
Proof.
  induction ids as [|i rest IH]; intros db.
  - exists db. repeat split; auto.
  - cbn [deleteProjects].
    destruct (deleteProject_step db i) as (b & db1 & Hrun & Hc1 & Hp1).
    rewrite (bind_ok _ _ _ _ _ Hrun).
    destruct (IH db1) as (db' & Hrest & Hc & Hp).
    exists db'. split; [assumption|]. split; [congruence|].
    intros r Hr. apply Hp in Hr as [Hr Hnot]. apply Hp1 in Hr as [Hr Hid].
    split; [assumption|]. intros [Heq | Hin]; [congruence | contradiction].
Qed.

(** X10: the way past the guard of [deleteCourse].  Once [deleteProject]
    has been called on the id of each project of an existing course,
    [deleteCourse] returns [true] and the course is gone. *)
Theorem deleteCourse_after_its_projects (db : Database) (courseId : Z) :
  course_exists db courseId ->
  exists db1 db2,
    deleteProjects (project_ids_of_course db courseId) db = (Ok tt, db1)
    /\ CourseManager.deleteCourse courseId db1 = (Ok true, db2)
    /\ ~ course_exists db2 courseId.
Proof.
  intros Hex.
  destruct (deleteProjects_run (project_ids_of_course db courseId) db)
    as (db1 & Hrun & Hc & Hp).
  exists db1, (without_course courseId db1).
  split; [assumption|]. split; [|apply course_gone].
  apply deleteCourse_free.
  - unfold course_exists. now rewrite Hc.
  - intros (p & Hin & Hcourse). apply Hp in Hin as [Hin Hnot]. apply Hnot.
    unfold project_ids_of_course. apply in_map, filter_In.
    split; [assumption | now apply Sql_eq_true].
Qed.

Lemma deleteCourse_after_its_projects_witness :
  exists db1 db2,
    deleteProjects (project_ids_of_course Sample.db1 1) Sample.db1 = (Ok tt, db1)
    /\ CourseManager.deleteCourse 1 db1 = (Ok true, db2)
    /\ ~ course_exists db2 1.
Proof.
  apply (deleteCourse_after_its_projects Sample.db1 1).
  eexists. split; [left; reflexivity | reflexivity].
Defined.

Lemma classic_course_exists (db : Database) (id : Z) :
  course_exists db id \/ ~ course_exists db id.
Proof.
  destruct (existsb (fun r => courses.id r =? id) (courses db)) eqn:He.
  - left. apply existsb_exists in He as (r & Hr & Hid).
    exists r. split; [assumption | now apply Z.eqb_eq].
  - right. intros (r & Hr & Hid).
    assert (Ht : existsb (fun r => courses.id r =? id) (courses db) = true)
      by (apply existsb_exists; exists r; split; [assumption | now apply Z.eqb_eq]).
    congruence.
Qed.

Lemma classic_course_has_project (db : Database) (id : Z) :
  course_has_project db id \/ ~ course_has_project db id.
Proof.
  destruct (existsb (fun r => Sql.eq (projects.courseId r) id) (projects db)) eqn:He.
  - left. apply existsb_exists in He as (r & Hr & Hid).
    exists r. split; [assumption | now apply Sql_eq_true].
  - right. intros (r & Hr & Hid).
    assert (Ht : existsb (fun r => Sql.eq (projects.courseId r) id) (projects db) = true)
      by (apply existsb_exists; exists r; split; [assumption | now apply Sql_eq_true]).
    congruence.
Qed.

Lemma deleteCourse_step (db : Database) (i : Z) :
  ~ course_has_project db i ->
  exists b db1,
    CourseManager.deleteCourse i db = (Ok b, db1)
    /\ terms db1 = terms db
    /\ projects db1 = projects db
    /\ (forall r, In r (courses db1) -> In r (courses db) /\ courses.id r <> i).
Proof.
  intros Hfree.
  destruct (classic_course_exists db i) as [Hex | Hno].
  - exists true, (without_course i db).
    split; [now apply deleteCourse_free|]. split; [reflexivity|]. split; [reflexivity|].
    intros r Hr. now apply (proj1 (without_course_rows db i)) in Hr.
  - exists false, db. split; [now apply deleteCourse_missing|].
    split; [reflexivity|]. split; [reflexivity|].
    intros r Hr. split; [assumption|]. intros Hid. apply Hno. now exists r.
Qed.

Lemma deleteCourses_run (ids : list Z) :
  forall db,
    (forall i, In i ids -> ~ course_has_project db i) ->
    exists db',
      deleteCourses ids db = (Ok tt, db')
      /\ terms db' = terms db
      /\ (forall r, In r (courses db') -> In r (courses db) /\ ~ In (courses.id r) ids).
Proof.
  induction ids as [|i rest IH]; intros db Hfree.
  - exists db. repeat split; auto.
  - cbn [deleteCourses].
    destruct (deleteCourse_step db i (Hfree i (or_introl eq_refl)))
      as (b & db1 & Hrun & Ht1 & Hp1 & Hc1).
    rewrite (bind_ok _ _ _ _ _ Hrun).
    destruct (IH db1) as (db' & Hrest & Ht & Hc).
    + intros j Hj. unfold course_has_project. rewrite Hp1.
      apply Hfree. now right.
    + exists db'. split; [assumption|]. split; [congruence|].
      intros r Hr. apply Hc in Hr as [Hr Hnot]. apply Hc1 in Hr as [Hr Hid].
      split; [assumption|]. intros [Heq | Hin]; [congruence | contradiction].
Qed.

(** X11: the way past the guard of [deleteTerm].  When no course of an
    existing term has a project, calling [deleteCourse] on the id of each
    of its courses throws nowhere, and [deleteTerm] then returns [true] and
    the term is gone. *)
Theorem deleteTerm_after_its_courses (db : Database) (termId : Z) :
  term_exists db termId ->
  (forall i, In i (course_ids_of_term db termId) -> ~ course_has_project db i) ->
  exists db1 db2,
    deleteCourses (course_ids_of_term db termId) db = (Ok tt, db1)
    /\ TermManager.deleteTerm termId db1 = (Ok true, db2)
    /\ ~ term_exists db2 termId.
Proof.
  intros Hex Hfree.
  destruct (deleteCourses_run (course_ids_of_term db termId) db Hfree)
    as (db1 & Hrun & Ht & Hc).
  eexists db1, _. split; [assumption|]. split; [|apply term_gone].
  apply deleteTerm_free.
  - unfold term_exists. now rewrite Ht.
  - intros (c & Hin & Hterm). apply Hc in Hin as [Hin Hnot]. apply Hnot.
    unfold course_ids_of_term. apply in_map, filter_In.
    split; [assumption | now apply Z.eqb_eq].
Qed.

Lemma deleteTerm_after_its_courses_witness :
  exists db1 db2,
    deleteCourses (course_ids_of_term (snd (CourseManager.deleteProject 1 Sample.db1)) 1)
      (snd (CourseManager.deleteProject 1 Sample.db1)) = (Ok tt, db1)
    /\ TermManager.deleteTerm 1 db1 = (Ok true, db2)
    /\ ~ term_exists db2 1.
Proof.
  apply (deleteTerm_after_its_courses (snd (CourseManager.deleteProject 1 Sample.db1)) 1).
  - eexists. split; [left; reflexivity | reflexivity].
  - intros i _ (p & Hp & _). exact Hp.
Defined.

(** X12: once [deleteCourse] has returned [true], [getSchedule] for that
    course answers [null]: the schedule went with the course. *)
Theorem getSchedule_after_deleteCourse (db db' : Database) (courseId : Z) :
  CourseManager.deleteCourse courseId db = (Ok true, db') ->
  CourseManager.getSchedule courseId db' = (Ok None, db').
Proof.
  intros Hrun.
  assert (Hs : forall r, In r (schedules db') -> schedules.id r <> courseId).
  { destruct (classic_course_exists db courseId) as [Hex | Hno].
    - destruct (classic_course_has_project db courseId) as [Hp | Hfree].
      + rewrite (deleteCourse_guarded db courseId Hex Hp) in Hrun. discriminate.
      + rewrite (deleteCourse_free db courseId Hex Hfree) in Hrun.
        injection Hrun as <-. intros r Hr.
        now apply (proj1 (proj2 (without_course_rows db courseId))) in Hr.
    - rewrite (deleteCourse_missing db courseId Hno) in Hrun. discriminate. }
  unfold CourseManager.getSchedule, ObjectHandler.getCourseSchedule.
  rewrite filter_none; [reflexivity|].
  intros r Hr. apply Z.eqb_neq. now apply Hs.
Qed.

Lemma getSchedule_after_deleteCourse_witness :
  CourseManager.getSchedule 2 (snd (CourseManager.deleteCourse 2 Sample.db1))
  = (Ok None, snd (CourseManager.deleteCourse 2 Sample.db1)).
Proof.
  apply (getSchedule_after_deleteCourse Sample.db1). reflexivity.
Defined.

(** ** Reading courses and terms *)

Lemma load_projects_all (course : Course.Course) (ids : list Z) (db : Database) :
  (forall i, In i ids -> project_exists db i) ->
  exists ps,
    CourseManager.load_projects course ids db = (Ok ps, db)
    /\ map CourseProject.id ps = ids
    /\ Forall (fun p => CourseProject.course p = Some (Course.id course)) ps.
Proof.
  induction ids as [|i rest IH]; intros Hall.
  - exists []. repeat split. constructor.
  - destruct IH as (ps & Hrest & Hids & Hcourse); [intros j Hj; apply Hall; now right|].
    destruct (getCourseProject_found db i (Hall i (or_introl eq_refl))) as (p & Hp & Hid).
    exists (CourseProject.setCourse p (Course.id course) :: ps).
    cbn [CourseManager.load_projects].
    rewrite (bind_ok _ _ _ _ _ Hp), (bind_ok _ _ _ _ _ Hrest).
    split; [reflexivity|]. split; [cbn; now rewrite Hid, Hids|].
    constructor; [reflexivity | assumption].
Qed.

Lemma addProject_all (ps : list CourseProject.CourseProject) :
  forall c,
    Course.id (fold_left Course.addProject ps c) = Course.id c
    /\ Course.projects (fold_left Course.addProject ps c)
       = (Course.projects c ++ ps)%list.
Proof.
  induction ps as [|p ps IH]; intros c; cbn [fold_left].
  - now rewrite app_nil_r.
  - destruct (IH (Course.addProject c p)) as [-> ->]. cbn.
    now rewrite <- app_assoc.
Qed.

(** X13: [readCourse] changes nothing in the database.  For an id that
    names no course it throws [IllegalArgumentException]; otherwise it
    returns a course with that id whose projects are, one for one and in
    the order of the table, the rows of [projects] that refer to the
    course, each with its course set to it. *)
Theorem readCourse_projects (db : Database) (id : Z) :
  (~ course_exists db id ->
   CourseManager.readCourse id db
   = (Throw (IllegalArgumentException "CourseID not found."), db))
  /\
  (course_exists db id ->
   exists c,
     CourseManager.readCourse id db = (Ok c, db)
     /\ Course.id c = id
     /\ map CourseProject.id (Course.projects c) = project_ids_of_course db id
     /\ Forall (fun p => CourseProject.course p = Some id) (Course.projects c)).
Proof.
  split.
  - intros Hno. unfold CourseManager.readCourse, bind at 1, ObjectHandler.getCourse.
    rewrite filter_none; [reflexivity|].
    intros r Hr. apply Z.eqb_neq. intros Hid. apply Hno. now exists r.
  - intros (r & Hr & Hid).
    unfold CourseManager.readCourse, bind at 1, ObjectHandler.getCourse.
    destruct (filter_some (fun r => courses.id r =? id) (courses db))
      as (y & rest & -> & _ & Hy); [exists r; split; [assumption | now apply Z.eqb_eq]|].
    apply Z.eqb_eq in Hy. cbn [head hd_error option_map].
    set (c0 := {| Course.id := courses.id y; Course.name := courses.courseName y;
                  Course.projects := [] |}).
    destruct (load_projects_all c0 (project_ids_of_course db id) db)
      as (ps & Hload & Hids & Hcourse).
    { intros i (p & <- & Hp)%in_map_iff. apply filter_In in Hp as [Hp _]. now exists p. }
    assert (Hget : CourseManager.getProjectsForCourse c0 db = (Ok ps, db)).
    { unfold CourseManager.getProjectsForCourse, bind at 1, Stmt.all_project_ids_of_course.
      cbn [Course.id c0]. rewrite Hy. exact Hload. }
    rewrite (bind_ok _ _ _ _ _ Hget).
    destruct (addProject_all ps c0) as [Hcid Hcps].
    eexists. split; [reflexivity|]. rewrite Hcid, Hcps. cbn [Course.id Course.projects c0 app].
    split; [assumption|]. split; [assumption|]. now rewrite <- Hy.
Qed.

Lemma readCourse_projects_witness :
  CourseManager.readCourse 7 Sample.db1
  = (Throw (IllegalArgumentException "CourseID not found."), Sample.db1)
  /\
  (exists c,
     CourseManager.readCourse 1 Sample.db1 = (Ok c, Sample.db1)
     /\ Course.id c = 1
     /\ map CourseProject.id (Course.projects c) = project_ids_of_course Sample.db1 1
     /\ Forall (fun p => CourseProject.course p = Some 1) (Course.projects c)).
Proof.
  split.
  - apply (proj1 (readCourse_projects Sample.db1 7)).
    intros (r & Hr & Hid). cbn in Hr.
    destruct Hr as [<- | [<- | []]]; discriminate Hid.
  - apply (proj2 (readCourse_projects Sample.db1 1)).
    eexists. split; [left; reflexivity | reflexivity].
Defined.

Lemma first_with_id_unique {A} (key : A -> Z) (l : list A) (x : A) :
  List.NoDup (map key l) -> In x l ->
  head (List.filter (fun r => key r =? key x) l) = Some x.
Proof.
  induction l as [|y l IH]; cbn; [contradiction|].
  intros [Hfresh Hnd]%NoDup_cons_iff [-> | Hin].
  - now rewrite Z.eqb_refl.
  - destruct (key y =? key x) eqn:He; [|now apply IH].
    apply Z.eqb_eq in He. exfalso. apply Hfresh. rewrite He. now apply in_map.
Qed.

Lemma load_courses_all (db : Database) (rows : list courses.row) :
  (forall r, In r rows -> In r (courses db)) ->
  exists cs,
    CourseManager.load_courses rows db = (Ok cs, db)
    /\ map Course.id cs = map courses.id rows
    /\ (List.NoDup (map courses.id (courses db)) ->
        map Course.name cs = map courses.courseName rows).
Proof.
  induction rows as [|r rest IH]; intros Hsub.
  - exists []. repeat split.
  - destruct IH as (cs & Hrest & Hids & Hnames); [intros x Hx; apply Hsub; now right|].
    cbn [CourseManager.load_courses].
    unfold bind at 1, ObjectHandler.getCourse at 1.
    destruct (filter_some (fun x => courses.id x =? courses.id r) (courses db))
      as (y & more & Hf & _ & Hy);
      [exists r; split; [apply Hsub; now left | apply Z.eqb_refl]|].
    rewrite Hf. cbn [head hd_error option_map].
    rewrite (bind_ok _ _ _ _ _ Hrest).
    eexists. split; [reflexivity|]. apply Z.eqb_eq in Hy. cbn [map Course.id Course.name].
    split; [now rewrite Hy, Hids|].
    intros Hnd. rewrite (Hnames Hnd). f_equal.
    pose proof (first_with_id_unique courses.id (courses db) r Hnd
                  (Hsub r (or_introl eq_refl))) as Hfirst.
    rewrite Hf in Hfirst. now injection Hfirst as ->.
Qed.

Lemma load_terms_all (db : Database) (rows : list terms.row) :
  (forall r, In r rows -> In r (terms db)) ->
  exists ts,
    TermManager2.load_terms rows db = (Ok ts, db)
    /\ map Term.id ts = map terms.id rows
    /\ (List.NoDup (map terms.id (terms db)) ->
        map Term.termName ts = map terms.termName rows).
Proof.
  induction rows as [|r rest IH]; intros Hsub.
  - exists []. repeat split.
  - destruct IH as (ts & Hrest & Hids & Hnames); [intros x Hx; apply Hsub; now right|].
    cbn [TermManager2.load_terms].
    unfold bind at 1, ObjectHandler.getTerm at 1.
    destruct (filter_some (fun x => terms.id x =? terms.id r) (terms db))
      as (y & more & Hf & _ & Hy);
      [exists r; split; [apply Hsub; now left | apply Z.eqb_refl]|].
    rewrite Hf. cbn [head hd_error option_map].
    rewrite (bind_ok _ _ _ _ _ Hrest).
    eexists. split; [reflexivity|]. apply Z.eqb_eq in Hy. cbn [map Term.id Term.termName].
    split; [now rewrite Hy, Hids|].
    intros Hnd. rewrite (Hnames Hnd). f_equal.
    pose proof (first_with_id_unique terms.id (terms db) r Hnd
                  (Hsub r (or_introl eq_refl))) as Hfirst.
    rewrite Hf in Hfirst. now injection Hfirst as ->.
Qed.

(** X14: [getAllCourse] and [getAllTerms] change nothing, never throw and
    skip no row: the result has one entity per row, in the order of the
    table, with the id of that row, and, the ids being a primary key, with
    its name. *)
Theorem getAll_lists_every_row (db : Database) :
  (exists cs,
     CourseManager.getAllCourse db = (Ok cs, db)
     /\ map Course.id cs = map courses.id (courses db)
     /\ (List.NoDup (map courses.id (courses db)) ->
         map Course.name cs = map courses.courseName (courses db)))
  /\
  (exists ts,
     TermManager2.getAllTerms db = (Ok ts, db)
     /\ map Term.id ts = map terms.id (terms db)
     /\ (List.NoDup (map terms.id (terms db)) ->
         map Term.termName ts = map terms.termName (terms db))).
Proof.
  split.
  - destruct (load_courses_all db (courses db)) as (cs & Hrun & H); [auto|].
    exists cs. split; [exact Hrun | exact H].
  - destruct (load_terms_all db (terms db)) as (ts & Hrun & H); [auto|].
    exists ts. split; [exact Hrun | exact H].
Qed.

Lemma getAll_lists_every_row_witness :
  exists cs,
    CourseManager.getAllCourse Sample.db1 = (Ok cs, Sample.db1)
    /\ map Course.id cs = [1; 2]
    /\ map Course.name cs = [Some "ADAP"; Some "AMOS"].
Proof.
  destruct (proj1 (getAll_lists_every_row Sample.db1)) as (cs & Hrun & Hids & Hnames).
  exists cs. split; [assumption|]. split; [assumption|].
  apply Hnames. cbn. constructor; [intros [H | []]; discriminate H|].
  constructor; [intros []|]. constructor.
Defined.

(** ** Creating a course *)

Lemma named_true (courseName : string) (r : courses.row) :
  named courseName r = true <-> courses.courseName r = Some courseName.
Proof.
  unfold named. destruct (courses.courseName r) as [n|]; [|split; discriminate].
  rewrite String.eqb_eq. split; congruence.
Qed.

Lemma getTerm_found (db : Database) (id : Z) :
  term_exists db id -> exists t, ObjectHandler.getTerm id db = (Ok (Some t), db).
Proof.
  intros (r & Hr & Hid). unfold ObjectHandler.getTerm.
  destruct (filter_some (fun r => terms.id r =? id) (terms db))
    as (y & rest & -> & _); [exists r; split; [assumption | now apply Z.eqb_eq]|].
  eexists. reflexivity.
Qed.

Lemma getCourse_first (db : Database) (id : Z) (y : courses.row)
    (rest : list courses.row) :
  List.filter (fun r => courses.id r =? id) (courses db) = y :: rest ->
  ObjectHandler.getCourse id db
  = (Ok (Some {| Course.id := courses.id y; Course.name := courses.courseName y;
                 Course.projects := [] |}), db).
Proof. intros H. unfold ObjectHandler.getCourse. now rewrite H. Qed.

(** X15: the two ways [createCourse] ends without inserting.  When the
    term does not exist it throws [IllegalArgumentException] and changes
    nothing.  When the term exists and a course of that name is stored, it
    returns that course and changes nothing, whatever term the stored
    course belongs to; the ids being a primary key, the course returned
    has the name asked for. *)
Theorem createCourse_without_insert (db : Database) (rowid : Z)
    (courseName : string) (termId : Z) :
  (~ term_exists db termId ->
   CourseManager.createCourse rowid courseName termId db
   = (Throw (IllegalArgumentException "Term not found"), db))
  /\
  (term_exists db termId -> course_named db courseName ->
   exists c r,
     CourseManager.createCourse rowid courseName termId db = (Ok c, db)
     /\ In r (courses db)
     /\ courses.courseName r = Some courseName
     /\ Course.id c = courses.id r
     /\ (List.NoDup (map courses.id (courses db)) -> Course.name c = Some courseName)).
Proof.
  split.
  - intros Hno. unfold CourseManager.createCourse, bind at 1, ObjectHandler.getTerm.
    rewrite filter_none; [reflexivity|].
    intros r Hr. apply Z.eqb_neq. intros Hid. apply Hno. now exists r.
  - intros Hterm (r & Hr & Hname).
    destruct (getTerm_found db termId Hterm) as [t Ht].
    unfold CourseManager.createCourse. rewrite (bind_ok _ _ _ _ _ Ht).
    unfold bind at 1, Stmt.get_course_by_name. fold (named courseName).
    destruct (filter_some (named courseName) (courses db))
      as (y & rest & -> & Hy & Hyn); [exists r; split; [assumption | now apply named_true]|].
    apply named_true in Hyn. cbn [head hd_error].
    destruct (filter_some (fun r => courses.id r =? courses.id y) (courses db))
      as (z & more & Hf & Hz & Hzid); [exists y; split; [assumption | apply Z.eqb_refl]|].
    rewrite (bind_ok _ _ _ _ _ (getCourse_first db _ z more Hf)).
    apply Z.eqb_eq in Hzid.
    eexists. exists y. split; [reflexivity|]. cbn [Course.id Course.name].
    split; [assumption|]. split; [assumption|]. split; [assumption|].
    intros Hnd.
    pose proof (first_with_id_unique courses.id (courses db) y Hnd Hy) as Hfirst.
    rewrite Hf in Hfirst. injection Hfirst as ->. assumption.
Qed.

Lemma createCourse_without_insert_witness :
  CourseManager.createCourse 3 "ADAP" 9 Sample.db1
  = (Throw (IllegalArgumentException "Term not found"), Sample.db1)
  /\
  (exists c r,
     CourseManager.createCourse 3 "ADAP" 2 Sample.db1 = (Ok c, Sample.db1)
     /\ In r (courses Sample.db1)
     /\ courses.courseName r = Some "ADAP"
     /\ Course.id c = courses.id r
     /\ (List.NoDup (map courses.id (courses Sample.db1)) -> Course.name c = Some "ADAP")).
Proof.
  split.
  - apply (proj1 (createCourse_without_insert Sample.db1 3 "ADAP" 9)).
    intros (r & Hr & Hid). cbn in Hr.
    destruct Hr as [<- | [<- | []]]; discriminate Hid.
  - apply (proj2 (createCourse_without_insert Sample.db1 3 "ADAP" 2)).
    + eexists. split; [right; left; reflexivity | reflexivity].
    + eexists. split; [left; reflexivity | reflexivity].
Defined.

(** X16: [createCourse] gets or creates.  For a term that exists, a name no
    stored course has and a rowid that is not 0 and not in use, it inserts
    one row with that rowid, name and term and returns the course; called
    again with the same name, whatever the rowid and for any term that
    exists, it returns the same course and leaves the database as the
    first call left it. *)
Theorem createCourse_get_or_create (db : Database) (rowid : Z)
    (courseName : string) (termId : Z) :
  term_exists db termId ->
  ~ course_named db courseName ->
  rowid <> 0 ->
  ~ course_exists db rowid ->
  exists c db1,
    CourseManager.createCourse rowid courseName termId db = (Ok c, db1)
    /\ Course.id c = rowid
    /\ Course.name c = Some courseName
    /\ db1 = set_courses
               (courses db ++
                  [ {| courses.id := rowid; courses.courseName := Some courseName;
                       courses.termId := termId |} ])%list db
    /\ (forall rowid' termId',
           term_exists db termId' ->
           CourseManager.createCourse rowid' courseName termId' db1 = (Ok c, db1)).
Proof.
  intros Hterm Hnew Hnz Hfresh.
  set (row := {| courses.id := rowid; courses.courseName := Some courseName;
                 courses.termId := termId |}).
  set (db1 := set_courses (courses db ++ [row])%list db).
  assert (Hnone : forall r, In r (courses db) -> named courseName r = false).
  { intros r Hr. destruct (named courseName r) eqn:Hn; [|reflexivity].
    exfalso. apply Hnew. exists r. split; [assumption | now apply named_true]. }
  assert (Hids : forall r, In r (courses db) -> (courses.id r =? rowid) = false).
  { intros r Hr. apply Z.eqb_neq. intros Hid. apply Hfresh. now exists r. }
  assert (Hget : ObjectHandler.getCourse rowid db1
                 = (Ok (Some {| Course.id := rowid; Course.name := Some courseName;
                                Course.projects := [] |}), db1)).
  { apply (getCourse_first db1 rowid row []).
    cbn [courses db1 set_courses]. rewrite List.filter_app, (filter_none _ _ Hids).
    cbn. now rewrite Z.eqb_refl. }
  eexists. exists db1. split; [|split; [|split; [|split; [reflexivity|]]]].
  - destruct (getTerm_found db termId Hterm) as [t Ht].
    unfold CourseManager.createCourse. rewrite (bind_ok _ _ _ _ _ Ht).
    unfold bind at 1, Stmt.get_course_by_name. fold (named courseName).
    rewrite (filter_none _ _ Hnone). cbn [head hd_error].
    unfold bind at 1, Stmt.insert_course. fold (named courseName).
    replace (existsb (named courseName) (courses db)) with false.
    + fold row. fold db1. apply Z.eqb_neq in Hnz. rewrite Hnz.
      rewrite (bind_ok _ _ _ _ _ Hget). reflexivity.
    + symmetry. destruct (existsb _ _) eqn:He; [|reflexivity].
      apply existsb_exists in He as (r & Hr & Hn). rewrite (Hnone r Hr) in Hn. discriminate.
  - reflexivity.
  - reflexivity.
  - intros rowid' termId' Hterm'.
    destruct (getTerm_found db1 termId' Hterm') as [t Ht].
    unfold CourseManager.createCourse. rewrite (bind_ok _ _ _ _ _ Ht).
    unfold bind at 1, Stmt.get_course_by_name. fold (named courseName).
    cbn [courses db1 set_courses]. rewrite List.filter_app, (filter_none _ _ Hnone).
    cbn [app List.filter]. unfold named at 1. cbn [courses.courseName row].
    rewrite String.eqb_refl. cbn [head hd_error courses.id row].
    fold db1. rewrite (bind_ok _ _ _ _ _ Hget). reflexivity.
Qed.

Lemma createCourse_get_or_create_witness :
  exists c db1,
    CourseManager.createCourse 3 "OSS" 2 Sample.db1 = (Ok c, db1)
    /\ Course.id c = 3
    /\ Course.name c = Some "OSS"
    /\ CourseManager.createCourse 4 "OSS" 1 db1 = (Ok c, db1).
Proof.
  destruct (createCourse_get_or_create Sample.db1 3 "OSS" 2)
    as (c & db1 & Hrun & Hid & Hname & _ & Hagain).
  - eexists. split; [right; left; reflexivity | reflexivity].
  - intros (r & Hr & Hn). cbn in Hr.
    destruct Hr as [<- | [<- | []]]; discriminate Hn.
  - discriminate.
  - intros (r & Hr & Hn). cbn in Hr.
    destruct Hr as [<- | [<- | []]]; discriminate Hn.
  - exists c, db1. repeat split; try assumption.
    apply (Hagain 4 1). eexists. split; [left; reflexivity | reflexivity].
Defined.

(** ** Saving a schedule *)

Lemma fold_max_ge (l : list Z) : forall i x, x = i \/ In x l -> x <= fold_left Z.max l i.
Proof.
  induction l as [|y l IH]; intros i x [-> | Hin]; cbn [fold_left].
  - lia.
  - contradiction.
  - specialize (IH (Z.max i y) (Z.max i y) (or_introl eq_refl)). lia.
  - destruct Hin as [-> | Hin].
    + specialize (IH (Z.max i x) (Z.max i x) (or_introl eq_refl)). lia.
    + apply IH. now right.
Qed.

Lemma next_rowid_fresh (ids : list Z) (x : Z) : In x ids -> x < Sql.next_rowid ids.
Proof.
  destruct ids as [|i rest]; [contradiction|]. intros Hin. cbn [Sql.next_rowid].
  assert (x <= fold_left Z.max rest i) by (apply fold_max_ge; destruct Hin; auto).
  lia.
Qed.

(** What the loop that creates the submission dates leaves: one object per
    date, in order, each with an id above every id in use, and for each an
    empty row at the end of [submissions]. *)
Lemma create_submission_dates_rows (dates : list Z) :
  forall db,
    exists objects,
      CourseManager.create_submission_dates dates db
      = (Ok objects,
         set_submissions (submissions db ++ map reserved_row objects)%list db)
      /\ map SubmissionDate.submissionDate objects = map Some dates
      /\ List.NoDup (map SubmissionDate.id objects)
      /\ (forall o r, In o objects -> In r (submissions db) ->
                      submissions.id r < SubmissionDate.id o).
Proof.
  induction dates as [|d rest IH]; intros db.
  - exists []. cbn. rewrite app_nil_r. destruct db. repeat split; [constructor | contradiction].
  - cbn [CourseManager.create_submission_dates].
    unfold bind at 1, DatabaseSerializableFactory.create_SubmissionDate at 1.
    set (k := Sql.next_rowid (map submissions.id (submissions db))).
    set (o := {| SubmissionDate.id := k; SubmissionDate.submissionDate := None |}).
    change {| submissions.id := k; submissions.scheduleId := None;
              submissions.submissionDate := None |} with (reserved_row o).
    destruct (IH (set_submissions (submissions db ++ [reserved_row o])%list db))
      as (objects & Hrun & Hdates & Hnd & Hfresh).
    rewrite (bind_ok _ _ _ _ _ Hrun).
    exists (SubmissionDate.setSubmissionDate o d :: objects).
    cbn [submissions set_submissions] in Hfresh |- *.
    split; [|split; [|split]].
    + cbn [map]. unfold ret. f_equal. rewrite <- app_assoc. reflexivity.
    + cbn. now rewrite Hdates.
    + cbn [map SubmissionDate.id SubmissionDate.setSubmissionDate o].
      constructor; [|assumption].
      intros (o' & Hid & Ho')%in_map_iff.
      assert (Hlast : In (reserved_row o) (submissions db ++ [reserved_row o]))
        by (apply in_or_app; right; now left).
      specialize (Hfresh o' (reserved_row o) Ho' Hlast).
      cbn in Hfresh. lia.
    + intros o' r [<- | Ho'] Hr.
      * cbn. apply next_rowid_fresh. now apply in_map.
      * apply (Hfresh o' r Ho'). apply in_or_app. now left.
Qed.

(** The schedule [saveSchedule] works on: the stored one or a new one with
    the id of the course; only [schedules] can have changed. *)
Lemma saveSchedule_schedule (db : Database) (courseId : Z) :
  exists schedule rows,
    (let* existing := ObjectHandler.getCourseSchedule courseId in
     match existing with
     | Some s => ret s
     | None =>
         let* created := DatabaseSerializableFactory.create_CourseSchedule in
         match created with
         | None => throw (MethodFailedException "Schedule creation failed")
         | Some s => ret (CourseSchedule.setId s courseId)
         end
     end) db = (Ok schedule, set_schedules rows db)
    /\ CourseSchedule.id schedule = courseId.
Proof.
  unfold bind at 1.
  destruct (ObjectHandler.getCourseSchedule courseId db) as [[[s|]|e] db0] eqn:Hget.
  - pose proof (getCourseSchedule_id _ _ _ _ Hget) as Hid.
    unfold ObjectHandler.getCourseSchedule in Hget. injection Hget as _ <-.
    exists s, (schedules db). split; [|assumption]. destruct db. reflexivity.
  - unfold ObjectHandler.getCourseSchedule in Hget. injection Hget as _ <-.
    eexists. eexists. split; reflexivity.
  - discriminate Hget.
Qed.

(** [saveSchedule] up to the call of the writer. *)
Lemma saveSchedule_unfold (db : Database) (courseId startDate endDate : Z)
    (submissionDates : list Z) :
  course_exists db courseId ->
  exists schedule rows objects,
    let root :=
      CourseSchedule.setSubmissionDates
        (CourseSchedule.setEndDate
           (CourseSchedule.setStartDate schedule startDate) endDate) objects in
    let db3 :=
      set_submissions
        (rows_of_others courseId (submissions db) ++ map reserved_row objects)%list
        (set_schedules rows db) in
    CourseManager.saveSchedule courseId startDate endDate submissionDates db
    = (let* _ := DatabaseWriter.writeRoot root in ret root) db3
    /\ CourseSchedule.id schedule = courseId
    /\ map SubmissionDate.submissionDate objects = map Some submissionDates
    /\ List.NoDup (map SubmissionDate.id objects)
    /\ (forall o r, In o objects -> In r (rows_of_others courseId (submissions db)) ->
                    submissions.id r < SubmissionDate.id o).
Proof.
  intros Hex.
  destruct (readCourse_ok db courseId Hex) as [c Hc].
  destruct (saveSchedule_schedule db courseId) as (schedule & rows & Hsched & Hid).
  destruct (create_submission_dates_rows submissionDates
              (set_submissions (rows_of_others courseId (submissions db))
                 (set_schedules rows db)))
    as (objects & Hobj & Hdates & Hnd & Hfresh).
  exists schedule, rows, objects. cbv zeta.
  split; [|repeat split; assumption].
  unfold CourseManager.saveSchedule. rewrite (bind_ok _ _ _ _ _ Hc).
  unfold bind at 1 in Hsched.
  unfold bind at 1.
  destruct (ObjectHandler.getCourseSchedule courseId db) as [[existing|e] db0];
    [|discriminate Hsched].
  rewrite (bind_ok _ _ _ _ _ Hsched). cbv zeta.
  unfold bind at 1, Stmt.delete_submissions_of at 1.
  cbn [submissions set_schedules].
  fold (rows_of_others courseId (submissions db)).
  rewrite (bind_ok _ _ _ _ _ Hobj). reflexivity.
Qed.

Lemma writeRoot_rejects_out_of_window (db : Database)
    (root : CourseSchedule.CourseSchedule) (a b : Z) :
  CourseSchedule.startDate root = Some a ->
  CourseSchedule.endDate root = Some b ->
  Exists (out_of_window a b) (CourseSchedule.submissionDates root) ->
  exists msg,
    DatabaseWriter.writeRoot root db = (Throw (ConstraintViolation msg), db).
Proof.
  intros Ha Hb Hout.
  destruct (write_graph_unfold root db) as (rows & Hhead & Hgraph).
  pose proof (window_after_schedule_row root db rows
    (List.filter
       (fun r => negb (Sql.eq (submissions.scheduleId r) (CourseSchedule.id root)))
       (submissions db)) a b Ha Hb Hhead) as Hw.
  destruct (rows_out_of_window _ a b _ _ Hw Hout) as (msg & db' & Hrun).
  exists msg. apply writeRoot_throw with db'. now rewrite Hgraph.
Qed.

Lemma rows_of_others_none (scheduleId : Z) (rows : list submissions.row)
    (r : submissions.row) :
  In r (rows_of_others scheduleId rows) -> submissions.scheduleId r <> Some scheduleId.
Proof. apply former_children_gone. Qed.

(** X17: a [saveSchedule] that fails is not undone.  For a course that
    exists and dates one of which lies outside the window given with them,
    [saveSchedule] throws a constraint violation, and afterwards no row of
    [submissions] refers to the schedule of the course: the dates that were
    stored for it before the call are lost.  The tables of terms, courses
    and projects are as they were. *)
Theorem saveSchedule_failure_loses_dates (db : Database)
    (courseId startDate endDate : Z) (submissionDates : list Z) :
  course_exists db courseId ->
  Exists (fun d => d < startDate \/ endDate < d) submissionDates ->
  exists msg db',
    CourseManager.saveSchedule courseId startDate endDate submissionDates db
    = (Throw (ConstraintViolation msg), db')
    /\ (forall r, In r (submissions db') ->
                  submissions.scheduleId r <> Some courseId)
    /\ terms db' = terms db
    /\ courses db' = courses db
    /\ projects db' = projects db.
Proof.
  intros Hex Hout.
  destruct (saveSchedule_unfold db courseId startDate endDate submissionDates Hex)
    as (schedule & rows & objects & Hrun & Hid & Hdates & _).
  cbv zeta in Hrun.
  match type of Hrun with _ = (let* _ := DatabaseWriter.writeRoot ?root in _) ?d =>
    destruct (writeRoot_rejects_out_of_window d root startDate endDate eq_refl eq_refl)
      as [msg Hw]
  end.
  - cbn [CourseSchedule.submissionDates CourseSchedule.setSubmissionDates].
    apply List.Exists_exists in Hout as (d & Hd & Hlt).
    apply List.Exists_exists.
    assert (Hin : In (Some d) (map SubmissionDate.submissionDate objects))
      by (rewrite Hdates; now apply in_map).
    apply in_map_iff in Hin as (o & Ho & Hoin).
    exists o. split; [assumption|]. now exists d.
  - rewrite (bind_throw _ _ _ _ _ Hw) in Hrun.
    eexists. eexists. split; [exact Hrun|].
    cbn [submissions terms courses projects set_submissions set_schedules].
    split; [|repeat split].
    intros r [Hr | Hr]%in_app_or.
    + now apply rows_of_others_none in Hr.
    + apply in_map_iff in Hr as (o & <- & _). discriminate.
Qed.

Lemma saveSchedule_failure_loses_dates_witness :
  exists msg db',
    CourseManager.saveSchedule 2 100 200 [120; 250] Sample.db1
    = (Throw (ConstraintViolation msg), db')
    /\ (forall r, In r (submissions db') -> submissions.scheduleId r <> Some 2)
    /\ terms db' = terms Sample.db1
    /\ courses db' = courses Sample.db1
    /\ projects db' = projects Sample.db1.
Proof.
  apply (saveSchedule_failure_loses_dates Sample.db1 2 100 200 [120; 250]).
  - eexists. split; [right; left; reflexivity | reflexivity].
  - right. left. right. lia.
Defined.

Lemma replace_unchanged (NEW : submissions.row) (rows : list submissions.row) :
  (forall r, In r rows -> submissions.id r <> submissions.id NEW) ->
  map (fun r => if submissions.id r =? submissions.id NEW then NEW else r) rows = rows.
Proof.
  induction rows as [|x rows IH]; intros H; [reflexivity|].
  cbn [map]. rewrite IH by (intros r Hr; apply H; now right).
  assert (Hx : submissions.id x <> submissions.id NEW) by (apply H; now left).
  apply Z.eqb_neq in Hx. now rewrite Hx.
Qed.

Lemma rows_of_others_keeps (scheduleId : Z) (rows : list submissions.row) :
  (forall r, In r rows -> submissions.scheduleId r <> Some scheduleId) ->
  rows_of_others scheduleId rows = rows.
Proof.
  induction rows as [|x rows IH]; intros H; [reflexivity|].
  unfold rows_of_others in *. cbn [List.filter].
  rewrite IH by (intros r Hr; apply H; now right).
  destruct (Sql.eq (submissions.scheduleId x) scheduleId) eqn:He; [|reflexivity].
  apply Sql_eq_true in He. exfalso. apply (H x); [now left | assumption].
Qed.

Lemma children_of_schedule (scheduleId : Z) (base : list submissions.row)
    (objects : list SubmissionDate.SubmissionDate) :
  (forall r, In r base -> submissions.scheduleId r <> Some scheduleId) ->
  map (fun c => {| SubmissionDate.id := submissions.id c;
                   SubmissionDate.submissionDate := submissions.submissionDate c |})
    (List.filter (fun c => Sql.eq (submissions.scheduleId c) scheduleId)
       (base ++ map (row_of_child scheduleId) objects))
  = objects.
Proof.
  intros Hbase. rewrite List.filter_app, filter_none.
  - cbn [app]. induction objects as [|[i d] objects IH]; [reflexivity|].
    cbn. rewrite Z.eqb_refl. cbn. now rewrite IH.
  - intros r Hr. destruct (Sql.eq _ scheduleId) eqn:He; [|reflexivity].
    apply Sql_eq_true in He. now apply Hbase in Hr.
Qed.

(** The loop of the writer over children whose rows the factory reserved:
    each reserved row is filled in place. *)
Lemma rows_fill (cid a b : Z) (base : list submissions.row)
    (objects : list SubmissionDate.SubmissionDate) :
  forall done db,
    window db cid a b ->
    submissions db
    = (base ++ map (row_of_child cid) done ++ map reserved_row objects)%list ->
    (forall r, In r base -> submissions.scheduleId r <> Some cid) ->
    (forall o r, In o objects -> In r base -> submissions.id r <> SubmissionDate.id o) ->
    List.NoDup (map SubmissionDate.id (done ++ objects)) ->
    Forall (in_window a b) objects ->
    List.NoDup (map SubmissionDate.submissionDate (done ++ objects)) ->
    exists db',
      DatabaseWriter.write_submission_rows cid objects db = (Ok tt, db')
      /\ submissions db' = (base ++ map (row_of_child cid) (done ++ objects))%list
      /\ schedules db' = schedules db.
Proof.
  induction objects as [|o rest IH]; intros done db Hw Hsub Hbase Hfresh Hids Hin Hdates.
  - exists db. split; [reflexivity|]. split; [|reflexivity].
    rewrite Hsub. cbn. now rewrite !app_nil_r.
  - rewrite rows_step, write_submission_row_spec.
    apply Forall_cons_iff in Hin as [(d & Hd & Hrange) Hin].
    rewrite (trigger_in_window db cid a b o Hw), Hd.
    replace ((d <? a) || (b <? d)) with false
      by (symmetry; apply orb_false_iff; split; apply Z.ltb_ge; lia).
    rewrite map_app in Hids, Hdates. cbn [map] in Hids, Hdates.
    pose proof (NoDup_remove_2 _ _ _ Hids) as Hido.
    pose proof (NoDup_remove_2 _ _ _ Hdates) as Hdo.
    destruct (Constraints.submissions_unique_conflict _ db) eqn:Hu.
    { exfalso. apply unique_conflict_inv in Hu as (r & Hr & Hs & Hdate).
      rewrite Hsub in Hr. apply in_app_or in Hr as [Hr | Hr]; [now apply Hbase in Hr|].
      apply in_app_or in Hr as [Hr | Hr].
      - apply in_map_iff in Hr as (o' & <- & Ho'). cbn in Hdate.
        apply Hdo, in_or_app. left. rewrite <- Hdate. now apply in_map.
      - apply in_map_iff in Hr as (o' & <- & _). discriminate Hs. }
    assert (Hup : upsert (row_of_child cid o) (submissions db)
                  = (base ++ map (row_of_child cid) (done ++ [o])
                       ++ map reserved_row rest)%list).
    { unfold upsert.
      replace (existsb _ (submissions db)) with true.
      - rewrite Hsub, !map_app. cbn [map].
        rewrite (replace_unchanged _ base), (replace_unchanged _ (map _ done)),
          (replace_unchanged _ (map reserved_row rest)).
        + cbn [submissions.id reserved_row row_of_child]. rewrite Z.eqb_refl.
          now rewrite <- !app_assoc.
        + intros r (o' & <- & Ho')%in_map_iff. cbn. intros Heq.
          apply Hido, in_or_app. right. rewrite <- Heq. now apply in_map.
        + intros r (o' & <- & Ho')%in_map_iff. cbn. intros Heq.
          apply Hido, in_or_app. left. rewrite <- Heq. now apply in_map.
        + intros r Hr. cbn. apply (Hfresh o r); [now left | assumption].
      - symmetry. apply existsb_exists. exists (reserved_row o). split.
        + rewrite Hsub. apply in_or_app. right. apply in_or_app. right. now left.
        + cbn. apply Z.eqb_refl. }
    destruct (IH (done ++ [o])%list
                (set_submissions (upsert (row_of_child cid o) (submissions db)) db))
      as (db' & Hrun & Hsub' & Hsch').
    + now apply window_set_submissions.
    + exact Hup.
    + assumption.
    + intros o' r Ho' Hr. apply (Hfresh o' r); [now right | assumption].
    + rewrite <- app_assoc. cbn [app]. rewrite map_app. exact Hids.
    + assumption.
    + rewrite <- app_assoc. cbn [app]. rewrite map_app. exact Hdates.
    + exists db'. split; [assumption|]. split; [|assumption].
      rewrite Hsub', <- app_assoc. reflexivity.
Qed.

(** X18: what is saved is what is read.  For a course that exists, and
    dates inside the window no two of which are equal, [saveSchedule]
    returns; [getSchedule] for the course then answers a schedule with the
    id of the course, the start and end dates that were given, and, in some
    order, exactly the submission dates that were given, whatever dates
    were stored for the course before. *)
Theorem saveSchedule_then_getSchedule (db : Database)
    (courseId startDate endDate : Z) (submissionDates : list Z) :
  course_exists db courseId ->
  Forall (fun d => startDate <= d <= endDate) submissionDates ->
  List.NoDup submissionDates ->
  exists s db' s',
    CourseManager.saveSchedule courseId startDate endDate submissionDates db
    = (Ok s, db')
    /\ CourseManager.getSchedule courseId db' = (Ok (Some s'), db')
    /\ CourseSchedule.id s' = courseId
    /\ CourseSchedule.startDate s' = Some startDate
    /\ CourseSchedule.endDate s' = Some endDate
    /\ Permutation
         (map SubmissionDate.submissionDate (CourseSchedule.submissionDates s'))
         (map Some submissionDates).
Proof.
  intros Hex Hin Hnd.
  destruct (saveSchedule_unfold db courseId startDate endDate submissionDates Hex)
    as (schedule & rows & objects & Hrun & Hid & Hdates & Hids & Hfresh).
  cbv zeta in Hrun.
  set (root := CourseSchedule.setSubmissionDates
                 (CourseSchedule.setEndDate
                    (CourseSchedule.setStartDate schedule startDate) endDate)
                 objects) in *.
  set (base := rows_of_others courseId (submissions db)) in *.
  set (db3 := set_submissions (base ++ map reserved_row objects)%list
                (set_schedules rows db)) in *.
  assert (Hroot : CourseSchedule.id root = courseId) by exact Hid.
  assert (Hbase : forall r, In r base -> submissions.scheduleId r <> Some courseId)
    by (intros r; apply rows_of_others_none).
  destruct (write_graph_unfold root db3) as (rows' & Hhead & Hgraph).
  rewrite Hroot in Hhead, Hgraph.
  assert (Hfiltered : List.filter
                        (fun r => negb (Sql.eq (submissions.scheduleId r) courseId))
                        (submissions db3)
                      = (base ++ map (row_of_child courseId) []
                           ++ map reserved_row objects)%list).
  { cbn [submissions db3 set_submissions map app].
    apply (rows_of_others_keeps courseId).
    intros r [Hr | Hr]%in_app_or; [now apply Hbase|].
    apply in_map_iff in Hr as (o & <- & _). discriminate. }
  destruct (rows_fill courseId startDate endDate base objects []
              (set_submissions
                 (List.filter
                    (fun r => negb (Sql.eq (submissions.scheduleId r) courseId))
                    (submissions db3))
                 (set_schedules rows' db3)))
    as (db' & Hloop & Hsub' & Hsch').
  - pose proof (window_after_schedule_row root db3 rows'
                  (List.filter
                     (fun r => negb (Sql.eq (submissions.scheduleId r) courseId))
                     (submissions db3)) startDate endDate eq_refl eq_refl) as Hw.
    rewrite Hroot in Hw. now apply Hw.
  - exact Hfiltered.
  - exact Hbase.
  - intros o r Ho Hr. specialize (Hfresh o r Ho Hr). lia.
  - exact Hids.
  - apply List.Forall_forall. intros o Ho.
    assert (Hd : In (SubmissionDate.submissionDate o) (map Some submissionDates))
      by (rewrite <- Hdates; now apply in_map).
    apply in_map_iff in Hd as (d & Hd & Hdin).
    exists d. split; [now symmetry|].
    now apply (proj1 (List.Forall_forall _ _) Hin).
  - cbn [app]. rewrite Hdates. apply Finite.Injective_map_NoDup; [|assumption].
    now intros x y [= ->].
  - cbn [app] in Hsub'. cbn [schedules set_submissions set_schedules] in Hsch'.
    assert (Hwrite : DatabaseWriter.writeRoot root db3 = (Ok tt, db'))
      by (apply writeRoot_ok; now rewrite Hgraph).
    rewrite (bind_ok _ _ _ _ _ Hwrite) in Hrun.
    exists root, db'. eexists. split; [exact Hrun|].
    assert (Hget : CourseManager.getSchedule courseId db'
                   = (Ok (Some {| CourseSchedule.id := courseId;
                                  CourseSchedule.startDate := Some startDate;
                                  CourseSchedule.endDate := Some endDate;
                                  CourseSchedule.submissionDates := objects |}), db')).
    { unfold CourseManager.getSchedule, ObjectHandler.getCourseSchedule.
      rewrite Hsch'.
      destruct (List.filter _ rows') as [|y more] eqn:Hf; [discriminate Hhead|].
      injection Hhead as ->. cbn [head hd_error option_map].
      cbn [row_of_schedule schedules.id schedules.startDate schedules.endDate
           root CourseSchedule.id CourseSchedule.startDate CourseSchedule.endDate
           CourseSchedule.setSubmissionDates CourseSchedule.setEndDate
           CourseSchedule.setStartDate].
      rewrite Hid, Hsub', (children_of_schedule courseId base objects Hbase).
      reflexivity. }
    split; [exact Hget|]. cbn.
    repeat split. now rewrite Hdates.
Qed.

Lemma saveSchedule_then_getSchedule_witness :
  exists s db' s',
    CourseManager.saveSchedule 2 100 200 [180; 120] Sample.db1 = (Ok s, db')
    /\ CourseManager.getSchedule 2 db' = (Ok (Some s'), db')
    /\ CourseSchedule.id s' = 2
    /\ CourseSchedule.startDate s' = Some 100
    /\ CourseSchedule.endDate s' = Some 200
    /\ Permutation
         (map SubmissionDate.submissionDate (CourseSchedule.submissionDates s'))
         [Some 180; Some 120].
Proof.
  apply (saveSchedule_then_getSchedule Sample.db1 2 100 200 [180; 120]).
  - eexists. split; [right; left; reflexivity | reflexivity].
  - repeat constructor; lia.
  - constructor; [intros [H | []]; discriminate H|].
    constructor; [intros []|]. constructor.
Defined.

(** ** The handlers that write the status and the role of a user *)

Lemma falsy_false (v : option string) :
  UserController.falsy v = false <-> exists s, v = Some s /\ s <> "".
Proof.
  destruct v as [s|]; cbn.
  - rewrite String.eqb_neq. split; [eauto | now intros (s' & [= <-] & H)].
  - split; [discriminate | now intros (s & [=] & _)].
Qed.

Lemma has_email_true (email : string) (r : users.row) :
  UserController.has_email email r = true <-> users.email r = Some email.
Proof.
  unfold UserController.has_email. destruct (users.email r) as [e|]; [|split; discriminate].
  rewrite String.eqb_eq. split; congruence.
Qed.

Lemma updateUserStatus_run {S : EmailService} (w : World) (e s : string) :
  e <> "" -> s <> "" ->
  UserController.updateUserStatus (Some e) (Some s) w
  = match mail_for s e with
    | Some m =>
        match deliver m with
        | Ok _ =>
            (Ok {| statusCode := 200; message := "User status updated successfully" |},
             {| database :=
                  set_users
                    (map (fun r => if UserController.has_email e r
                                   then UserController.with_status s r else r)
                       (users (database w))) (database w);
                outbox := (outbox w ++ [m])%list |})
        | Throw x => (Throw x, w)
        end
    | None =>
        (Ok {| statusCode := 200; message := "User status updated successfully" |},
         {| database :=
              set_users
                (map (fun r => if UserController.has_email e r
                               then UserController.with_status s r else r)
                   (users (database w))) (database w);
            outbox := outbox w |})
    end.
Proof.
  intros He Hs. unfold UserController.updateUserStatus.
  apply String.eqb_neq in He, Hs. cbn [UserController.falsy]. rewrite He, Hs.
  cbn [orb]. cbv zeta. change (default "" (Some e)) with e.
  change (default "" (Some s)) with s. unfold mail_for.
  destruct (String.eqb s "suspended").
  - unfold bind at 1, UserController.sendSuspendedEmail, UserController.sendEmail.
    fold (suspended_mail e). destruct (deliver (suspended_mail e)); reflexivity.
  - destruct (String.eqb s "removed").
    + unfold bind at 1, UserController.sendRemovedEmail, UserController.sendEmail.
      fold (removed_mail e). destruct (deliver (removed_mail e)); reflexivity.
    + destruct w. reflexivity.
Qed.



(** X20: the mail goes first.  For a non-empty address and the status
    [suspended] or [removed], [updateUserStatus] hands exactly one mail for
    that address to the service before it touches the database; when the
    service throws, the exception leaves the handler, no answer is given
    and the status is not written.  For every other non-empty status no
    mail is sent. *)
Theorem updateUserStatus_mail_first {S : EmailService} (w : World) (e s : string) :
  e <> "" -> s <> "" ->
  (forall m x, mail_for s e = Some m -> deliver m = Throw x ->
               UserController.updateUserStatus (Some e) (Some s) w = (Throw x, w))
  /\
  (forall m, mail_for s e = Some m -> deliver m = Ok tt ->
             outbox (snd (UserController.updateUserStatus (Some e) (Some s) w))
             = (outbox w ++ [m])%list
             /\ mail_to m = e)
  /\
  (s <> "suspended" -> s <> "removed" ->
   outbox (snd (UserController.updateUserStatus (Some e) (Some s) w)) = outbox w).
Proof.
  intros He Hs. rewrite (updateUserStatus_run w e s He Hs).
  split; [|split].
  - intros m x -> ->. reflexivity.
  - intros m Hm Hd. rewrite Hm, Hd. split; [reflexivity|].
    unfold mail_for in Hm.
    destruct (String.eqb s "suspended"); [now injection Hm as <-|].
    destruct (String.eqb s "removed"); [now injection Hm as <- | discriminate].
  - intros H1%String.eqb_neq H2%String.eqb_neq. unfold mail_for. now rewrite H1, H2.
Qed.

Lemma updateUserStatus_mail_first_witness :
  @UserController.updateUserStatus failing_service
    (Some "bob@example.org") (Some "suspended") world1
  = (Throw (Error "SMTP connection refused"), world1)
  /\
  outbox (snd (@UserController.updateUserStatus willing_service
                 (Some "bob@example.org") (Some "removed") world1))
  = [removed_mail "bob@example.org"].
Proof.
  split.
  - apply (proj1 (@updateUserStatus_mail_first failing_service world1
                    "bob@example.org" "suspended" ltac:(discriminate) ltac:(discriminate))
             (suspended_mail "bob@example.org")); reflexivity.
  - apply (proj1 (proj2 (@updateUserStatus_mail_first willing_service world1
                    "bob@example.org" "removed" ltac:(discriminate) ltac:(discriminate)))
             (removed_mail "bob@example.org")); reflexivity.
Defined.

(** X21: what the three handlers refuse.  When a field they need is absent
    or the empty string, [updateUserStatus], [updateUserRole] and
    [updateAllConfirmedUsers] answer 400, write nothing and send no
    mail. *)
Theorem update_handlers_refuse {S : EmailService} (w : World) (a b : option string) :
  (UserController.falsy a = true \/ UserController.falsy b = true ->
   UserController.updateUserStatus a b w
   = (Ok {| statusCode := 400; message := "Please provide email and status" |}, w)
   /\ UserController.updateUserRole a b w
      = (Ok {| statusCode := 400; message := "Please provide email and role" |}, w))
  /\
  (UserController.falsy a = true ->
   UserController.updateAllConfirmedUsers a w
   = (Ok {| statusCode := 400; message := "Status is required" |}, w)).
Proof.
  split.
  - intros H. unfold UserController.updateUserStatus, UserController.updateUserRole.
    replace (UserController.falsy a || UserController.falsy b) with true
      by (symmetry; apply orb_true_iff; exact H).
    split; reflexivity.
  - intros H. unfold UserController.updateAllConfirmedUsers. now rewrite H.
Qed.

Lemma update_handlers_refuse_witness :
  @UserController.updateUserStatus willing_service (Some "eve@example.org") (Some "") world1
  = (Ok {| statusCode := 400; message := "Please provide email and status" |}, world1)
  /\
  UserController.updateAllConfirmedUsers None world1
  = (Ok {| statusCode := 400; message := "Status is required" |}, world1).
Proof.
  split.
  - apply (proj1 (@update_handlers_refuse willing_service world1
                    (Some "eve@example.org") (Some ""))).
    right. reflexivity.
  - apply (proj2 (@update_handlers_refuse willing_service world1 None None)).
    reflexivity.
Defined.

(** X22: [updateUserStatus] can store what [User] cannot load.  For a
    non-empty address the [Email] class accepts and a non-empty status that
    is no member of the enumeration, the handler answers 200, and a fresh
    [User] can then not be populated from the row it has written:
    [readFrom] throws the invalid-transition error. *)
Theorem updateUserStatus_then_readFrom {S : EmailService} {E : EmailClass}
    (w : World) (e s : string) (r : users.row) (id0 : Z) (h : heap) :
  e <> "" -> s <> "" ->
  (forall m, s <> Spec.Status_tag m) ->
  In r (users (database w)) ->
  users.email r = Some e ->
  (exists x, Email_new e = Ok x) ->
  exists w',
    UserController.updateUserStatus (Some e) (Some s) w
    = (Ok {| statusCode := 200; message := "User status updated successfully" |}, w')
    /\ In (UserController.with_status s r) (users (database w'))
    /\ exists u0 u',
         User.new id0 h = (Ok u0, (h ++ [UserStatusObject "unconfirmed"])%list)
         /\ User.readFrom (reader_of_user_row (UserController.with_status s r))
              (u0, (h ++ [UserStatusObject "unconfirmed"])%list)
            = (Throw (Error ("Invalid transition from unconfirmed to " ++ s)),
               (u', (h ++ [UserStatusObject "unconfirmed"])%list)).
Proof.
  intros He Hs Hout Hr Hmail (x & Hx).
  rewrite (updateUserStatus_run w e s He Hs).
  assert (Hnone : mail_for s e = None).
  { unfold mail_for.
    assert (H1 : String.eqb s "suspended" = false)
      by (apply String.eqb_neq; apply (Hout Spec.suspended)).
    assert (H2 : String.eqb s "removed" = false)
      by (apply String.eqb_neq; apply (Hout Spec.removed)).
    now rewrite H1, H2. }
  rewrite Hnone. eexists. split; [reflexivity|]. split.
  - cbn [database users set_users]. apply in_map_iff. exists r.
    apply has_email_true in Hmail. now rewrite Hmail.
  - set (rd := reader_of_user_row (UserController.with_status s r)).
    assert (Hrd : email_readable rd).
    { right. exists e, x. split; [exact Hmail | exact Hx]. }
    assert (Hnew : exists u0, User.new id0 h
                              = (Ok u0, (h ++ [UserStatusObject "unconfirmed"])%list)
                              /\ User.status u0 = length h)
      by (eexists; split; reflexivity).
    destruct Hnew as (u0 & Hnew & Hst0). exists u0.
    cut (exists u', User.readFrom rd (u0, (h ++ [UserStatusObject "unconfirmed"])%list)
                    = (Throw (Error ("Invalid transition from unconfirmed to " ++ s)),
                       (u', (h ++ [UserStatusObject "unconfirmed"])%list))
                    /\ read_up_to_status rd u0 u').
    { intros (u' & Hthrow & _). exists u'. split; [exact Hnew | exact Hthrow]. }
    apply (readFrom_refused rd _ _ _ Hrd). rewrite Hst0.
    change (readString rd "status") with (Some s).
    cbn [User.status_transitionTo User.status].
    apply (UserStatus_transitionTo_invalid _ _ Spec.unconfirmed s (lookup_alloc h _)).
    + apply (Hout Spec.unconfirmed).
    + intros m Hm. exfalso. now apply (Hout m).
Qed.

Lemma updateUserStatus_then_readFrom_witness :
  exists w',
    @UserController.updateUserStatus willing_service
      (Some "bob@example.org") (Some "banned") world1
    = (Ok {| statusCode := 200; message := "User status updated successfully" |}, w')
    /\ In (UserController.with_status "banned" confirmed_user_row) (users (database w'))
    /\ exists u0 u',
         @User.new Sample.plain_email 5 [] = (Ok u0, [UserStatusObject "unconfirmed"])
         /\ User.readFrom
              (reader_of_user_row (UserController.with_status "banned" confirmed_user_row))
              (u0, [UserStatusObject "unconfirmed"])
            = (Throw (Error "Invalid transition from unconfirmed to banned"),
               (u', [UserStatusObject "unconfirmed"])).
Proof.
  apply (@updateUserStatus_then_readFrom willing_service Sample.plain_email world1
           "bob@example.org" "banned" confirmed_user_row 5 []).
  - discriminate.
  - discriminate.
  - intros []; discriminate.
  - right. left. reflexivity.
  - reflexivity.
  - now exists "bob@example.org".
Defined.






(** ** The window trigger *)

(** X25: when the window trigger stops a row.  An insert or update of a
    row of [submissions] is aborted by the trigger exactly when the row has
    a date, its schedule id names a stored schedule, and the date is before
    a start date or after an end date that this schedule has.  A row
    without a date, a row without a schedule id or with one that names no
    schedule, and any row of a schedule whose dates are [NULL], pass. *)
Theorem submissions_trigger_aborts_iff (NEW : submissions.row) (db : Database) :
  Constraints.submissions_trigger NEW db = true
  <->
  exists d sid r rest,
    submissions.submissionDate NEW = Some d
    /\ submissions.scheduleId NEW = Some sid
    /\ List.filter (fun r => schedules.id r =? sid) (schedules db) = r :: rest
    /\ ((exists a, schedules.startDate r = Some a /\ d < a)
        \/ (exists b, schedules.endDate r = Some b /\ b < d)).
Proof.
  unfold Constraints.submissions_trigger, Constraints.schedule_column.
  destruct (submissions.submissionDate NEW) as [d|] eqn:Hd;
    [|split; [intros H; discriminate H | intros (? & ? & ? & ? & [=] & _)]].
  destruct (submissions.scheduleId NEW) as [sid|] eqn:Hsid;
    [|split; [intros H; discriminate H | intros (? & ? & ? & ? & _ & [=] & _)]].
  destruct (List.filter (fun r => schedules.id r =? sid) (schedules db))
    as [|r rest] eqn:Hf;
    [split; [intros H; discriminate H
            | intros (? & ? & ? & ? & _ & [= <-] & Heq & _);
              rewrite Hf in Heq; discriminate Heq]|].
  cbn [head hd_error].
  split.
  - intros H. exists d, sid, r, rest.
    split; [reflexivity|]. split; [reflexivity|]. split; [exact Hf|].
    destruct (schedules.startDate r) as [a|], (schedules.endDate r) as [b|]; cbn in H.
    + destruct (d <? a) eqn:Ha; [left; exists a; split; [reflexivity | now apply Z.ltb_lt]|].
      destruct (b <? d) eqn:Hb; [|discriminate].
      right. exists b. split; [reflexivity | now apply Z.ltb_lt].
    + destruct (d <? a) eqn:Ha; [|discriminate].
      left. exists a. split; [reflexivity | now apply Z.ltb_lt].
    + destruct (b <? d) eqn:Hb; [|discriminate].
      right. exists b. split; [reflexivity | now apply Z.ltb_lt].
    + discriminate.
  - intros (d' & sid' & r' & rest' & [= <-] & [= <-] & Heq & Hcase).
    rewrite Hf in Heq. injection Heq as <- <-.
    destruct Hcase as [(a & -> & Hlt) | (b & -> & Hlt)].
    + apply Z.ltb_lt in Hlt. cbn. rewrite Hlt.
      now destruct (schedules.endDate r).
    + apply Z.ltb_lt in Hlt. cbn. rewrite Hlt.
      destruct (schedules.startDate r) as [a|]; [|reflexivity].
      cbn. now destruct (d <? a).
Qed.

Lemma submissions_trigger_aborts_iff_witness :
  Constraints.submissions_trigger
    {| submissions.id := 9; submissions.scheduleId := Some 2;
       submissions.submissionDate := Some 50 |} Sample.db1 = true
  /\
  ~ (exists d sid r rest,
       submissions.submissionDate
         {| submissions.id := 9; submissions.scheduleId := Some 7;
            submissions.submissionDate := None |} = Some d
       /\ submissions.scheduleId
            {| submissions.id := 9; submissions.scheduleId := Some 7;
               submissions.submissionDate := None |} = Some sid
       /\ List.filter (fun r => schedules.id r =? sid) (schedules Sample.db1) = r :: rest
       /\ ((exists a, schedules.startDate r = Some a /\ d < a)
           \/ (exists b, schedules.endDate r = Some b /\ b < d))).
Proof.
  split.
  - apply (proj2 (submissions_trigger_aborts_iff _ Sample.db1)).
    exists 50, 2,
      {| schedules.id := 2; schedules.startDate := Some 100; schedules.endDate := Some 200 |},
      [].
    repeat split. left. exists 100. split; [reflexivity | lia].
  - intros H.
    apply (proj2 (submissions_trigger_aborts_iff _ Sample.db1)) in H.
    discriminate H.
Defined.
